(** * Agent-pipeline engine: graph compiler, routers, cache and run executor

    A shallow embedding of the engine's core modules

      - [app/agents/state.py]     the execution state threaded through a run
      - [app/agents/registry.py]  agent types and resolved agents
      - [app/agents/nodes.py]     node executors and the three routers
      - [app/agents/builder.py]   the four topology builders
      - [app/agents/cache.py]     the hash-gated graph cache
      - [app/runtime.py]          the run executor, its event stream and the
                                  input contracts
      - [app/config.py]           endpoints, schedules and the validators of
                                  the engine configuration
      - [app/tools/__init__.py]   the tool registry
      - [app/main.py]             the server-sent events of an endpoint

    Python values are modelled as follows.  A [str] is a [string] holding the
    UTF-8 bytes of the text (a lone surrogate in the three-byte pattern), so
    every operation on characters reads the bytes as code points.  An [int] is
    a [Z].  A dictionary used as a map is a [gmap]; a decoded JSON document is
    a [JValue].  A function that may raise returns a [result]; a function that
    mutates the state dictionary it is handed returns the dictionary it leaves
    behind.  The language model and the tools are external capabilities: they
    are fields of an [Env] record, and every theorem quantifies over all of
    them.  What the interpreter and the libraries decide (how deep a JSON
    document may nest, how long an integer literal may be, the tables of the
    Unicode database, the wording of a validation error) is a [Platform], and
    every theorem with a [Platform] binder holds for all of them.  *)

From Stdlib Require Import ZArith NArith Lia Bool Ascii.
From stdpp Require Import base option list strings pretty gmap sorting.

Open Scope Z_scope.
Set Warnings "-register-all".

(* ===================================================================== *)
(** * Exceptions and fallible computations                                *)
(* ===================================================================== *)

(** The exception classes that the modelled code raises or catches.  All of
    them derive from Python's [Exception]; [JSONDecodeError] derives from
    [ValueError] and [RecursionError] from [RuntimeError], and no handler of
    the modelled code names [ValueError] or [RuntimeError]. *)
Inductive ExnType :=
  | RuntimeError
  | RecursionError
  | ValueError
  | KeyError
  | IndexError
  | AttributeError
  | TypeError
  | JSONDecodeError
  | ValidationError
  | GraphRecursionError
  | OtherError (cls : string).

(** An exception: its class and the text of [str(e)]. *)
Record Exn := mkExn { exn_type : ExnType; exn_str : string }.

Inductive result (A : Type) :=
  | Ok (a : A)
  | Raise (e : Exn).
Arguments Ok {A} a.
Arguments Raise {A} e.

#[global] Instance ExnType_eq_dec : EqDecision ExnType.
Proof. solve_decision. Defined.

#[global] Instance result_ret : MRet result := fun A a => Ok a.
#[global] Instance result_bind : MBind result := fun A B k m =>
  match m with
  | Ok a => k a
  | Raise e => Raise e
  end.

(* ===================================================================== *)
(** * JSON values and the platform                                        *)
(* ===================================================================== *)

(** What [json.loads] returns: [None], a [bool], an [int], a [float] (kept as
    its lexeme), a [str], a [list] or a [dict].  A [dict] keeps its members in
    document order; a key that occurs twice is read at its last occurrence, as
    the Python decoder keeps the last value. *)
Inductive JValue :=
  | JNull
  | JBool (b : bool)
  | JInt (z : Z)
  | JFloat (lexeme : string)
  | JString (s : string)
  | JArray (items : list JValue)
  | JObject (members : list (string * JValue)).

(** What the engine's behaviour owes to the interpreter and the libraries it
    runs on, none of which is in the engine's source:
    - [recursion_budget]: how many arrays and objects, one inside the other,
      [json.loads] may enter where it is called before the interpreter raises
      [RecursionError] (the recursion limit less the depth of the stack);
      there is room for one at least, or no routing message could be read;
    - [int_max_str_digits]: [sys.get_int_max_str_digits()], the longest
      integer literal that converts to an [int]; [0] lifts the limit, and the
      interpreter accepts no other limit below 640;
    - [isprintable]: [str.isprintable] of the character with a code point,
      which [repr] consults above the ASCII range;
    - [str_lower]: [str.lower];
    - [validation_error]: the text of the [ValidationError] with which
      pydantic refuses an input for a model or a tool. *)
Class Platform := {
  recursion_budget : nat;
  int_max_str_digits : nat;
  isprintable : Z -> bool;
  str_lower : string -> string;
  validation_error : string -> JValue -> string;
  recursion_budget_positive : (0 < recursion_budget)%nat;
  str_digits_check_threshold :
    int_max_str_digits = 0%nat \/ (640 <= int_max_str_digits)%nat
}.

(* ===================================================================== *)
(** * Python strings                                                      *)
(* ===================================================================== *)

Module Py.

(** The double quote character and the one-character string holding it. *)
Abbreviation dquote := (Ascii false true false false false true false false).
Definition quote : string := String dquote EmptyString.

Definition code (c : ascii) : Z := Z.of_N (N_of_ascii c).
Definition chr (z : Z) : ascii := ascii_of_N (Z.to_N z).

(** UTF-8 bytes of a code point (a lone surrogate is written with the
    three-byte pattern). *)
Definition utf8 (cp : Z) : string :=
  if cp <? 128 then String (chr cp) ""
  else if cp <? 2048 then
    String (chr (192 + cp / 64)) (String (chr (128 + cp mod 64)) "")
  else if cp <? 65536 then
    String (chr (224 + cp / 4096))
      (String (chr (128 + (cp / 64) mod 64))
         (String (chr (128 + cp mod 64)) ""))
  else
    String (chr (240 + cp / 262144))
      (String (chr (128 + (cp / 4096) mod 64))
         (String (chr (128 + (cp / 64) mod 64))
            (String (chr (128 + cp mod 64)) ""))).

(** The code points of a UTF-8 byte string.  A byte that does not start a
    well-formed sequence is read as the code point of its value. *)
Fixpoint code_points (s : string) : list Z :=
  match s with
  | EmptyString => []
  | String a r =>
      let x := code a in
      let cont (c : ascii) := (128 <=? code c) && (code c <? 192) in
      let low (c : ascii) := code c - 128 in
      if x <? 128 then x :: code_points r
      else
        match r with
        | String b r1 =>
            if (192 <=? x) && (x <? 224) && cont b
            then ((x - 192) * 64 + low b) :: code_points r1
            else
              match r1 with
              | String c r2 =>
                  if (224 <=? x) && (x <? 240) && cont b && cont c
                  then (((x - 224) * 64 + low b) * 64 + low c) :: code_points r2
                  else
                    match r2 with
                    | String d r3 =>
                        if (240 <=? x) && cont b && cont c && cont d
                        then ((((x - 240) * 64 + low b) * 64 + low c) * 64 + low d)
                               :: code_points r3
                        else x :: code_points r
                    | EmptyString => x :: code_points r
                    end
              | EmptyString => x :: code_points r
              end
        | EmptyString => [x]
        end
  end.

(** [str.isspace]: in the ASCII range TAB, LF, VT, FF, CR, FS, GS, RS, US and
    the space; above it U+0085 and U+00A0 (two bytes), and U+1680, U+2000 to
    U+200A, U+2028, U+2029, U+202F, U+205F and U+3000 (three bytes). *)
Definition isspace (c : ascii) : bool :=
  let n := code c in
  ((9 <=? n) && (n <=? 13)) || ((28 <=? n) && (n <=? 32)).

Definition isspace2 (a b : ascii) : bool :=
  (code a =? 194) && ((code b =? 133) || (code b =? 160)).

Definition isspace3 (a b c : ascii) : bool :=
  let x := code a in
  let y := code b in
  let z := code c in
  ((x =? 225) && (y =? 154) && (z =? 128))
  || ((x =? 226) && (y =? 128)
      && (((128 <=? z) && (z <=? 138)) || (z =? 168) || (z =? 169) || (z =? 175)))
  || ((x =? 226) && (y =? 129) && (z =? 159))
  || ((x =? 227) && (y =? 128) && (z =? 128)).

Fixpoint lstrip (s : string) : string :=
  match s with
  | EmptyString => EmptyString
  | String a r =>
      if isspace a then lstrip r
      else
        match r with
        | String b r1 =>
            if isspace2 a b then lstrip r1
            else
              match r1 with
              | String c r2 => if isspace3 a b c then lstrip r2 else s
              | EmptyString => s
              end
        | EmptyString => s
        end
  end.

(** The text holds white space only. *)
Fixpoint all_space (s : string) : bool :=
  match s with
  | EmptyString => true
  | String a r =>
      if isspace a then all_space r
      else
        match r with
        | String b r1 =>
            if isspace2 a b then all_space r1
            else
              match r1 with
              | String c r2 => if isspace3 a b c then all_space r2 else false
              | EmptyString => false
              end
        | EmptyString => false
        end
  end.

Fixpoint rstrip (s : string) : string :=
  match s with
  | EmptyString => EmptyString
  | String a r => if all_space s then EmptyString else String a (rstrip r)
  end.

(** [s.strip()] *)
Definition strip (s : string) : string := rstrip (lstrip s).

(** [s.lower()] *)
Definition lower `{py : Platform} (s : string) : string := str_lower s.

(** [str.lower] on text of the ASCII range. *)
Definition lower_char (c : ascii) : ascii :=
  let n := code c in
  if (65 <=? n) && (n <=? 90) then chr (n + 32) else c.

Fixpoint lower_ascii (s : string) : string :=
  match s with
  | String c r => String (lower_char c) (lower_ascii r)
  | EmptyString => EmptyString
  end.

Fixpoint startswith (s p : string) : bool :=
  match p, s with
  | EmptyString, _ => true
  | String a p', String b s' => if decide (a = b) then startswith s' p' else false
  | String _ _, EmptyString => false
  end.

(** [needle in hay] for two strings *)
Fixpoint contains (needle hay : string) : bool :=
  startswith hay needle ||
  match hay with
  | String _ r => contains needle r
  | EmptyString => false
  end.

(** ["sep".join(parts)] *)
Fixpoint join (sep : string) (parts : list string) : string :=
  match parts with
  | [] => ""
  | [p] => p
  | p :: rest => p +:+ sep +:+ join sep rest
  end.

(** Truth value of a string: [bool(s)] *)
Definition nonempty (s : string) : bool :=
  match s with EmptyString => false | _ => true end.

(** [x in names] for a list of strings *)
Definition mem (x : string) (names : list string) : bool :=
  bool_decide (x ∈ names).

Definition hex_digit (n : Z) : ascii :=
  if n <? 10 then chr (48 + n) else chr (87 + n).

(** The last [k] hexadecimal digits of [n], in lower case. *)
Fixpoint hex_digits (k : nat) (n : Z) : string :=
  match k with
  | O => ""
  | S k' => hex_digits k' (n / 16) +:+ String (hex_digit (n mod 16)) ""
  end.

(** One character of [repr(s)] between the quotes [q]. *)
Definition repr_char `{py : Platform} (q : ascii) (cp : Z) : string :=
  if (cp =? code q) || (cp =? 92) then String "\"%char (String (chr cp) "")
  else if cp =? 9 then "\t"
  else if cp =? 10 then "\n"
  else if cp =? 13 then "\r"
  else if (cp <? 32) || (cp =? 127) then "\x" +:+ hex_digits 2 cp
  else if cp <? 127 then String (chr cp) ""
  else if isprintable cp then utf8 cp
  else if cp <? 256 then "\x" +:+ hex_digits 2 cp
  else if cp <? 65536 then "\u" +:+ hex_digits 4 cp
  else "\U" +:+ hex_digits 8 cp.

(** [repr(s)]: between double quotes when the text holds an apostrophe and
    no double quote, between apostrophes otherwise. *)
Definition repr_str `{py : Platform} (s : string) : string :=
  let q := if contains "'" s && negb (contains quote s) then dquote else "'"%char in
  String q (foldr (fun cp acc => repr_char q cp +:+ acc) (String q "") (code_points s)).

(** [repr(l)] for a list of strings *)
Definition repr_list `{py : Platform} (l : list string) : string :=
  "[" +:+ join ", " (map repr_str l) +:+ "]".

(** [str(n)] for a natural number *)
Definition str_of_nat (n : nat) : string := pretty n.

Definition LF : string := String (chr 10) EmptyString.

End Py.

(* ===================================================================== *)
(** * [json.loads] and [json.dumps]                                       *)
(* ===================================================================== *)

Module Json.

(** [type(v).__name__] *)
Definition type_name (v : JValue) : string :=
  match v with
  | JNull => "NoneType"
  | JBool _ => "bool"
  | JInt _ => "int"
  | JFloat _ => "float"
  | JString _ => "str"
  | JArray _ => "list"
  | JObject _ => "dict"
  end.

(** [v == s] for a string [s]: only a [str] equals a [str]. *)
Definition eq_str (v : JValue) (s : string) : bool :=
  match v with
  | JString t => bool_decide (t = s)
  | _ => false
  end.

(** [d[k]] on the members of a [dict]: the last occurrence wins. *)
Fixpoint lookup_member (k : string) (l : list (string * JValue)) : option JValue :=
  match l with
  | [] => None
  | (k', v) :: r =>
      match lookup_member k r with
      | Some v' => Some v'
      | None => if decide (k' = k) then Some v else None
      end
  end.

(** [v.get(k, dflt)]: raises [AttributeError] unless [v] is a [dict]. *)
Definition get (v : JValue) (k : string) (dflt : JValue) : result JValue :=
  match v with
  | JObject l => Ok (default dflt (lookup_member k l))
  | _ => Raise (mkExn AttributeError
                  ("'" +:+ type_name v +:+ "' object has no attribute 'get'"))
  end.

(** [k in v] for a [dict] [v]; the code reaches it only after [v.get] has
    returned, so [v] is a [dict] there. *)
Definition has_key (v : JValue) (k : string) : bool :=
  match v with
  | JObject l => match lookup_member k l with Some _ => true | None => false end
  | _ => false
  end.

(** ** Decoder *)

Definition is_ws (c : ascii) : bool :=
  let n := Py.code c in (n =? 32) || (n =? 9) || (n =? 10) || (n =? 13).

Fixpoint skip_ws (s : string) : string :=
  match s with
  | String c r => if is_ws c then skip_ws r else s
  | EmptyString => EmptyString
  end.

Definition is_digit (c : ascii) : bool :=
  let n := Py.code c in (48 <=? n) && (n <=? 57).

Definition hex_val (c : ascii) : option Z :=
  let n := Py.code c in
  if (48 <=? n) && (n <=? 57) then Some (n - 48)
  else if (97 <=? n) && (n <=? 102) then Some (n - 87)
  else if (65 <=? n) && (n <=? 70) then Some (n - 55)
  else None.

(** Four hexadecimal digits of a [\uXXXX] escape. *)
Definition hex4 (s : string) : option (Z * string) :=
  match s with
  | String a (String b (String c (String d r))) =>
      match hex_val a, hex_val b, hex_val c, hex_val d with
      | Some x, Some y, Some z, Some w => Some (((x * 16 + y) * 16 + z) * 16 + w, r)
      | _, _, _, _ => None
      end
  | _ => None
  end.

(** The body of a string literal, after its opening quote.  In strict mode
    a raw control character is an error. *)
Fixpoint scan_string (fuel : nat) (s : string) (acc : string) : option (string * string) :=
  match fuel with
  | O => None
  | S fuel' =>
      match s with
      | EmptyString => None
      | String c r =>
          if decide (c = Py.dquote) then Some (acc, r)
          else if decide (c = "\"%char) then
            match r with
            | String e r' =>
                if decide (e = "u"%char) then
                  match hex4 r' with
                  | None => None
                  | Some (hi, r'') =>
                      let pair :=
                        if (55296 <=? hi) && (hi <=? 56319) then
                          match r'' with
                          | String "\"%char (String "u"%char r3) =>
                              match hex4 r3 with
                              | Some (lo, r4) =>
                                  if (56320 <=? lo) && (lo <=? 57343)
                                  then Some (65536 + (hi - 55296) * 1024 + (lo - 56320), r4)
                                  else None
                              | None => None
                              end
                          | _ => None
                          end
                        else None in
                      match pair with
                      | Some (cp, r4) => scan_string fuel' r4 (acc +:+ Py.utf8 cp)
                      | None => scan_string fuel' r'' (acc +:+ Py.utf8 hi)
                      end
                  end
                else
                  let plain (x : Z) := scan_string fuel' r' (acc +:+ String (Py.chr x) "") in
                  if decide (e = Py.dquote) then plain 34
                  else if decide (e = "\"%char) then plain 92
                  else if decide (e = "/"%char) then plain 47
                  else if decide (e = "b"%char) then plain 8
                  else if decide (e = "f"%char) then plain 12
                  else if decide (e = "n"%char) then plain 10
                  else if decide (e = "r"%char) then plain 13
                  else if decide (e = "t"%char) then plain 9
                  else None
            | EmptyString => None
            end
          else if Py.code c <? 32 then None
          else scan_string fuel' r (acc +:+ String c "")
      end
  end.

Fixpoint take_digits (s : string) : string * string :=
  match s with
  | String c r =>
      if is_digit c then let '(d, r') := take_digits r in (String c d, r') else ("", s)
  | EmptyString => ("", "")
  end.

Fixpoint digits_value (s : string) (acc : Z) : Z :=
  match s with
  | String c r => digits_value r (acc * 10 + (Py.code c - 48))
  | EmptyString => acc
  end.

(** The integer part of a number: an optional minus sign, then a single
    zero or a non-zero digit followed by any digits. *)
Definition scan_int (s : string) : option (bool * string * string) :=
  let '(neg, s1) :=
    match s with
    | String "-"%char r => (true, r)
    | _ => (false, s)
    end in
  match s1 with
  | String "0"%char r => Some (neg, "0", r)
  | String c _ =>
      if is_digit c then let '(d, r) := take_digits s1 in Some (neg, d, r) else None
  | EmptyString => None
  end.

(** The optional fraction (a dot and at least one digit) and the optional
    exponent (e or E, an optional sign, at least one digit) of a number;
    either is taken only when it matches in full. *)
Definition scan_frac (s : string) : string * string :=
  match s with
  | String "."%char r =>
      match take_digits r with
      | (EmptyString, _) => ("", s)
      | (d, r') => ("." +:+ d, r')
      end
  | _ => ("", s)
  end.

Definition scan_exp (s : string) : string * string :=
  match s with
  | String e r =>
      if bool_decide (e = "e"%char) || bool_decide (e = "E"%char) then
        let '(sign, r1) :=
          match r with
          | String "+"%char r' => ("+", r')
          | String "-"%char r' => ("-", r')
          | _ => ("", r)
          end in
        match take_digits r1 with
        | (EmptyString, _) => ("", s)
        | (d, r2) => (String e sign +:+ d, r2)
        end
      else ("", s)
  | EmptyString => ("", s)
  end.

(** The value of the exponent part of a float lexeme. *)
Definition exponent_value (ex : string) : Z :=
  match ex with
  | String _ (String "-"%char d) => - digits_value d 0
  | String _ (String "+"%char d) => digits_value d 0
  | String _ d => digits_value d 0
  | EmptyString => 0
  end.

(** Whether [float] converts a lexeme to zero.  The conversion rounds to
    the nearest double, ties to even, so the lexemes that give zero are those
    of a value of at most 2^-1075, half the smallest positive double.  The
    lexemes [NaN], [Infinity] and [-Infinity] have no digits and are not
    zero. *)
Definition float_is_zero (lexeme : string) : bool :=
  let unsigned :=
    match lexeme with
    | String "-"%char r => r
    | _ => lexeme
    end in
  let '(int_digits, r) := take_digits unsigned in
  match int_digits with
  | EmptyString => false
  | _ =>
      let '(frac, r1) := scan_frac r in
      let '(ex, _) := scan_exp r1 in
      let frac_digits :=
        match frac with
        | String _ d => d
        | EmptyString => ""
        end in
      let m := digits_value (int_digits +:+ frac_digits) 0 in
      let k := exponent_value ex - Z.of_nat (String.length frac_digits) in
      (m =? 0) || ((k <? 0) && (m * 2 ^ 1075 <=? 10 ^ (- k)))
  end.

(** [bool(v)] *)
Definition truthy (v : JValue) : bool :=
  match v with
  | JNull => false
  | JBool b => b
  | JInt z => negb (z =? 0)
  | JFloat lx => negb (float_is_zero lx)
  | JString s => Py.nonempty s
  | JArray l => match l with [] => false | _ => true end
  | JObject l => match l with [] => false | _ => true end
  end.

(** The [ValueError] of an integer literal with more digits than the
    interpreter converts. *)
Definition digits_error `{py : Platform} (digits : nat) : Exn :=
  mkExn ValueError
    ("Exceeds the limit (" +:+ pretty int_max_str_digits
     +:+ " digits) for integer string conversion: value has " +:+ pretty digits
     +:+ " digits; use sys.set_int_max_str_digits() to increase the limit").

(** A number at the head of [s]: [None] when there is none, the
    [ValueError] above when it is an integer literal that is too long. *)
Definition scan_number `{py : Platform} (s : string) : option (result (JValue * string)) :=
  match scan_int s with
  | None => None
  | Some (neg, d, r) =>
      let '(frac, r1) := scan_frac r in
      let '(ex, r2) := scan_exp r1 in
      let sign := if neg then "-" else "" in
      match frac, ex with
      | EmptyString, EmptyString =>
          if bool_decide (0 < int_max_str_digits < String.length d)%nat
          then Some (Raise (digits_error (String.length d)))
          else Some (Ok (JInt (if neg then - digits_value d 0 else digits_value d 0), r2))
      | _, _ => Some (Ok (JFloat (sign +:+ d +:+ frac +:+ ex), r2))
      end
  end.

Definition scan_literal (s : string) : option (JValue * string) :=
  if Py.startswith s "null" then Some (JNull, String.substring 4 (String.length s - 4) s)
  else if Py.startswith s "true" then Some (JBool true, String.substring 4 (String.length s - 4) s)
  else if Py.startswith s "false" then Some (JBool false, String.substring 5 (String.length s - 5) s)
  else None.

Definition scan_constant (s : string) : option (JValue * string) :=
  if Py.startswith s "NaN" then Some (JFloat "NaN", String.substring 3 (String.length s - 3) s)
  else if Py.startswith s "Infinity" then
    Some (JFloat "Infinity", String.substring 8 (String.length s - 8) s)
  else if Py.startswith s "-Infinity" then
    Some (JFloat "-Infinity", String.substring 9 (String.length s - 9) s)
  else None.

(** Every syntax error of the decoder is a [JSONDecodeError]; its text,
    which gives the position of the error, is read by no caller and is not
    spelled out. *)
Definition decode_error : Exn := mkExn JSONDecodeError "Expecting value".

(** The [RecursionError] of a document that nests deeper than the
    interpreter allows; [what] is the kind of the value that could not be
    entered. *)
Definition nesting_error (what : string) : Exn :=
  mkExn RecursionError
    ("maximum recursion depth exceeded while decoding a JSON " +:+ what
     +:+ " from a unicode string").

(** [scan_once]: one value at the head of [s], read from left to right, so
    the first error met is the one raised.  Entering an array or an object
    takes one level of [depth].  The fuel bounds the number of values read,
    and [2 * len(s) + 2] is always enough. *)
Fixpoint scan_once `{py : Platform} (fuel depth : nat) (s : string)
    : result (JValue * string) :=
  match fuel with
  | O => Raise decode_error
  | S fuel' =>
      match s with
      | String Py.dquote r =>
          match scan_string (S (String.length r)) r "" with
          | Some (str, r') => Ok (JString str, r')
          | None => Raise decode_error
          end
      | String "{"%char r =>
          match depth with
          | O => Raise (nesting_error "object")
          | S depth' =>
              match skip_ws r with
              | String "}"%char r' => Ok (JObject [], r')
              | r' => scan_members fuel' depth' r' []
              end
          end
      | String "["%char r =>
          match depth with
          | O => Raise (nesting_error "array")
          | S depth' =>
              match skip_ws r with
              | String "]"%char r' => Ok (JArray [], r')
              | r' => scan_items fuel' depth' r' []
              end
          end
      | _ =>
          match scan_literal s with
          | Some v => Ok v
          | None =>
              match scan_number s with
              | Some v => v
              | None =>
                  match scan_constant s with
                  | Some v => Ok v
                  | None => Raise decode_error
                  end
              end
          end
      end
  end
with scan_items `{py : Platform} (fuel depth : nat) (s : string) (acc : list JValue)
    : result (JValue * string) :=
  match fuel with
  | O => Raise decode_error
  | S fuel' =>
      match scan_once fuel' depth s with
      | Raise e => Raise e
      | Ok (v, r) =>
          match skip_ws r with
          | String "]"%char r' => Ok (JArray (rev (v :: acc)), r')
          | String ","%char r' => scan_items fuel' depth (skip_ws r') (v :: acc)
          | _ => Raise decode_error
          end
      end
  end
with scan_members `{py : Platform} (fuel depth : nat) (s : string)
    (acc : list (string * JValue)) : result (JValue * string) :=
  match fuel with
  | O => Raise decode_error
  | S fuel' =>
      match s with
      | String Py.dquote r =>
          match scan_string (S (String.length r)) r "" with
          | None => Raise decode_error
          | Some (key, r1) =>
              match skip_ws r1 with
              | String ":"%char r2 =>
                  match scan_once fuel' depth (skip_ws r2) with
                  | Raise e => Raise e
                  | Ok (v, r3) =>
                      match skip_ws r3 with
                      | String "}"%char r4 => Ok (JObject (rev ((key, v) :: acc)), r4)
                      | String ","%char r4 =>
                          scan_members fuel' depth (skip_ws r4) ((key, v) :: acc)
                      | _ => Raise decode_error
                      end
                  end
              | _ => Raise decode_error
              end
          end
      | _ => Raise decode_error
      end
  end.

(** [json.loads(s)]: one value, JSON whitespace around it, nothing else.
    It raises [JSONDecodeError] on a syntax error, [ValueError] on an integer
    literal that is too long and [RecursionError] on a document that nests too
    deep, whichever the decoder meets first. *)
Definition loads `{py : Platform} (s : string) : result JValue :=
  match scan_once (2 * String.length s + 2) recursion_budget (skip_ws s) with
  | Ok (v, r) =>
      match skip_ws r with
      | EmptyString => Ok v
      | _ => Raise (mkExn JSONDecodeError "Extra data")
      end
  | Raise e => Raise e
  end.

(** ** Encoder *)

(** The escape [\uXXXX] of a 16-bit unit, in lower-case hexadecimal. *)
Definition u_escape (n : Z) : string :=
  String "\"%char (String "u"%char
    (String (Py.hex_digit (n / 4096 mod 16)) (String (Py.hex_digit (n / 256 mod 16))
       (String (Py.hex_digit (n / 16 mod 16)) (String (Py.hex_digit (n mod 16)) ""))))).

(** With [ensure_ascii] every character outside the printable ASCII range,
    the quote and the backslash are escaped; a code point above the basic
    plane is written as a surrogate pair. *)
Definition escape_code_point (n : Z) : string :=
  if n =? 34 then String "\"%char Py.quote
  else if n =? 92 then "\\"
  else if n =? 10 then "\n"
  else if n =? 13 then "\r"
  else if n =? 9 then "\t"
  else if n =? 12 then "\f"
  else if n =? 8 then "\b"
  else if (32 <=? n) && (n <=? 126) then String (Py.chr n) ""
  else if n <? 65536 then u_escape n
  else u_escape (55296 + (n - 65536) / 1024) +:+ u_escape (56320 + (n - 65536) mod 1024).

Definition encode_string (s : string) : string :=
  Py.quote +:+ foldr (fun n acc => escape_code_point n +:+ acc) "" (Py.code_points s) +:+ Py.quote.

Definition key_le (a b : string * string) : bool :=
  match String.compare a.1 b.1 with
  | Gt => false
  | _ => true
  end.

Fixpoint insert_sorted (x : string * string) (l : list (string * string)) :=
  match l with
  | [] => [x]
  | y :: r => if key_le x y then x :: l else y :: insert_sorted x r
  end.

(** [sorted(items, key=key)] on already encoded members *)
Definition sort_members (l : list (string * string)) : list (string * string) :=
  foldr insert_sorted [] l.

(** [json.dumps(v, sort_keys=True)] with the default separators and
    [ensure_ascii].  A float is written by its lexeme. *)
Fixpoint dumps (v : JValue) : string :=
  match v with
  | JNull => "null"
  | JBool true => "true"
  | JBool false => "false"
  | JInt z => pretty z
  | JFloat lx => lx
  | JString s => encode_string s
  | JArray l => "[" +:+ Py.join ", " (List.map dumps l) +:+ "]"
  | JObject l =>
      "{" +:+
      Py.join ", "
        (List.map (fun kv : string * string => encode_string kv.1 +:+ ": " +:+ kv.2)
           (sort_members (List.map (fun kv : string * JValue =>
                                      match kv with (k, x) => (k, dumps x) end) l)))
      +:+ "}"
  end.

End Json.

(** CPython 3.11 with its default limit on integer literals and room for
    nine hundred nested values.  Its Unicode tables are exact up to U+00FF for
    [isprintable] and on ASCII text for [str_lower], and the text of a
    validation error is cut after its first line: the closed examples of this
    development are evaluated on it, and all of them are ASCII text that nests
    no deeper than two values. *)
#[global] Instance cpython : Platform | 100 := {|
  recursion_budget := 900;
  int_max_str_digits := 4300;
  isprintable := fun cp => negb ((cp <? 32) || ((127 <=? cp) && (cp <=? 160)) || (cp =? 173));
  str_lower := Py.lower_ascii;
  validation_error := fun model _ => "1 validation error for " +:+ model;
  recursion_budget_positive := proj1 (Nat.ltb_lt 0 900) eq_refl;
  str_digits_check_threshold := or_intror (proj1 (Nat.leb_le 640 4300) eq_refl)
|}.

(* ===================================================================== *)
(** * SHA-256 ([hashlib.sha256])                                          *)
(* ===================================================================== *)

Module Sha256.

Definition two32 : Z := 4294967296.

Definition add32 (a b : Z) : Z := (a + b) mod two32.
Definition not32 (a : Z) : Z := Z.lxor a (two32 - 1).
Definition shr (n x : Z) : Z := Z.shiftr x n.
Definition rotr (n x : Z) : Z :=
  Z.lor (Z.shiftr x n) (Z.shiftl x (32 - n) mod two32).

Definition Ch (x y z : Z) : Z := Z.lxor (Z.land x y) (Z.land (not32 x) z).
Definition Maj (x y z : Z) : Z :=
  Z.lxor (Z.lxor (Z.land x y) (Z.land x z)) (Z.land y z).
Definition Sigma0 (x : Z) : Z := Z.lxor (Z.lxor (rotr 2 x) (rotr 13 x)) (rotr 22 x).
Definition Sigma1 (x : Z) : Z := Z.lxor (Z.lxor (rotr 6 x) (rotr 11 x)) (rotr 25 x).
Definition sigma0 (x : Z) : Z := Z.lxor (Z.lxor (rotr 7 x) (rotr 18 x)) (shr 3 x).
Definition sigma1 (x : Z) : Z := Z.lxor (Z.lxor (rotr 17 x) (rotr 19 x)) (shr 10 x).

Definition K : list Z :=
  [1116352408; 1899447441; 3049323471; 3921009573; 961987163; 1508970993; 2453635748; 2870763221;
   3624381080; 310598401; 607225278; 1426881987; 1925078388; 2162078206; 2614888103; 3248222580;
   3835390401; 4022224774; 264347078; 604807628; 770255983; 1249150122; 1555081692; 1996064986;
   2554220882; 2821834349; 2952996808; 3210313671; 3336571891; 3584528711; 113926993; 338241895;
   666307205; 773529912; 1294757372; 1396182291; 1695183700; 1986661051; 2177026350; 2456956037;
   2730485921; 2820302411; 3259730800; 3345764771; 3516065817; 3600352804; 4094571909; 275423344;
   430227734; 506948616; 659060556; 883997877; 958139571; 1322822218; 1537002063; 1747873779;
   1955562222; 2024104815; 2227730452; 2361852424; 2428436474; 2756734187; 3204031479; 3329325298].

(** The eight working words. *)
Record Words := mkWords { wa : Z; wb : Z; wc : Z; wd : Z; we : Z; wf : Z; wg : Z; wh : Z }.

Definition H0 : Words :=
  mkWords 1779033703 3144134277 1013904242 2773480762
          1359893119 2600822924 528734635 1541459225.

(** The message followed by the byte 0x80, zero bytes up to 56 modulo 64,
    and the length in bits as a 64-bit big-endian number. *)
Definition pad (msg : list Z) : list Z :=
  let len := Z.of_nat (length msg) in
  let bits := len * 8 in
  msg ++ [128] ++ replicate (Z.to_nat ((55 - len) mod 64)) 0
      ++ List.map (fun i => (bits / 256 ^ i) mod 256) [7; 6; 5; 4; 3; 2; 1; 0].

Fixpoint words (bs : list Z) : list Z :=
  match bs with
  | a :: b :: c :: d :: r => (((a * 256 + b) * 256 + c) * 256 + d) :: words r
  | _ => []
  end.

Fixpoint blocks (fuel : nat) (ws : list Z) : list (list Z) :=
  match fuel with
  | O => []
  | S fuel' =>
      match ws with
      | [] => []
      | _ => take 16 ws :: blocks fuel' (drop 16 ws)
      end
  end.

(** The message schedule, latest word first. *)
Fixpoint expand (n : nat) (rw : list Z) : list Z :=
  match n with
  | O => rw
  | S n' =>
      let w := add32 (add32 (sigma1 (nth 1 rw 0)) (nth 6 rw 0))
                     (add32 (sigma0 (nth 14 rw 0)) (nth 15 rw 0)) in
      expand n' (w :: rw)
  end.

Definition schedule (block : list Z) : list Z := rev (expand 48 (rev block)).

Definition round (s : Words) (kw : Z * Z) : Words :=
  let t1 := add32 (add32 (add32 (wh s) (Sigma1 (we s))) (Ch (we s) (wf s) (wg s)))
                  (add32 kw.1 kw.2) in
  let t2 := add32 (Sigma0 (wa s)) (Maj (wa s) (wb s) (wc s)) in
  mkWords (add32 t1 t2) (wa s) (wb s) (wc s) (add32 (wd s) t1) (we s) (wf s) (wg s).

Definition compress (h : Words) (block : list Z) : Words :=
  let s := fold_left round (combine K (schedule block)) h in
  mkWords (add32 (wa h) (wa s)) (add32 (wb h) (wb s)) (add32 (wc h) (wc s))
          (add32 (wd h) (wd s)) (add32 (we h) (we s)) (add32 (wf h) (wf s))
          (add32 (wg h) (wg s)) (add32 (wh h) (wh s)).

Fixpoint bytes_of (s : string) : list Z :=
  match s with
  | String c r => Py.code c :: bytes_of r
  | EmptyString => []
  end.

(** The state after the last block of the padded message. *)
Definition digest (s : string) : Words :=
  let ws := words (pad (bytes_of s)) in
  fold_left compress (blocks (length ws) ws) H0.

Definition nibble (w : Z) (k : Z) : ascii :=
  Py.hex_digit (Z.land (Z.shiftr w (4 * k)) 15).

(** The eight hexadecimal digits of a 32-bit word. *)
Definition hex8 (w : Z) (rest : string) : string :=
  String (nibble w 7) (String (nibble w 6) (String (nibble w 5) (String (nibble w 4)
    (String (nibble w 3) (String (nibble w 2) (String (nibble w 1) (String (nibble w 0)
       rest))))))).

(** [hashlib.sha256(s.encode()).hexdigest()] *)
Definition hexdigest (s : string) : string :=
  let d := digest s in
  hex8 (wa d) (hex8 (wb d) (hex8 (wc d) (hex8 (wd d)
    (hex8 (we d) (hex8 (wf d) (hex8 (wg d) (hex8 (wh d) ""))))))).

End Sha256.

(* ===================================================================== *)
(** * Configuration ([app/config.py]) and registry ([app/agents/registry.py]) *)
(* ===================================================================== *)

Module SystemAgentRef.
Record t := mk { type : string; prompt : string }.
End SystemAgentRef.

Module SystemConfig.
(** [topology] is one of single, sequential, orchestrator, decentralised;
    [agents] is not empty (the [must_have_agents] validator). *)
Record t := mk {
  id : string;
  name : string;
  description : option string;
  topology : string;
  agents : list SystemAgentRef.t
}.

(** [system.model_dump()] *)
Definition model_dump (system : t) : JValue :=
  JObject
    [("id", JString (id system));
     ("name", JString (name system));
     ("description", match description system with
                     | Some d => JString d
                     | None => JNull
                     end);
     ("topology", JString (topology system));
     ("agents", JArray (List.map (fun r =>
                  JObject [("type", JString (SystemAgentRef.type r));
                           ("prompt", JString (SystemAgentRef.prompt r))])
                  (agents system)))].
End SystemConfig.

Module AgentTypeDefinition.
Record t := mk {
  name : string;
  description : string;
  model : string;
  tools : list string
}.
End AgentTypeDefinition.

Module ResolvedAgent.
Record t := mk {
  name : string;
  type : string;
  description : string;
  model : string;
  tools : list string;
  prompt : string
}.
End ResolvedAgent.

Definition sonnet : string := "claude-sonnet-4-20250514".

(** The registry is a dictionary; it is kept as an association list because
    an error message lists its keys in insertion order. *)
Definition AGENT_TYPE_REGISTRY : list (string * AgentTypeDefinition.t) :=
  [("researcher", AgentTypeDefinition.mk "researcher"
      "Expert at web research and data analysis." sonnet
      ["tavily_search"; "ashby_fetch_jobs"; "ashby_resolve_slug"; "linkedin_company";
       "linkedin_employees"; "parse_document"]);
   ("coder", AgentTypeDefinition.mk "coder"
      "Senior software engineer and architect." sonnet
      ["calculate"; "parse_document"]);
   ("writer", AgentTypeDefinition.mk "writer"
      "Creative writer for marketing and content." sonnet
      ["parse_document"]);
   ("analyst", AgentTypeDefinition.mk "analyst"
      "Business analyst specialising in structured reasoning." sonnet
      ["calculate"; "tavily_search"; "score_candidate"; "parse_document"]);
   ("validator", AgentTypeDefinition.mk "validator"
      "Reviews pipeline output and accepts or rejects it." sonnet
      ["accept_output"; "reject_output"]);
   ("sourcer", AgentTypeDefinition.mk "sourcer"
      "Finds and profiles candidates on LinkedIn for a given role." sonnet
      ["tavily_search"; "linkedin_employees"; "linkedin_profile"]);
   ("screener", AgentTypeDefinition.mk "screener"
      "Parses resumes and scores candidates against a job description." sonnet
      ["parse_document"; "score_candidate"]);
   ("recruiter", AgentTypeDefinition.mk "recruiter"
      "End-to-end recruiting coordinator — discovers roles, sources, and scores candidates."
      sonnet
      ["ashby_resolve_slug"; "ashby_fetch_jobs"; "linkedin_company"; "linkedin_employees";
       "linkedin_profile"; "score_candidate"]);
   ("notifier", AgentTypeDefinition.mk "notifier"
      "Sends notifications via email (Resend) or Telegram based on the requested channel."
      sonnet
      ["send_email"; "send_telegram_message"]);
   ("payments", AgentTypeDefinition.mk "payments"
      "Handles Stripe payments, customers, invoices, and subscriptions." sonnet
      ["stripe_create_payment_intent"; "stripe_create_customer"; "stripe_get_customer";
       "stripe_list_charges"; "stripe_create_invoice"; "stripe_create_subscription"])].

(** [d[k]] on an association list with distinct keys *)
Fixpoint assoc {A} (k : string) (l : list (string * A)) : option A :=
  match l with
  | [] => None
  | (k', v) :: r => if decide (k' = k) then Some v else assoc k r
  end.

Definition resolve_agent_type `{py : Platform} (type_name : string) : result AgentTypeDefinition.t :=
  match assoc type_name AGENT_TYPE_REGISTRY with
  | None =>
      Raise (mkExn ValueError
               ("Unknown agent type '" +:+ type_name +:+ "'. Available types: "
                +:+ Py.repr_list (List.map fst AGENT_TYPE_REGISTRY)))
  | Some typedef => Ok typedef
  end.

Definition merge_agent `{py : Platform} (ref : SystemAgentRef.t) (index : nat) : result ResolvedAgent.t :=
  typedef ← resolve_agent_type (SystemAgentRef.type ref);
  mret (ResolvedAgent.mk
          (SystemAgentRef.type ref +:+ "_" +:+ Py.str_of_nat index)
          (SystemAgentRef.type ref)
          (AgentTypeDefinition.description typedef)
          (AgentTypeDefinition.model typedef)
          (AgentTypeDefinition.tools typedef)
          (SystemAgentRef.prompt ref)).

(* ===================================================================== *)
(** * Messages and the execution state ([app/agents/state.py])            *)
(* ===================================================================== *)

Record ToolCall := mkToolCall { tc_name : string; tc_args : JValue; tc_id : string }.

(** A content block of a model response: a dictionary (with its ["text"]
    entry, when it has one) or any other object; [block_str] is what [str]
    returns on it. *)
Inductive Block :=
  | BlockDict (text : option string) (block_str : string)
  | BlockOther (block_str : string).

(** The [content] of a message: a string, a list of blocks, or another
    object with its [str]. *)
Inductive Content :=
  | ContentStr (s : string)
  | ContentList (blocks : list Block)
  | ContentOther (content_str : string).

Inductive Message :=
  | SystemMessage (content : string)
  | HumanMessage (content : string)
  | AIMessage (content : Content) (tool_calls : list ToolCall)
  | ToolMessage (content : string) (tool_call_id : string).

Definition tool_message_content (m : Message) : string :=
  match m with
  | ToolMessage c _ => c
  | _ => ""
  end.

Definition message_content (m : Message) : Content :=
  match m with
  | SystemMessage c => ContentStr c
  | HumanMessage c => ContentStr c
  | AIMessage c _ => c
  | ToolMessage c _ => ContentStr c
  end.

(** The state dictionary.  [final_response] is annotated [str | None], but
    orchestrator routing may store any decoded JSON value in it. *)
Record AgentState := mkState {
  messages : list Message;
  current_agent : option string;
  final_response : option JValue;
  retry_count : Z;
  validation_result : option string
}.

(** The dictionary a node returns.  The validating node alone writes
    [validation_result] and [retry_count]; [None] is an absent key. *)
Record Update := mkUpdate {
  upd_messages : list Message;
  upd_current_agent : string;
  upd_final_response : string;
  upd_validation_result : option string;
  upd_retry_count : option Z
}.

(** How the graph folds a node's update into the state: [messages] has the
    [add_messages] reducer, which appends; every other key present in the
    update overwrites. *)
Definition apply_update (st : AgentState) (u : Update) : AgentState :=
  {| messages := messages st ++ upd_messages u;
     current_agent := Some (upd_current_agent u);
     final_response := Some (JString (upd_final_response u));
     retry_count := default (retry_count st) (upd_retry_count u);
     validation_result :=
       match upd_validation_result u with
       | Some v => Some v
       | None => validation_result st
       end |}.

(* ===================================================================== *)
(** * External capabilities                                               *)
(* ===================================================================== *)

(** What the model returns: its content and the tool invocations it asks for. *)
Record AIResponse := mkResponse {
  resp_content : Content;
  resp_tool_calls : list ToolCall
}.

(** A tool, invoked with its arguments: [str(await tool.ainvoke(args))], or
    the exception it raises. *)
Definition Tool : Type := JValue -> result string.

(** The environment of a run:
    - the [ANTHROPIC_API_KEY] environment variable;
    - the model capability [ainvoke model bound_tools messages];
    - the tool registry of [app/tools], in registration order. *)
Record Env := mkEnv {
  ANTHROPIC_API_KEY : option string;
  ainvoke : string -> list string -> list Message -> result AIResponse;
  _registry : list (string * Tool)
}.

(** A computation that may raise and, where the source loops without a
    bound, may fail to return within the given number of iterations
    ([None]). *)
Definition Run (A : Type) : Type := option (result A).

Definition run_bind {A B} (m : Run A) (k : A -> Run B) : Run B :=
  match m with
  | None => None
  | Some (Raise e) => Some (Raise e)
  | Some (Ok a) => k a
  end.

Definition lift {A} (r : result A) : Run A := Some r.

Notation "x ⇐ m ; k" := (run_bind m (fun x => k))
  (at level 20, m at level 100, k at level 200, only parsing).

(** [try: body except (types): handler]: an exception of a listed class (all
    classes of the model are leaves below [Exception]) is handled, any other
    propagates. *)
Definition try_except {A} (types : list ExnType) (body : result A) (handler : result A)
    : result A :=
  match body with
  | Ok a => Ok a
  | Raise e => if bool_decide (exn_type e ∈ types) then handler else Raise e
  end.

(* ===================================================================== *)
(** * Tool registry ([app/tools/__init__.py])                             *)
(* ===================================================================== *)

Definition resolve_tools `{py : Platform} (env : Env) (names : list string) : result (list (string * Tool)) :=
  let missing := List.filter (fun n => negb (bool_decide (is_Some (assoc n (_registry env)))))
                   names in
  match missing with
  | _ :: _ =>
      Raise (mkExn ValueError
               ("Unknown tool(s): " +:+ Py.repr_list missing +:+ ". Available: "
                +:+ Py.repr_list (List.map fst (_registry env))))
  | [] => Ok (omap (fun n => (fun t => (n, t)) <$> assoc n (_registry env)) names)
  end.

(* ===================================================================== *)
(** * Node executors and routers ([app/agents/nodes.py])                  *)
(* ===================================================================== *)

Definition block_text (b : Block) : string :=
  match b with
  | BlockDict (Some t) _ => t
  | BlockDict None s => s
  | BlockOther s => s
  end.

Definition _extract_content (content : Content) : string :=
  match content with
  | ContentStr s => s
  | ContentList blocks => Py.join Py.LF (List.map block_text blocks)
  | ContentOther s => s
  end.

(** The model handle: [llm.ainvoke] with the tools bound by [bind_tools]
    (none when [tools] is empty or [None]). *)
Definition _get_llm (env : Env) (model : string) (tools : list (string * Tool))
    : result (list Message -> result AIResponse) :=
  match ANTHROPIC_API_KEY env with
  | Some (String _ _) => Ok (ainvoke env model (List.map fst tools))
  | _ => Raise (mkExn RuntimeError "ANTHROPIC_API_KEY environment variable is not set")
  end.

Definition response_message (r : AIResponse) : Message :=
  AIMessage (resp_content r) (resp_tool_calls r).

Fixpoint _execute_tool_calls `{py : Platform} (tool_calls : list ToolCall) (tools : list (string * Tool))
    : result (list Message) :=
  match tool_calls with
  | [] => Ok []
  | tc :: rest =>
      match assoc (tc_name tc) tools with
      | None => Raise (mkExn KeyError (Py.repr_str (tc_name tc)))
      | Some tool =>
          result ← tool (tc_args tc);
          results ← _execute_tool_calls rest tools;
          mret (ToolMessage result (tc_id tc) :: results)
      end
  end.

(** The tool-call loop [while True: ...] that the three node bodies share.
    It returns the final response, the accumulated message list and the tool
    results of this invocation (which the validating node alone keeps). *)
Fixpoint tool_call_loop `{py : Platform} (fuel : nat) (llm : list Message -> result AIResponse)
    (tools : list (string * Tool)) (msgs : list Message) (tool_results : list Message)
    : Run (AIResponse * list Message * list Message) :=
  match fuel with
  | O => None
  | S fuel' =>
      match llm msgs with
      | Raise e => Some (Raise e)
      | Ok response =>
          match resp_tool_calls response with
          | [] => Some (Ok (response, msgs, tool_results))
          | calls =>
              match _execute_tool_calls calls tools with
              | Raise e => Some (Raise e)
              | Ok batch =>
                  tool_call_loop fuel' llm tools
                    ((msgs ++ [response_message response]) ++ batch)
                    (tool_results ++ batch)
              end
          end
      end
  end.

(** The guard after the loop: with tools bound and an empty final text, ask
    once more without tools. *)
Definition text_retry (env : Env) (agent : ResolvedAgent.t) (tools : list (string * Tool))
    (response : AIResponse) (msgs : list Message) : result AIResponse :=
  match tools with
  | _ :: _ =>
      if Py.nonempty (_extract_content (resp_content response)) then Ok response
      else llm ← _get_llm env (ResolvedAgent.model agent) []; llm msgs
  | [] => Ok response
  end.

(** The [try] block of [agent_node]. *)
Definition agent_node_try `{py : Platform} (env : Env) (fuel : nat) (agent : ResolvedAgent.t)
    (system_prompt : string) (tools : list (string * Tool)) (state : AgentState)
    : Run Update :=
  llm ⇐ lift (_get_llm env (ResolvedAgent.model agent) tools);
  let msgs := SystemMessage system_prompt :: messages state in
  r ⇐ tool_call_loop fuel llm tools msgs [];
  let '(response, msgs, _) := r in
  response ⇐ lift (text_retry env agent tools response msgs);
  lift (Ok {| upd_messages := [response_message response];
              upd_current_agent := ResolvedAgent.name agent;
              upd_final_response := _extract_content (resp_content response);
              upd_validation_result := None;
              upd_retry_count := None |}).

Definition agent_error_update (agent : ResolvedAgent.t) (e : Exn) : Update :=
  {| upd_messages :=
       [AIMessage (ContentStr ("Error in agent '" +:+ ResolvedAgent.name agent +:+ "': "
                               +:+ exn_str e)) []];
     upd_current_agent := ResolvedAgent.name agent;
     upd_final_response := exn_str e;
     upd_validation_result := None;
     upd_retry_count := None |}.

(** [agent_node(state)]: the node fails soft. *)
Definition agent_node `{py : Platform} (env : Env) (fuel : nat) (agent : ResolvedAgent.t)
    (tools : list (string * Tool)) (state : AgentState) : option Update :=
  match agent_node_try env fuel agent (ResolvedAgent.prompt agent) tools state with
  | None => None
  | Some (Ok u) => Some u
  | Some (Raise e) => Some (agent_error_update agent e)
  end.

(** The first sentinel found in the tool results, in message order. *)
Fixpoint scan_sentinels (tool_results : list Message) : option string :=
  match tool_results with
  | [] => None
  | tr :: rest =>
      let content := tool_message_content tr in
      if Py.contains "__ACCEPTED__" content then Some "accepted"
      else if Py.contains "__REJECTED__:" content then Some "rejected"
      else scan_sentinels rest
  end.

(** The tool-call loop and the guard after it, as the validating node runs
    them: the final response and the tool results of this invocation. *)
Definition validator_loop `{py : Platform} (env : Env) (fuel : nat) (agent : ResolvedAgent.t)
    (tools : list (string * Tool)) (state : AgentState)
    : Run (AIResponse * list Message) :=
  llm ⇐ lift (_get_llm env (ResolvedAgent.model agent) tools);
  let msgs := SystemMessage (ResolvedAgent.prompt agent) :: messages state in
  r ⇐ tool_call_loop fuel llm tools msgs [];
  let '(response, msgs, tool_results) := r in
  response ⇐ lift (text_retry env agent tools response msgs);
  lift (Ok (response, tool_results)).

(** The rest of the [try] block: sentinel inspection and the returned
    dictionary. *)
Definition validator_verdict (agent : ResolvedAgent.t) (state : AgentState)
    (response : AIResponse) (tool_results : list Message) : Update :=
  let validation_result :=
    match scan_sentinels tool_results with
    | Some v => v
    | None => "accepted"
    end in
  let retry_count := retry_count state in
  let retry_count :=
    if bool_decide (validation_result = "rejected") then retry_count + 1 else retry_count in
  {| upd_messages := [response_message response];
     upd_current_agent := ResolvedAgent.name agent;
     upd_final_response := _extract_content (resp_content response);
     upd_validation_result := Some validation_result;
     upd_retry_count := Some retry_count |}.

Definition validator_node_try `{py : Platform} (env : Env) (fuel : nat) (agent : ResolvedAgent.t)
    (tools : list (string * Tool)) (state : AgentState) : Run Update :=
  r ⇐ validator_loop env fuel agent tools state;
  lift (Ok (validator_verdict agent state r.1 r.2)).

Definition validator_error_update (agent : ResolvedAgent.t) (state : AgentState) (e : Exn)
    : Update :=
  {| upd_messages :=
       [AIMessage (ContentStr ("Error in validator '" +:+ ResolvedAgent.name agent +:+ "': "
                               +:+ exn_str e)) []];
     upd_current_agent := ResolvedAgent.name agent;
     upd_final_response := exn_str e;
     upd_validation_result := Some "rejected";
     upd_retry_count := Some (retry_count state + 1) |}.

(** [validator_node(state)] *)
Definition validator_node `{py : Platform} (env : Env) (fuel : nat) (agent : ResolvedAgent.t)
    (tools : list (string * Tool)) (state : AgentState) : option Update :=
  match validator_node_try env fuel agent tools state with
  | None => None
  | Some (Ok u) => Some u
  | Some (Raise e) => Some (validator_error_update agent state e)
  end.

(** The system prompt of a delegating node. *)
Definition extended_prompt (agent : ResolvedAgent.t) (all_agents : list ResolvedAgent.t)
    : string :=
  let other_agents :=
    List.filter (fun a => negb (bool_decide (ResolvedAgent.name a = ResolvedAgent.name agent)))
      all_agents in
  let agent_descriptions :=
    Py.join Py.LF
      (List.map (fun a => "- **" +:+ ResolvedAgent.name a +:+ "**: "
                          +:+ ResolvedAgent.description a) other_agents) in
  ResolvedAgent.prompt agent +:+ "

## Delegation
You can delegate to other agents if the request is outside your expertise.
To delegate, respond ONLY with JSON:
{" +:+ Py.quote +:+ "delegate" +:+ Py.quote +:+ ": " +:+ Py.quote +:+ "agent_name" +:+ Py.quote
  +:+ ", " +:+ Py.quote +:+ "message" +:+ Py.quote +:+ ": " +:+ Py.quote
  +:+ "what you need them to do" +:+ Py.quote +:+ "}

Available agents:
" +:+ agent_descriptions +:+ "

If you can handle the request yourself, respond normally (no JSON).
Only delegate if the task genuinely requires another agent's expertise.".

(** [decentralised_node(state)]: the body of [agent_node] under the extended
    prompt. *)
Definition decentralised_node `{py : Platform} (env : Env) (fuel : nat) (agent : ResolvedAgent.t)
    (prompt : string) (tools : list (string * Tool)) (state : AgentState) : option Update :=
  match agent_node_try env fuel agent prompt tools state with
  | None => None
  | Some (Ok u) => Some u
  | Some (Raise e) => Some (agent_error_update agent e)
  end.

(** A graph node: the closure a node factory returns, as the data it
    captures. *)
Inductive Node :=
  | AgentNode (agent : ResolvedAgent.t) (tools : list (string * Tool))
  | ValidatorNode (agent : ResolvedAgent.t) (tools : list (string * Tool))
  | DecentralisedNode (agent : ResolvedAgent.t) (prompt : string)
      (tools : list (string * Tool)).

Definition node_tools `{py : Platform} (env : Env) (agent : ResolvedAgent.t) : result (list (string * Tool)) :=
  match ResolvedAgent.tools agent with
  | [] => Ok []
  | names => resolve_tools env names
  end.

Definition make_agent_node `{py : Platform} (env : Env) (agent : ResolvedAgent.t) : result Node :=
  tools ← node_tools env agent; mret (AgentNode agent tools).

Definition make_validator_node `{py : Platform} (env : Env) (agent : ResolvedAgent.t) : result Node :=
  tools ← node_tools env agent; mret (ValidatorNode agent tools).

Definition make_decentralised_node `{py : Platform} (env : Env) (agent : ResolvedAgent.t)
    (all_agents : list ResolvedAgent.t) : result Node :=
  tools ← node_tools env agent;
  mret (DecentralisedNode agent (extended_prompt agent all_agents) tools).

(** Calling a node. *)
Definition run_node `{py : Platform} (env : Env) (fuel : nat) (n : Node) (state : AgentState) : option Update :=
  match n with
  | AgentNode agent tools => agent_node env fuel agent tools state
  | ValidatorNode agent tools => validator_node env fuel agent tools state
  | DecentralisedNode agent prompt tools => decentralised_node env fuel agent prompt tools state
  end.

(** ** Routing functions *)

(** [state["messages"][-1]], then the extracted text of its content. *)
Definition last_content (state : AgentState) : result string :=
  match last (messages state) with
  | None => Raise (mkExn IndexError "list index out of range")
  | Some last_message => Ok (_extract_content (message_content last_message))
  end.

(** [target in agent_names], and [target] as the name it then is. *)
Definition known_target (target : JValue) (agent_names : list string) : option string :=
  match target with
  | JString t => if Py.mem t agent_names then Some t else None
  | _ => None
  end.

Definition set_final_response (state : AgentState) (response : JValue) : AgentState :=
  {| messages := messages state;
     current_agent := current_agent state;
     final_response := Some response;
     retry_count := retry_count state;
     validation_result := validation_result state |}.

(** The fallback of orchestrator routing: the first agent name that occurs,
    case-insensitively, in the text; otherwise done. *)
Fixpoint fallback_scan `{py : Platform} (content_lower : string) (agent_names : list string) : string :=
  match agent_names with
  | [] => "__done__"
  | name :: rest =>
      if Py.contains (Py.lower name) content_lower then name
      else fallback_scan content_lower rest
  end.

(** [route_decision(state, agent_names)]: the returned node name and the
    state dictionary as the call leaves it.  The [try] block yields
    [Some] when it returns and [None] when control falls through. *)
Definition route_decision `{py : Platform} (state : AgentState) (agent_names : list string)
    : result (string * AgentState) :=
  content ← last_content state;
  returned ← try_except [JSONDecodeError; AttributeError]
    (data ← Json.loads (Py.strip content);
     target ← Json.get data "agent" (JString "");
     if Json.eq_str target "__done__" then
       response ← Json.get data "response" (JString "");
       mret (Some ("__done__",
                   if Json.truthy response then set_final_response state response
                   else state))
     else
       match known_target target agent_names with
       | Some t => mret (Some (t, state))
       | None => mret None
       end)
    (Ok None);
  match returned with
  | Some r => mret r
  | None => mret (fallback_scan (Py.lower content) agent_names, state)
  end.

(** [route_delegation(state, agent_names)] *)
Definition route_delegation `{py : Platform} (state : AgentState) (agent_names : list string)
    : result (string * AgentState) :=
  content ← last_content state;
  returned ← try_except [JSONDecodeError; AttributeError]
    (data ← Json.loads (Py.strip content);
     target ← Json.get data "delegate" (JString "");
     match known_target target agent_names with
     | Some t => mret (Some (t, state))
     | None => mret None
     end)
    (Ok None);
  match returned with
  | Some r => mret r
  | None => mret ("__done__", state)
  end.

Definition MAX_RETRIES : Z := 3.
Definition MAX_ITERATIONS : Z := 5.

(** [route_validation(state, first_agent_name)] reads two keys of the state
    and writes none. *)
Definition route_validation (state : AgentState) (first_agent_name : string) : string :=
  if bool_decide (validation_result state = Some "accepted") then "__accepted__"
  else if bool_decide (retry_count state >= MAX_RETRIES)%Z then "__error__"
  else first_agent_name.

(* ===================================================================== *)
(** * Graph builder ([app/agents/builder.py])                             *)
(* ===================================================================== *)

(** The routing function of a conditional edge: a [partial] application of
    one of the three routers. *)
Inductive Router :=
  | RouteValidation (first_agent_name : string)
  | RouteDecision (agent_names : list string)
  | RouteDelegation (agent_names : list string).

Definition run_router `{py : Platform} (r : Router) (state : AgentState) : result (string * AgentState) :=
  match r with
  | RouteValidation first_agent_name => Ok (route_validation state first_agent_name, state)
  | RouteDecision agent_names => route_decision state agent_names
  | RouteDelegation agent_names => route_delegation state agent_names
  end.

Definition START : string := "__start__".
Definition END : string := "__end__".

(** A [StateGraph] under construction, and compiled: named nodes, the entry
    point, the unconditional edges, and for a node with a conditional edge
    its router and destination map. *)
Record StateGraph := mkGraph {
  nodes : list (string * Node);
  entry_point : option string;
  edges : list (string * string);
  branches : list (string * (Router * gmap string string))
}.

Definition empty_graph : StateGraph := mkGraph [] None [] [].

(** The keys of the state dictionary, which are the channels of the graph. *)
Definition state_keys : list string :=
  ["messages"; "current_agent"; "final_response"; "retry_count"; "validation_result"].

(** [graph.add_node(name, fn)] refuses, in this order, a name that is a key
    of the state, a name already present, the two reserved names, and a name
    that holds one of the two separator characters of the library.
    [graph.compile()] accepts every graph the builders below assemble, and is
    the identity here. *)
Definition add_node (name : string) (n : Node) (g : StateGraph) : result StateGraph :=
  if Py.mem name state_keys then
    Raise (mkExn ValueError ("'" +:+ name +:+ "' is already being used as a state key"))
  else if bool_decide (is_Some (assoc name (nodes g))) then
    Raise (mkExn ValueError ("Node `" +:+ name +:+ "` already present."))
  else if bool_decide (name = END) || bool_decide (name = START) then
    Raise (mkExn ValueError ("Node `" +:+ name +:+ "` is reserved."))
  else if Py.contains "|" name then
    Raise (mkExn ValueError "'|' is a reserved character and is not allowed in the node names.")
  else if Py.contains ":" name then
    Raise (mkExn ValueError "':' is a reserved character and is not allowed in the node names.")
  else Ok (mkGraph (nodes g ++ [(name, n)]) (entry_point g) (edges g) (branches g)).

Definition set_entry_point (name : string) (g : StateGraph) : StateGraph :=
  mkGraph (nodes g) (Some name) (edges g) (branches g).

Definition add_edge (src dst : string) (g : StateGraph) : StateGraph :=
  mkGraph (nodes g) (entry_point g) (edges g ++ [(src, dst)]) (branches g).

Definition add_conditional_edges (src : string) (r : Router) (destinations : gmap string string)
    (g : StateGraph) : StateGraph :=
  mkGraph (nodes g) (entry_point g) (edges g) (branches g ++ [(src, (r, destinations))]).

(** [{name: name for name in names}] *)
Definition identity_map (names : list string) : gmap string string :=
  list_to_map (List.map (fun n => (n, n)) names).

(** [agents[0]] *)
Definition first_agent (agents : list ResolvedAgent.t) : result ResolvedAgent.t :=
  match agents with
  | a :: _ => Ok a
  | [] => Raise (mkExn IndexError "list index out of range")
  end.

Definition _build_single `{py : Platform} (env : Env) (agent : ResolvedAgent.t) : result StateGraph :=
  n ← make_agent_node env agent;
  graph ← add_node (ResolvedAgent.name agent) n empty_graph;
  let graph := set_entry_point (ResolvedAgent.name agent) graph in
  let graph := add_edge (ResolvedAgent.name agent) END graph in
  mret graph.

(** [for agent in agents: graph.add_node(agent.name, make(agent))] *)
Fixpoint add_nodes (make : ResolvedAgent.t -> result Node) (agents : list ResolvedAgent.t)
    (g : StateGraph) : result StateGraph :=
  match agents with
  | [] => Ok g
  | agent :: rest =>
      n ← make agent;
      g ← add_node (ResolvedAgent.name agent) n g;
      add_nodes make rest g
  end.

(** [for i in range(len(agents) - 2): graph.add_edge(agents[i].name, agents[i + 1].name)] *)
Fixpoint chain_edges (agents : list ResolvedAgent.t) (g : StateGraph) : StateGraph :=
  match agents with
  | a :: ((b :: (_ :: _)) as rest) =>
      chain_edges rest (add_edge (ResolvedAgent.name a) (ResolvedAgent.name b) g)
  | _ => g
  end.

(** [agents[:-1]], [agents[-1]] and [agents[-2]] *)
Definition but_last (agents : list ResolvedAgent.t) : list ResolvedAgent.t :=
  take (length agents - 1) agents.

Definition _build_sequential `{py : Platform} (env : Env) (agents : list ResolvedAgent.t) : result StateGraph :=
  if bool_decide (length agents < 2)%nat then
    agent ← first_agent agents; _build_single env agent
  else
    match last agents, last (but_last agents), agents with
    | Some validator, Some before_validator, first :: _ =>
        graph ← add_nodes (make_agent_node env) (but_last agents) empty_graph;
        n ← make_validator_node env validator;
        graph ← add_node (ResolvedAgent.name validator) n graph;
        let graph := set_entry_point (ResolvedAgent.name first) graph in
        let graph := chain_edges agents graph in
        let graph := add_edge (ResolvedAgent.name before_validator)
                       (ResolvedAgent.name validator) graph in
        let first_agent_name := ResolvedAgent.name first in
        let destinations : gmap string string :=
          <["__error__" := END]>
            (<["__accepted__" := END]> {[ first_agent_name := first_agent_name ]}) in
        let graph := add_conditional_edges (ResolvedAgent.name validator)
                       (RouteValidation first_agent_name) destinations graph in
        mret graph
    | _, _, _ => Raise (mkExn IndexError "list index out of range")
    end.

(** [for agent in agents[1:]: graph.add_edge(agent.name, agents[0].name)] *)
Definition back_edges (first : string) (specialists : list ResolvedAgent.t) (g : StateGraph)
    : StateGraph :=
  fold_left (fun g a => add_edge (ResolvedAgent.name a) first g) specialists g.

Definition _build_orchestrator `{py : Platform} (env : Env) (system : SystemConfig.t)
    (agents : list ResolvedAgent.t) : result StateGraph :=
  graph ← add_nodes (make_agent_node env) agents empty_graph;
  first ← first_agent agents;
  let graph := set_entry_point (ResolvedAgent.name first) graph in
  let specialist_names := List.map ResolvedAgent.name (drop 1 agents) in
  let destinations : gmap string string :=
    <["__done__" := END]> (identity_map specialist_names) in
  let graph := add_conditional_edges (ResolvedAgent.name first)
                 (RouteDecision specialist_names) destinations graph in
  let graph := back_edges (ResolvedAgent.name first) (drop 1 agents) graph in
  mret graph.

(** [for agent in agents: graph.add_conditional_edges(agent.name, router, destinations)] *)
Definition delegation_edges (r : Router) (destinations : gmap string string)
    (agents : list ResolvedAgent.t) (g : StateGraph) : StateGraph :=
  fold_left (fun g a => add_conditional_edges (ResolvedAgent.name a) r destinations g) agents g.

Definition _build_decentralised `{py : Platform} (env : Env) (agents : list ResolvedAgent.t)
    : result StateGraph :=
  let agent_names := List.map ResolvedAgent.name agents in
  graph ← add_nodes (fun agent => make_decentralised_node env agent agents) agents empty_graph;
  first ← first_agent agents;
  let graph := set_entry_point (ResolvedAgent.name first) graph in
  let destinations : gmap string string :=
    <["__done__" := END]> (identity_map agent_names) in
  let graph := delegation_edges (RouteDelegation agent_names) destinations agents graph in
  mret graph.

Definition build_graph `{py : Platform} (env : Env) (system : SystemConfig.t) (agents : list ResolvedAgent.t)
    : result StateGraph :=
  let topology := SystemConfig.topology system in
  if bool_decide (topology = "single") then
    agent ← first_agent agents; _build_single env agent
  else if bool_decide (topology = "sequential") then _build_sequential env agents
  else if bool_decide (topology = "orchestrator") then _build_orchestrator env system agents
  else if bool_decide (topology = "decentralised") then _build_decentralised env agents
  else Raise (mkExn ValueError ("Unknown topology: " +:+ topology)).

(* ===================================================================== *)
(** * Graph cache ([app/agents/cache.py])                                 *)
(* ===================================================================== *)

(** The module-level dictionary [_cache]: system id to hash and graph. *)
Abbreviation Cache := (gmap string (string * StateGraph)).

Definition agent_identity (a : ResolvedAgent.t) : JValue :=
  JObject
    [("name", JString (ResolvedAgent.name a));
     ("type", JString (ResolvedAgent.type a));
     ("description", JString (ResolvedAgent.description a));
     ("model", JString (ResolvedAgent.model a));
     ("tools", JArray (List.map JString (ResolvedAgent.tools a)));
     ("prompt", JString (ResolvedAgent.prompt a))].

(** The text that is hashed: [json.dumps(data, sort_keys=True)]. *)
Definition config_json (system : SystemConfig.t) (agents : list ResolvedAgent.t) : string :=
  Json.dumps
    (JObject
       [("system", SystemConfig.model_dump system);
        ("agents", JArray (List.map agent_identity agents))]).

(** [hashlib.sha256(config_json.encode()).hexdigest()[:16]] *)
Definition _hash_system (system : SystemConfig.t) (agents : list ResolvedAgent.t) : string :=
  String.substring 0 16 (Sha256.hexdigest (config_json system agents)).

(** [get_or_build(system, agents)]: the graph (or the exception of the
    build) and the cache it leaves. *)
Definition get_or_build `{py : Platform} (env : Env) (_cache : Cache) (system : SystemConfig.t)
    (agents : list ResolvedAgent.t) : result StateGraph * Cache :=
  let config_hash := _hash_system system agents in
  let build (_ : unit) :=
    match build_graph env system agents with
    | Raise e => (Raise e, _cache)
    | Ok graph => (Ok graph, <[SystemConfig.id system := (config_hash, graph)]> _cache)
    end in
  match _cache !! SystemConfig.id system with
  | Some (cached_hash, cached_graph) =>
      if bool_decide (cached_hash = config_hash) then (Ok cached_graph, _cache)
      else build ()
  | None => build ()
  end.

(** [invalidate(system_id)]: an absent or empty id clears the whole cache. *)
Definition invalidate (_cache : Cache) (system_id : option string) : Cache :=
  match system_id with
  | Some (String _ _ as sid) => delete sid _cache
  | _ => ∅
  end.

(* ===================================================================== *)
(** * Driving a compiled graph                                            *)
(* ===================================================================== *)

(** One item of the update stream: the updates of the nodes that ran in a
    step, by node name. *)
Definition Event : Type := list (string * Update).

(** What iterating [graph.astream(initial_state)] delivers: the events in
    order, and the exception that ends the iteration if one does. *)
Definition Trace : Type := list Event * option Exn.

(** The node that follows [current]: the target of its unconditional edge,
    or the destination its router's answer is mapped to.  The router runs on
    a snapshot of the state; what it writes there is not kept. *)
Definition next_node `{py : Platform} (g : StateGraph) (current : string) (state : AgentState) : result string :=
  match assoc current (edges g) with
  | Some dst => Ok dst
  | None =>
      match assoc current (branches g) with
      | Some (r, destinations) =>
          routed ← run_router r state;
          match destinations !! routed.1 with
          | Some dst => Ok dst
          | None => Raise (mkExn KeyError (Py.repr_str routed.1))
          end
      | None => Ok END
      end
  end.

Definition recursion_limit : nat := 25.

Definition recursion_error : Exn :=
  mkExn GraphRecursionError
    "Recursion limit of 25 reached without hitting a stop condition.".

(** The step loop of the graph library for graphs in which one node runs
    per step: run the node and the router of its conditional edge, which
    belongs to the same task; fold the update into the state, emit the update
    and follow the edge, or, when the router raised, emit nothing and let the
    exception end the iteration; give up after [limit] steps. *)
Fixpoint astream_from `{py : Platform} (env : Env) (fuel : nat) (limit : nat) (g : StateGraph)
    (current : string) (state : AgentState) : option Trace :=
  match limit with
  | O => Some ([], Some recursion_error)
  | S limit' =>
      match assoc current (nodes g) with
      | None => Some ([], Some (mkExn KeyError (Py.repr_str current)))
      | Some n =>
          match run_node env fuel n state with
          | None => None
          | Some u =>
              let state' := apply_update state u in
              match next_node g current state' with
              | Raise e => Some ([], Some e)
              | Ok dst =>
                  if bool_decide (dst = END) then Some ([[(current, u)]], None)
                  else
                    match astream_from env fuel limit' g dst state' with
                    | None => None
                    | Some (events, e) => Some ([(current, u)] :: events, e)
                    end
              end
          end
      end
  end.

Definition astream `{py : Platform} (env : Env) (fuel : nat) (g : StateGraph) (initial_state : AgentState)
    : option Trace :=
  match entry_point g with
  | Some entry => astream_from env fuel recursion_limit g entry initial_state
  | None => Some ([], Some (mkExn ValueError "Graph must have an entrypoint"))
  end.

(* ===================================================================== *)
(** * Run executor ([app/runtime.py], [app/schemas.py])                   *)
(* ===================================================================== *)

Module RunResponseChunk.
Record t := mk { type : string; content : string; agent : option string }.
End RunResponseChunk.

Abbreviation Chunk := RunResponseChunk.t.

(** [RunResponseChunk(type="token", content=final_content, agent=last_agent)]:
    the model validates that [content] is a string. *)
Definition token_chunk `{py : Platform} (final_content : JValue) (last_agent : option string) : result Chunk :=
  match final_content with
  | JString s => Ok (RunResponseChunk.mk "token" s last_agent)
  | _ => Raise (mkExn ValidationError (validation_error "RunResponseChunk" final_content))
  end.

Definition done_chunk : Chunk := RunResponseChunk.mk "done" "" None.

(** The second comprehension of step 1. *)
Fixpoint merge_agents `{py : Platform} (refs : list SystemAgentRef.t) (i : nat) : result (list ResolvedAgent.t) :=
  match refs with
  | [] => Ok []
  | ref :: rest =>
      a ← merge_agent ref i;
      l ← merge_agents rest (S i);
      mret (a :: l)
  end.

Definition initial_state (prompt : string) : AgentState :=
  {| messages := [HumanMessage prompt];
     current_agent := None;
     final_response := None;
     retry_count := 0;
     validation_result := None |}.

(** The body of [for msg in messages]: the new value of [final_content]. *)
Definition capture_message `{py : Platform} (final_content : option JValue) (msg : Message)
    : result (option JValue) :=
  let content := _extract_content (message_content msg) in
  if negb (Py.nonempty content) then Ok final_content
  else
    try_except [JSONDecodeError; TypeError]
      (parsed ← Json.loads (Py.strip content);
       agent ← Json.get parsed "agent" JNull;
       if Json.eq_str agent "__done__" then
         response ← Json.get parsed "response" JNull;
         if Json.truthy response then mret (Some response)
         else if Json.has_key parsed "agent" || Json.has_key parsed "delegate"
              then mret final_content
              else mret (Some (JString content))
       else if Json.has_key parsed "agent" || Json.has_key parsed "delegate"
            then mret final_content
            else mret (Some (JString content)))
      (Ok (Some (JString content))).

Fixpoint capture_messages `{py : Platform} (final_content : option JValue) (msgs : list Message)
    : result (option JValue) :=
  match msgs with
  | [] => Ok final_content
  | msg :: rest =>
      final_content ← capture_message final_content msg;
      capture_messages final_content rest
  end.

(** The check of the explicit [final_response] field. *)
Definition capture_final_response `{py : Platform} (final_content : option JValue) (fr : string)
    : result (option JValue) :=
  if negb (Py.nonempty fr) then Ok final_content
  else
    try_except [JSONDecodeError; TypeError]
      (parsed ← Json.loads fr;
       agent ← Json.get parsed "agent" JNull;
       if Json.eq_str agent "__done__" then
         response ← Json.get parsed "response" JNull;
         if Json.truthy response then mret (Some response) else mret final_content
       else mret final_content)
      (Ok (Some (JString fr))).

(** The status chunk of an agent switch and the chunk of a rejection. *)
Definition agent_status (name : string) : Chunk :=
  RunResponseChunk.mk "status" ("Agent '" +:+ name +:+ "' processing...") (Some name).

Definition rejected_chunk (name : string) : Chunk :=
  RunResponseChunk.mk "validation_rejected" "Pipeline output rejected, retrying..." (Some name).

(** The two variables the drive loop carries. *)
Record Loop := mkLoop { last_agent : option string; final_content : option JValue }.

(** One [(node_name, state_update)] item: the chunks it yields, and the loop
    variables it leaves or the exception it raises.  Every node of this
    program writes [current_agent], [messages] and [final_response], so the
    defaults of the three [get] calls are never taken. *)
Definition handle_update `{py : Platform} (l : Loop) (item : string * Update) : list Chunk * result Loop :=
  let '(node_name, state_update) := item in
  if bool_decide (node_name = "__end__") then ([], Ok l)
  else
    let current := upd_current_agent state_update in
    let switched := negb (bool_decide (Some current = last_agent l)) in
    let status := if switched then [agent_status current] else [] in
    let last_agent := if switched then Some current else last_agent l in
    let rejected :=
      if bool_decide (upd_validation_result state_update = Some "rejected")
      then [rejected_chunk current]
      else [] in
    (status ++ rejected,
     final_content ← capture_messages (final_content l) (upd_messages state_update);
     final_content ← capture_final_response final_content (upd_final_response state_update);
     mret (mkLoop last_agent final_content)).

Fixpoint handle_items `{py : Platform} (l : Loop) (items : list (string * Update)) : list Chunk * result Loop :=
  match items with
  | [] => ([], Ok l)
  | item :: rest =>
      match handle_update l item with
      | (chunks, Raise e) => (chunks, Raise e)
      | (chunks, Ok l') =>
          let '(chunks', r) := handle_items l' rest in (chunks ++ chunks', r)
      end
  end.

(** [async for event in graph.astream(initial_state)]: the chunks yielded,
    and the loop variables at the end or the exception that left the loop. *)
Fixpoint drive `{py : Platform} (l : Loop) (events : list Event) (failure : option Exn)
    : list Chunk * result Loop :=
  match events with
  | [] =>
      match failure with
      | Some e => ([], Raise e)
      | None => ([], Ok l)
      end
  | event :: rest =>
      match handle_items l event with
      | (chunks, Raise e) => (chunks, Raise e)
      | (chunks, Ok l') =>
          let '(chunks', r) := drive l' rest failure in (chunks ++ chunks', r)
      end
  end.

(** The second [try] block: the drive loop, then the token chunk.  It
    returns the chunks it yields and whether it raised. *)
Definition execute_try `{py : Platform} (trace : Trace) : list Chunk * result unit :=
  match drive (mkLoop None None) trace.1 trace.2 with
  | (chunks, Raise e) => (chunks, Raise e)
  | (chunks, Ok l) =>
      match final_content l with
      | Some fc =>
          if Json.truthy fc then
            match token_chunk fc (last_agent l) with
            | Ok c => (chunks ++ [c], Ok ())
            | Raise e => (chunks, Raise e)
            end
          else (chunks, Ok ())
      | None => (chunks, Ok ())
      end
  end.

Definition error_chunk (e : Exn) : Chunk :=
  RunResponseChunk.mk "error" ("Execution error: " +:+ exn_str e) None.

(** The [try] block with its handler [except Exception as e]. *)
Definition execute_body `{py : Platform} (trace : Trace) : list Chunk :=
  match execute_try trace with
  | (chunks, Ok _) => chunks
  | (chunks, Raise e) => chunks ++ [error_chunk e]
  end.

Definition build_error_chunk (e : Exn) : Chunk :=
  RunResponseChunk.mk "error" ("Graph build error: " +:+ exn_str e) None.

Definition processing_chunk : Chunk :=
  RunResponseChunk.mk "status" "Processing request..." None.

(** [execute_run(config, system, prompt)] over any driver of compiled
    graphs: the chunks yielded, in order, and the cache left behind; [None]
    when the driver does not return. *)
Definition execute_run_with `{py : Platform} (driver : StateGraph -> AgentState -> option Trace)
    (env : Env) (_cache : Cache) (system : SystemConfig.t) (prompt : string)
    : option (list Chunk * Cache) :=
  let built :=
    match merge_agents (SystemConfig.agents system) 0 with
    | Raise e => (Raise e, _cache)
    | Ok agents => get_or_build env _cache system agents
    end in
  match built with
  | (Raise e, _cache) => Some ([build_error_chunk e; done_chunk], _cache)
  | (Ok graph, _cache) =>
      match driver graph (initial_state prompt) with
      | None => None
      | Some trace =>
          Some (processing_chunk :: execute_body trace ++ [done_chunk], _cache)
      end
  end.

(** [execute_run] with the step loop above as the driver. *)
Definition execute_run `{py : Platform} (env : Env) (fuel : nat) (_cache : Cache) (system : SystemConfig.t)
    (prompt : string) : option (list Chunk * Cache) :=
  execute_run_with (astream env fuel) env _cache system prompt.

(* ===================================================================== *)
(** * Built-in tools ([app/tools/builtins.py]) and sample inputs          *)
(* ===================================================================== *)

(** The two tools are invoked with the arguments of a tool call, a
    dictionary, which the tool's schema validates before the function runs:
    an argument that is given must be a string. *)

(** [accept_output(message="")]: the argument is optional. *)
Definition accept_output `{py : Platform} : Tool := fun args =>
  match args with
  | JObject l =>
      match Json.lookup_member "message" l with
      | None | Some (JString _) => Ok "__ACCEPTED__"
      | Some _ => Raise (mkExn ValidationError (validation_error "accept_output" args))
      end
  | _ => Raise (mkExn ValidationError (validation_error "accept_output" args))
  end.

(** [reject_output(reason)]: the argument is required. *)
Definition reject_output `{py : Platform} : Tool := fun args =>
  match args with
  | JObject l =>
      match Json.lookup_member "reason" l with
      | Some (JString reason) => Ok ("__REJECTED__: " +:+ reason)
      | _ => Raise (mkExn ValidationError (validation_error "reject_output" args))
      end
  | _ => Raise (mkExn ValidationError (validation_error "reject_output" args))
  end.

(** Stand-ins for two external tools of the [coder] and [writer] types. *)
Definition calculate_stub : Tool := fun _ => Ok "4".
Definition parse_document_stub : Tool := fun _ => Ok "Extracted text".

Definition coder_tools : list (string * Tool) :=
  [("calculate", calculate_stub); ("parse_document", parse_document_stub)].

Definition validator_tools `{py : Platform} : list (string * Tool) :=
  [("accept_output", accept_output); ("reject_output", reject_output)].

(** A registry with the two validator tools and the two stand-ins. *)
Definition sample_registry `{py : Platform} : list (string * Tool) :=
  [("calculate", calculate_stub);
   ("accept_output", accept_output);
   ("reject_output", reject_output);
   ("parse_document", parse_document_stub)].

(** An environment whose model always answers with the given text and asks
    for no tool. *)
Definition constant_env `{py : Platform} (text : string) : Env :=
  {| ANTHROPIC_API_KEY := Some "sk-test";
     ainvoke := fun _ _ _ => Ok (mkResponse (ContentStr text) []);
     _registry := sample_registry |}.

(** An environment whose model asks for [calculate] once and then answers
    in prose. *)
Definition calculating_env `{py : Platform} : Env :=
  {| ANTHROPIC_API_KEY := Some "sk-test";
     ainvoke := fun _ _ msgs =>
       match last msgs with
       | Some (ToolMessage _ _) => Ok (mkResponse (ContentStr "The sum is right.") [])
       | _ => Ok (mkResponse (ContentStr "")
                    [mkToolCall "calculate" (JObject [("expression", JString "2+2")]) "call_1"])
       end;
     _registry := sample_registry |}.

(** An environment whose model rejects through [reject_output] and then
    answers in prose. *)
Definition rejecting_env `{py : Platform} : Env :=
  {| ANTHROPIC_API_KEY := Some "sk-test";
     ainvoke := fun _ _ msgs =>
       match last msgs with
       | Some (ToolMessage _ _) => Ok (mkResponse (ContentStr "Rejected.") [])
       | _ => Ok (mkResponse (ContentStr "")
                    [mkToolCall "reject_output" (JObject [("reason", JString "too short")])
                       "call_1"])
       end;
     _registry := sample_registry |}.

(** An environment whose model asks for [calculate] and fails when it is
    invoked again. *)
Definition failing_env `{py : Platform} : Env :=
  {| ANTHROPIC_API_KEY := Some "sk-test";
     ainvoke := fun _ _ msgs =>
       match last msgs with
       | Some (ToolMessage _ _) => Raise (mkExn (OtherError "APIConnectionError") "Connection error.")
       | _ => Ok (mkResponse (ContentStr "")
                    [mkToolCall "calculate" (JObject [("expression", JString "2+2")]) "call_1"])
       end;
     _registry := sample_registry |}.

(** An environment for a writer followed by a validator: the writer answers
    in prose; the validator, which has [reject_output] bound, rejects through
    it and then answers in prose. *)
Definition pipeline_env `{py : Platform} : Env :=
  {| ANTHROPIC_API_KEY := Some "sk-test";
     ainvoke := fun _ bound msgs =>
       if bool_decide ("reject_output" ∈ bound) then
         match last msgs with
         | Some (ToolMessage _ _) => Ok (mkResponse (ContentStr "Rejected.") [])
         | _ => Ok (mkResponse (ContentStr "")
                      [mkToolCall "reject_output" (JObject [("reason", JString "too short")])
                         "call_1"])
         end
       else Ok (mkResponse (ContentStr "A draft.") []);
     _registry := sample_registry |}.

(** An environment whose model asks for [parse_document] whenever it is
    invoked. *)
Definition looping_env `{py : Platform} : Env :=
  {| ANTHROPIC_API_KEY := Some "sk-test";
     ainvoke := fun _ _ _ =>
       Ok (mkResponse (ContentStr "")
             [mkToolCall "parse_document" (JObject [("source", JString "report.pdf")])
                "call_1"]);
     _registry := sample_registry |}.

Definition quoted (s : string) : string := Py.quote +:+ s +:+ Py.quote.

(** A string that a JSON string literal spells as it is: no quote, no
    backslash, no control character. *)
Definition plain_char (c : ascii) : bool :=
  (32 <=? Py.code c) && negb (bool_decide (c = Py.dquote)) && negb (bool_decide (c = "\"%char)).

Fixpoint plain (s : string) : bool :=
  match s with
  | String c r => plain_char c && plain r
  | EmptyString => true
  end.

(** The JSON text of a dictionary with one or two string entries. *)
Definition json1 (k v : string) : string := "{" +:+ quoted k +:+ ": " +:+ quoted v +:+ "}".
Definition json2 (k1 v1 k2 v2 : string) : string :=
  "{" +:+ quoted k1 +:+ ": " +:+ quoted v1 +:+ ", " +:+ quoted k2 +:+ ": " +:+ quoted v2 +:+ "}".

Definition state_after (text : string) (retries : Z) (verdict : option string) : AgentState :=
  {| messages := [HumanMessage "Compare Python and Rust"; AIMessage (ContentStr text) []];
     current_agent := Some "coder_0";
     final_response := Some (JString text);
     retry_count := retries;
     validation_result := verdict |}.

Definition single_system : SystemConfig.t :=
  SystemConfig.mk "answers" "Answers" None "single" [SystemAgentRef.mk "writer" "Answer briefly."].

Definition sequential_system : SystemConfig.t :=
  SystemConfig.mk "review" "Review" None "sequential"
    [SystemAgentRef.mk "writer" "Write."; SystemAgentRef.mk "validator" "Check."].

Definition orchestrator_system : SystemConfig.t :=
  SystemConfig.mk "desk" "Desk" None "orchestrator"
    [SystemAgentRef.mk "coder" "Route the request."; SystemAgentRef.mk "writer" "Write."].

Definition coder_0 : ResolvedAgent.t :=
  ResolvedAgent.mk "coder_0" "coder" "Senior software engineer and architect." sonnet
    ["calculate"; "parse_document"] "Write the code.".

Definition writer_1 : ResolvedAgent.t :=
  ResolvedAgent.mk "writer_1" "writer" "Creative writer for marketing and content." sonnet
    ["parse_document"] "Write the summary.".

Definition validator_1 : ResolvedAgent.t :=
  ResolvedAgent.mk "validator_1" "validator"
    "Reviews pipeline output and accepts or rejects it." sonnet
    ["accept_output"; "reject_output"] "Accept or reject.".





Fixpoint repeat_char (c : ascii) (n : nat) : string :=
  match n with
  | O => EmptyString
  | S n' => String c (repeat_char c n')
  end.

(** The states a run passes through: the state after each event. *)
Fixpoint replay (state : AgentState) (events : list Event) : list AgentState :=
  match events with
  | [] => []
  | event :: rest =>
      let state' := fold_left (fun st item => apply_update st item.2) event state in
      state' :: replay state' rest
  end.

(** The node name a routing call returns, without the state it leaves. *)
Definition label_of (r : result (string * AgentState)) : result string :=
  match r with
  | Ok (label, _) => Ok label
  | Raise e => Raise e
  end.

(** From [msgs] on, the model asks for tools in at most [k] rounds of the
    tool-call loop: it answers without a tool call, or it raises, or a tool
    raises, before the rounds are used up. *)
Fixpoint settles `{py : Platform} (k : nat) (llm : list Message -> result AIResponse)
    (tools : list (string * Tool)) (msgs : list Message) : Prop :=
  match llm msgs with
  | Raise _ => True
  | Ok response =>
      match resp_tool_calls response with
      | [] => True
      | calls =>
          match _execute_tool_calls calls tools with
          | Raise _ => True
          | Ok batch =>
              match k with
              | O => False
              | S k' => settles k' llm tools ((msgs ++ [response_message response]) ++ batch)
              end
          end
      end
  end.

(** The model of an environment settles within [k] rounds, whatever it is
    asked. *)
Definition bounded_tool_rounds `{py : Platform} (env : Env) (k : nat) : Prop :=
  forall model bound tools msgs, settles k (ainvoke env model bound) tools msgs.


(** The exceptions of the decoder: a syntax error, an integer literal that is
    too long, a document that nests too deep. *)
Definition decoder_error (e : Exn) : Prop :=
  exn_type e = JSONDecodeError \/ exn_type e = ValueError \/ exn_type e = RecursionError.

(** The exceptions of the decoder that the handlers of the routers, which
    list [JSONDecodeError] and [AttributeError], do not catch. *)
Definition escapes (e : Exn) : Prop :=
  exn_type e = ValueError \/ exn_type e = RecursionError.

(** A text that is one integer literal of 4301 digits. *)
Definition long_integer : string := repeat_char "1" 4301.

(** The kinds of chunk the second [try] block yields. *)
Definition yielded_in_try (c : Chunk) : Prop :=
  RunResponseChunk.type c = "status" \/ RunResponseChunk.type c = "validation_rejected" \/
  RunResponseChunk.type c = "token".

(* ===================================================================== *)
(** * Registering tools ([app/tools/__init__.py])                         *)
(* ===================================================================== *)

(** [_registry[name] = tool] on the registry in registration order: a name
    already present keeps its place and gets the new tool. *)
Fixpoint registry_set (name : string) (tool : Tool) (registry : list (string * Tool))
    : list (string * Tool) :=
  match registry with
  | [] => [(name, tool)]
  | (k, t) :: rest =>
      if decide (k = name) then (k, tool) :: rest
      else (k, t) :: registry_set name tool rest
  end.

(** [register(tool)], for a tool given with its [.name]: the environment
    with the registry it leaves. *)
Definition register (env : Env) (tool : string * Tool) : Env :=
  {| ANTHROPIC_API_KEY := ANTHROPIC_API_KEY env;
     ainvoke := ainvoke env;
     _registry := registry_set tool.1 tool.2 (_registry env) |}.

(** [list_tools()] *)
Definition list_tools (env : Env) : list string := List.map fst (_registry env).

(* ===================================================================== *)
(** * Endpoints, schedules and the engine configuration ([app/config.py]) *)
(* ===================================================================== *)

Module ContractField.
(** [Literal["string", "number", "boolean"]] *)
Inductive FieldType := TString | TNumber | TBoolean.

#[global] Instance FieldType_eq_dec : EqDecision FieldType.
Proof. solve_decision. Defined.

Definition type_str (ty : FieldType) : string :=
  match ty with
  | TString => "string"
  | TNumber => "number"
  | TBoolean => "boolean"
  end.

Record t := mk { name : string; type : FieldType }.
End ContractField.

Module EndpointConfig.
Record t := mk {
  slug : string;
  description : option string;
  system_id : string;
  contract : list ContractField.t;
  prompt : string
}.
End EndpointConfig.

Module ScheduleConfig.
(** [Literal["daily", "weekly", "monthly"]] *)
Inductive Frequency := daily | weekly | monthly.

Record t := mk {
  frequency : Frequency;
  hour : Z;
  day_of_week : option string;
  day_of_month : option Z
}.

(** The validator that runs after the fields are set. *)
Definition validate_schedule_fields (self : t) : result t :=
  match frequency self, day_of_week self, day_of_month self with
  | weekly, None, _ =>
      Raise (mkExn ValueError "day_of_week is required for weekly schedules")
  | monthly, _, None =>
      Raise (mkExn ValueError "day_of_month is required for monthly schedules")
  | _, _, _ => Ok self
  end.
End ScheduleConfig.

Module AsyncFunctionConfig.
Record t := mk { system_id : string; prompt : string; schedule : ScheduleConfig.t }.
End AsyncFunctionConfig.

(** The field validator of [SystemConfig.agents]. *)
Definition must_have_agents (v : list SystemAgentRef.t) : result (list SystemAgentRef.t) :=
  match v with
  | [] => Raise (mkExn ValueError "A system must have at least one agent")
  | _ => Ok v
  end.

Definition str_le (a b : string) : bool :=
  match String.compare a b with
  | Gt => false
  | _ => true
  end.

Fixpoint insert_string (x : string) (l : list string) : list string :=
  match l with
  | [] => [x]
  | y :: r =>
      if decide (x = y) then l
      else if str_le x y then x :: l
      else y :: insert_string x r
  end.

(** [sorted(set(l))] for a list of strings *)
Definition sorted_set (l : list string) : list string := foldr insert_string [] l.

(** [for x in l: body(x)], left by the first exception *)
Fixpoint for_each {A} (body : A -> result unit) (l : list A) : result unit :=
  match l with
  | [] => Ok ()
  | x :: rest => _ ← body x; for_each body rest
  end.

Module EngineConfig.
Record t := mk {
  endpoints : list EndpointConfig.t;
  systems : list SystemConfig.t;
  async_functions : list AsyncFunctionConfig.t;
  api_key : option string;
  allowed_origins : list string
}.

(** The validator that runs after the fields are set: every endpoint and
    every scheduled function names a system of the configuration, and every
    agent reference names a type of the registry.  (The lists in the messages
    are spelled by [Py.repr_list], the [repr] of names without quotes,
    backslashes or control characters.) *)
Definition validate_references `{py : Platform} (self : t) : result t :=
  let system_ids := List.map SystemConfig.id (systems self) in
  _ ← for_each (fun ep =>
         if Py.mem (EndpointConfig.system_id ep) system_ids then Ok ()
         else Raise (mkExn ValueError
                ("Endpoint '" +:+ EndpointConfig.slug ep
                 +:+ "' references unknown system_id '" +:+ EndpointConfig.system_id ep
                 +:+ "'. Available: " +:+ Py.repr_list (sorted_set system_ids))))
       (endpoints self);
  _ ← for_each (fun fn =>
         if Py.mem (AsyncFunctionConfig.system_id fn) system_ids then Ok ()
         else Raise (mkExn ValueError
                ("async_function references unknown system_id '"
                 +:+ AsyncFunctionConfig.system_id fn
                 +:+ "'. Available: " +:+ Py.repr_list (sorted_set system_ids))))
       (async_functions self);
  _ ← for_each (fun system =>
         for_each (fun ref =>
           match assoc (SystemAgentRef.type ref) AGENT_TYPE_REGISTRY with
           | Some _ => Ok ()
           | None =>
               Raise (mkExn ValueError
                 ("System '" +:+ SystemConfig.id system
                  +:+ "' references unknown agent type '" +:+ SystemAgentRef.type ref
                  +:+ "'. Available: "
                  +:+ Py.repr_list (sorted_set (List.map fst AGENT_TYPE_REGISTRY))))
           end)
         (SystemConfig.agents system))
       (systems self);
  mret self.

(** [config.get_system(system_id)]: the first system with that id. *)
Definition get_system `{py : Platform} (self : t) (system_id : string) : result SystemConfig.t :=
  match List.find (fun system => bool_decide (SystemConfig.id system = system_id))
          (systems self) with
  | Some system => Ok system
  | None =>
      Raise (mkExn ValueError
               ("System '" +:+ system_id +:+ "' not found. Available: "
                +:+ Py.repr_list (List.map SystemConfig.id (systems self))))
  end.

(** [config.get_endpoint(slug)]: the first endpoint with that slug, or
    [None]. *)
Definition get_endpoint (self : t) (slug : string) : option EndpointConfig.t :=
  List.find (fun ep => bool_decide (EndpointConfig.slug ep = slug)) (endpoints self).
End EngineConfig.

(* ===================================================================== *)
(** * Input contracts ([app/runtime.py])                                  *)
(* ===================================================================== *)

(** [isinstance(value, type_map[field.type])]: a [bool] is an [int]. *)
Definition isinstance_of (ty : ContractField.FieldType) (value : JValue) : bool :=
  match ty, value with
  | ContractField.TString, JString _ => true
  | ContractField.TNumber, (JInt _ | JFloat _ | JBool _) => true
  | ContractField.TBoolean, JBool _ => true
  | _, _ => false
  end.

Definition is_bool (value : JValue) : bool :=
  match value with
  | JBool _ => true
  | _ => false
  end.

(** [validate_contract(contract, data)]: the request data is the decoded
    JSON object of the request body. *)
Fixpoint validate_contract (contract : list ContractField.t) (data : gmap string JValue)
    : result unit :=
  match contract with
  | [] => Ok ()
  | field :: rest =>
      match data !! ContractField.name field with
      | None =>
          Raise (mkExn ValueError
                   ("Missing required field '" +:+ ContractField.name field
                    +:+ "' (expected type: "
                    +:+ ContractField.type_str (ContractField.type field) +:+ ")"))
      | Some value =>
          if bool_decide (ContractField.type field = ContractField.TNumber) && is_bool value
          then
            Raise (mkExn ValueError
                     ("Field '" +:+ ContractField.name field
                      +:+ "' must be a number, got boolean"))
          else if negb (isinstance_of (ContractField.type field) value) then
            Raise (mkExn ValueError
                     ("Field '" +:+ ContractField.name field +:+ "' must be of type "
                      +:+ ContractField.type_str (ContractField.type field)
                      +:+ ", got " +:+ Json.type_name value))
          else validate_contract rest data
      end
  end.

(** The JSON type a contract field asks for. *)
Definition field_accepts (ty : ContractField.FieldType) (value : JValue) : Prop :=
  match ty with
  | ContractField.TString => exists s, value = JString s
  | ContractField.TNumber => (exists z, value = JInt z) \/ (exists lx, value = JFloat lx)
  | ContractField.TBoolean => exists b, value = JBool b
  end.

(* ===================================================================== *)
(** * The event stream of an endpoint ([app/main.py])                     *)
(* ===================================================================== *)

(** [json.dumps(v)] with the default settings: the members of a dictionary
    in its own order, [ensure_ascii], the separators [", "] and [": "]. *)
Fixpoint dumps_in_order (v : JValue) : string :=
  match v with
  | JNull => "null"
  | JBool true => "true"
  | JBool false => "false"
  | JInt z => pretty z
  | JFloat lx => lx
  | JString s => Json.encode_string s
  | JArray l => "[" +:+ Py.join ", " (List.map dumps_in_order l) +:+ "]"
  | JObject l =>
      "{" +:+
      Py.join ", "
        (List.map (fun kv : string * JValue =>
                     match kv with
                     | (k, x) => Json.encode_string k +:+ ": " +:+ dumps_in_order x
                     end) l)
      +:+ "}"
  end.

(** [chunk.model_dump()] *)
Definition chunk_model_dump (chunk : Chunk) : JValue :=
  JObject
    [("type", JString (RunResponseChunk.type chunk));
     ("content", JString (RunResponseChunk.content chunk));
     ("agent", match RunResponseChunk.agent chunk with
               | Some a => JString a
               | None => JNull
               end)].

(** What [stream()] yields for the chunks of a run: one server-sent event
    per chunk. *)
Definition stream (chunks : list Chunk) : list string :=
  List.map (fun chunk =>
              "data: " +:+ dumps_in_order (chunk_model_dump chunk) +:+ Py.LF +:+ Py.LF)
    chunks.

(** A character of the printable ASCII range. *)
Definition printable (c : ascii) : bool := (32 <=? Py.code c) && (Py.code c <=? 126).

Fixpoint all_chars (p : ascii -> bool) (s : string) : bool :=
  match s with
  | String c r => p c && all_chars p r
  | EmptyString => true
  end.



(** No underscore occurs in the text. *)
Fixpoint no_underscore (s : string) : Prop :=
  match s with
  | String c r => c <> "_"%char /\ no_underscore r
  | EmptyString => True
  end.

(** A name that [add_node] accepts in a graph that does not hold it. *)
Definition node_name (name : string) : Prop :=
  (name ∉ state_keys) /\ name <> START /\ name <> END /\
  Py.contains "|" name = false /\ Py.contains ":" name = false.

(** The agent lists every builder accepts: not empty, with distinct names
    that [add_node] accepts, and with registered tools only. *)
Definition buildable (env : Env) (agents : list ResolvedAgent.t) : Prop :=
  agents <> [] /\
  NoDup (List.map ResolvedAgent.name agents) /\
  Forall (fun a => node_name (ResolvedAgent.name a)) agents /\
  Forall (fun a => Forall (fun n => is_Some (assoc n (_registry env))) (ResolvedAgent.tools a))
    agents.

(** An assistant message, as opposed to a system, human or tool message. *)
Definition is_ai_message (m : Message) : Prop :=
  match m with
  | AIMessage _ _ => True
  | _ => False
  end.

(* ===================================================================== *)
(** * Vocabulary of the statements below                                  *)
(* ===================================================================== *)

(** The chunks that report progress. *)
Definition is_progress (c : Chunk) : Prop :=
  RunResponseChunk.type c = "status" \/ RunResponseChunk.type c = "validation_rejected".

(** The agents that the status chunks of a run name, in order (the status
    chunk of the request names none). *)
Definition status_agents (chunks : list Chunk) : list (option string) :=
  List.map RunResponseChunk.agent
    (List.filter (fun c => bool_decide (RunResponseChunk.type c = "status")) chunks).

(** No two neighbours in the list are equal. *)
Fixpoint no_repeat {A} (l : list A) : Prop :=
  match l with
  | a :: ((b :: _) as rest) => a <> b /\ no_repeat rest
  | _ => True
  end.

(** What the drive loop keeps true: the status chunks it yields never
    repeat the agent of the status chunk before, and the loop remembers the
    agent of the latest one. *)
Definition switches (last_agent0 : option string) (out : list Chunk * result Loop) : Prop :=
  no_repeat (last_agent0 :: status_agents out.1) /\
  forall l', out.2 = Ok l' ->
    last_agent l' = default last_agent0 (last (status_agents out.1)).

(** A lower-case hexadecimal digit. *)
Definition is_lower_hex (c : ascii) : bool :=
  ((48 <=? Py.code c) && (Py.code c <=? 57)) || ((97 <=? Py.code c) && (Py.code c <=? 102)).

(** The update of a node that answers with one text and no tool call. *)
Definition text_update (agent : ResolvedAgent.t) (text : string) : Update :=
  {| upd_messages := [AIMessage (ContentStr text) []];
     upd_current_agent := ResolvedAgent.name agent;
     upd_final_response := text;
     upd_validation_result := None;
     upd_retry_count := None |}.

(** The consecutive pairs of a list. *)
Fixpoint pairs {A} (l : list A) : list (A * A) :=
  match l with
  | a :: ((b :: _) as rest) => (a, b) :: pairs rest
  | _ => []
  end.

(** The text of the exception raised when the API key is missing. *)
Definition missing_key : Exn :=
  mkExn RuntimeError "ANTHROPIC_API_KEY environment variable is not set".

(* ===================================================================== *)
(** * The embedding on the examples of the specification *)
(* ===================================================================== *)


Example route_to_known_specialist :
  label_of (route_decision (state_after (json1 "agent" "writer_1") 0 None) ["writer_1"])
  = Ok "writer_1".
Proof. vm_compute. reflexivity. Qed.

Example route_done_adopts_response :
  route_decision (state_after (json2 "agent" "__done__" "response" "X") 0 None) ["writer_1"]
  = Ok ("__done__",
        set_final_response (state_after (json2 "agent" "__done__" "response" "X") 0 None)
          (JString "X")).
Proof. vm_compute. reflexivity. Qed.

Example route_malformed_text_terminates :
  label_of (route_decision (state_after "not json" 0 None) ["writer_1"]) = Ok "__done__".
Proof. vm_compute. reflexivity. Qed.

Example route_fallback_is_case_insensitive :
  label_of (route_decision (state_after "Please ask WRITER_1 next." 0 None) ["writer_1"])
  = Ok "writer_1".
Proof. vm_compute. reflexivity. Qed.

Example delegate_to_known_peer :
  label_of (route_delegation (state_after (json1 "delegate" "writer_1") 0 None)
              ["coder_0"; "writer_1"])
  = Ok "writer_1".
Proof. vm_compute. reflexivity. Qed.

Example prose_terminates_delegation :
  label_of (route_delegation (state_after "Here is the answer." 0 None)
              ["coder_0"; "writer_1"])
  = Ok "__done__".
Proof. vm_compute. reflexivity. Qed.

Example extract_content_of_blocks :
  _extract_content (ContentList [BlockDict (Some "first") "{...}"; BlockOther "second"])
  = "first" +:+ Py.LF +:+ "second".
Proof. reflexivity. Qed.

Lemma extract_content_idempotent content :
  _extract_content (ContentStr (_extract_content content)) = _extract_content content.
Proof. reflexivity. Qed.

(** A text that is not JSON reaches the caller as the token. *)
Example single_run_prose :
  fst <$> execute_run (constant_env "forty-two") 1 ∅ single_system "What is six times seven?"
  = Some [processing_chunk; agent_status "writer_0";
          RunResponseChunk.mk "token" "forty-two" (Some "writer_0"); done_chunk].
Proof. vm_compute. reflexivity. Qed.

(** A model that fails after a tool call makes the validating node reject. *)
Example validator_failure_rejects :
  validator_node failing_env 2 coder_0 coder_tools (state_after "A draft." 1 None)
  = Some (validator_error_update coder_0 (state_after "A draft." 1 None)
            (mkExn (OtherError "APIConnectionError") "Connection error.")).
Proof. vm_compute. reflexivity. Qed.

(** A validator that always rejects: three rejections, then the run ends. *)
Example three_rejections_end_the_run :
  fst <$> execute_run pipeline_env 2 ∅ sequential_system "Write a haiku"
  = Some [processing_chunk;
          agent_status "writer_0"; agent_status "validator_1"; rejected_chunk "validator_1";
          agent_status "writer_0"; agent_status "validator_1"; rejected_chunk "validator_1";
          agent_status "writer_0"; agent_status "validator_1"; rejected_chunk "validator_1";
          RunResponseChunk.mk "token" "Rejected." (Some "validator_1");
          done_chunk].
Proof. vm_compute. reflexivity. Qed.

(* ===================================================================== *)
(** * Routers: totality, closed codomain and frame *)
(* ===================================================================== *)

(** ** What the decoder raises *)

Lemma scan_number_raises `{py : Platform} s e :
  Json.scan_number s = Some (Raise e) -> exn_type e = ValueError.
Proof.
  unfold Json.scan_number.
  destruct (Json.scan_int s) as [[[neg d] r]|]; [|discriminate].
  destruct (Json.scan_frac r) as [frac r1], (Json.scan_exp r1) as [ex r2].
  destruct frac, ex; try discriminate.
  case_bool_decide as Hlim; intros Heq; inversion Heq. reflexivity.
Qed.

Lemma scan_raises `{py : Platform} fuel :
  (forall depth s e, Json.scan_once fuel depth s = Raise e -> decoder_error e) /\
  (forall depth s acc e, Json.scan_items fuel depth s acc = Raise e -> decoder_error e) /\
  (forall depth s acc e, Json.scan_members fuel depth s acc = Raise e -> decoder_error e).
Proof.
  assert (Hd : decoder_error Json.decode_error) by (left; reflexivity).
  assert (Hn : forall what, decoder_error (Json.nesting_error what))
    by (intros what; right; right; reflexivity).
  induction fuel as [|fuel (IHo & IHi & IHm)].
  { repeat split; intros; simpl in *; congruence. }
  repeat split.
  - intros depth s e. cbn [Json.scan_once].
    destruct s as [|c r]; [cbn; congruence|].
    destruct (Json.scan_number (String c r)) as [[x|e0]|] eqn:Hnum.
    all: repeat (case_match; subst; try congruence; eauto).
    all: intros Heq; inversion Heq; subst; eauto.
    all: right; left; eapply scan_number_raises, Hnum.
  - intros depth s acc e. cbn [Json.scan_items].
    destruct (Json.scan_once fuel depth s) as [[v r]|e0] eqn:Ho.
    + repeat (case_match; subst; try congruence; eauto).
    + intros Heq; inversion Heq; subst. eauto.
  - intros depth s acc e. cbn [Json.scan_members].
    repeat (case_match; subst; try congruence; eauto).
    intros Heq; inversion Heq; subst. eauto.
Qed.

(** [json.loads] raises nothing else. *)
Lemma loads_raises `{py : Platform} s e : Json.loads s = Raise e -> decoder_error e.
Proof.
  unfold Json.loads.
  destruct (Json.scan_once _ _ _) as [[v r]|e0] eqn:Ho.
  - destruct (Json.skip_ws r); intros Heq; inversion Heq. left; reflexivity.
  - intros Heq; inversion Heq; subst. eapply (proj1 (scan_raises _)), Ho.
Qed.

Lemma get_raises v k d e : Json.get v k d = Raise e -> exn_type e = AttributeError.
Proof. destruct v; simpl; intros H; inversion H; reflexivity. Qed.

Lemma known_target_elem target names t :
  known_target target names = Some t -> target = JString t /\ t ∈ names.
Proof.
  destruct target; simpl; try discriminate.
  unfold Py.mem. case_bool_decide as Hin; [|discriminate].
  intros Heq; inversion Heq; subst; auto.
Qed.

Lemma fallback_scan_closed `{py : Platform} content names :
  fallback_scan content names = "__done__" \/ fallback_scan content names ∈ names.
Proof.
  induction names as [|n names IH]; simpl; [by left|].
  destruct (Py.contains _ _).
  - right. apply list_elem_of_here.
  - destruct IH as [->|IH]; [by left|right; by apply list_elem_of_further].
Qed.

Create HintDb routing.
#[local] Hint Resolve fallback_scan_closed : routing.

(** The call returns the label at hand and leaves the state as it was. *)
Ltac returns_unchanged :=
  split; [auto with routing|by left].

Lemma escapes_not_handled e :
  escapes e -> bool_decide (exn_type e ∈ [JSONDecodeError; AttributeError]) = false.
Proof. by intros [->| ->]. Qed.

Section Routing.
Context `{py : Platform} (state : AgentState) (agent_names : list string) (content : string).
Hypothesis Hcontent : last_content state = Ok content.

(** Orchestrator routing, by the cases of its [try] block: it returns a
    label it knows, or the decoder raised what the handler does not list. *)
Lemma route_decision_cases :
  match route_decision state agent_names with
  | Ok (label, state') =>
      (label = "__done__" \/ label ∈ agent_names) /\
      (state' = state \/
       label = "__done__" /\ exists response,
         Json.truthy response = true /\ state' = set_final_response state response)
  | Raise e => escapes e /\ Json.loads (Py.strip content) = Raise e
  end.
Proof.
  unfold route_decision. rewrite Hcontent. simpl.
  destruct (Json.loads (Py.strip content)) as [data|e] eqn:Hl; simpl.
  2:{ destruct (loads_raises _ _ Hl) as [He|He].
      - rewrite He. simpl. returns_unchanged.
      - rewrite (escapes_not_handled e He). simpl. done. }
  destruct (Json.get data "agent" (JString "")) as [target|e] eqn:Hg; simpl.
  2:{ rewrite (get_raises _ _ _ _ Hg). simpl. returns_unchanged. }
  destruct (Json.eq_str target "__done__") eqn:Hd.
  - destruct (Json.get data "response" (JString "")) as [response|e] eqn:Hr; simpl.
    2:{ destruct data; simpl in Hg, Hr; discriminate. }
    destruct (Json.truthy response) eqn:Ht; [|returns_unchanged].
    split; [by left|right].
    split; [done|]. by exists response.
  - destruct (known_target target agent_names) as [t|] eqn:Hk; simpl; [|returns_unchanged].
    apply known_target_elem in Hk as [_ Hin]. returns_unchanged.
Qed.

(** Delegation routing, by the cases of its [try] block. *)
Lemma route_delegation_cases :
  match route_delegation state agent_names with
  | Ok (label, state') => state' = state /\ (label = "__done__" \/ label ∈ agent_names)
  | Raise e => escapes e /\ Json.loads (Py.strip content) = Raise e
  end.
Proof.
  unfold route_delegation. rewrite Hcontent. simpl.
  destruct (Json.loads (Py.strip content)) as [data|e] eqn:Hl; simpl.
  2:{ destruct (loads_raises _ _ Hl) as [He|He].
      - rewrite He. simpl. split; [done|by left].
      - rewrite (escapes_not_handled e He). simpl. done. }
  destruct (Json.get data "delegate" (JString "")) as [target|e] eqn:Hg; simpl.
  2:{ rewrite (get_raises _ _ _ _ Hg). simpl. split; [done|by left]. }
  destruct (known_target target agent_names) as [t|] eqn:Hk; simpl.
  - apply known_target_elem in Hk as [_ Hin]. split; [done|by right].
  - split; [done|by left].
Qed.

End Routing.

Lemma last_content_snoc earlier m state :
  messages state = earlier ++ [m] ->
  last_content state = Ok (_extract_content (message_content m)).
Proof. intros H. unfold last_content. rewrite H, last_snoc. reflexivity. Qed.

(** ** The shape of the graphs the builders return *)

Lemma assoc_key {A} k (l : list (string * A)) v : assoc k l = Some v -> k ∈ List.map fst l.
Proof.
  induction l as [|[k' v'] l IH]; simpl; [discriminate|].
  destruct (decide (k' = k)) as [->|Hne]; intros H.
  - apply list_elem_of_here.
  - apply list_elem_of_further. auto.
Qed.

(** The name of a resolved agent starts with a letter of its type, so it is
    none of the labels and reserved names, which start with an underscore. *)
Lemma merged_name_not_reserved `{py : Platform} ref i a :
  merge_agent ref i = Ok a ->
  ResolvedAgent.name a <> "__accepted__" /\ ResolvedAgent.name a <> "__error__" /\
  ResolvedAgent.name a <> "__done__" /\ ResolvedAgent.name a <> END /\
  ResolvedAgent.name a <> START.
Proof.
  unfold merge_agent, resolve_agent_type.
  destruct (assoc (SystemAgentRef.type ref) AGENT_TYPE_REGISTRY) as [typedef|] eqn:Hk;
    simpl; [|discriminate].
  intros H. inversion H; subst; clear H. simpl.
  apply assoc_key in Hk. simpl in Hk.
  repeat (apply elem_of_cons in Hk as [-> | Hk]; [repeat split; discriminate|]).
  by apply elem_of_nil in Hk.
Qed.

Lemma identity_map_lookup names x :
  identity_map names !! x = if bool_decide (x ∈ names) then Some x else None.
Proof.
  unfold identity_map. induction names as [|n names IH].
  - case_bool_decide as Hin; [by apply elem_of_nil in Hin|apply lookup_empty].
  - cbn [List.map list_to_map foldr]. destruct (decide (n = x)) as [->|Hne].
    + rewrite lookup_insert_eq. by rewrite bool_decide_eq_true_2 by set_solver.
    + rewrite lookup_insert_ne by done. rewrite IH.
      destruct (decide (x ∈ names)) as [Hin|Hnin].
      * rewrite !bool_decide_eq_true_2; [done|by apply list_elem_of_further|done].
      * rewrite !bool_decide_eq_false_2; [done| |done].
        intros [->|?]%elem_of_cons; done.
Qed.

Lemma add_node_frame name n g g' :
  add_node name n g = Ok g' ->
  entry_point g' = entry_point g /\ edges g' = edges g /\ branches g' = branches g /\
  nodes g' = nodes g ++ [(name, n)].
Proof.
  unfold add_node. destruct (Py.mem _ _); [discriminate|].
  case_bool_decide; [discriminate|].
  destruct (_ || _); [discriminate|].
  destruct (Py.contains "|" name); [discriminate|].
  destruct (Py.contains ":" name); [discriminate|].
  intros Heq; inversion Heq; subst; auto.
Qed.

Lemma add_nodes_frame make agents : forall g g',
  add_nodes make agents g = Ok g' ->
  entry_point g' = entry_point g /\ edges g' = edges g /\ branches g' = branches g.
Proof.
  induction agents as [|a agents IH]; simpl; intros g g' H.
  - inversion H; subst; auto.
  - destruct (make a) as [n|e]; simpl in H; [|discriminate].
    destruct (add_node (ResolvedAgent.name a) n g) as [g1|e] eqn:Ha; simpl in H; [|discriminate].
    apply add_node_frame in Ha as (He & Hd & Hb & _).
    apply IH in H as (He' & Hd' & Hb'). rewrite He', Hd', Hb'. auto.
Qed.

Lemma chain_edges_frame agents : forall g,
  branches (chain_edges agents g) = branches g /\
  entry_point (chain_edges agents g) = entry_point g /\
  nodes (chain_edges agents g) = nodes g.
Proof.
  induction agents as [|a [|b [|c rest]] IH]; intros g; try (simpl; auto; fail).
  change (chain_edges (a :: b :: c :: rest) g)
    with (chain_edges (b :: c :: rest) (add_edge (ResolvedAgent.name a) (ResolvedAgent.name b) g)).
  destruct (IH (add_edge (ResolvedAgent.name a) (ResolvedAgent.name b) g)) as (-> & -> & ->).
  auto.
Qed.

Lemma back_edges_branches first specialists : forall g,
  branches (back_edges first specialists g) = branches g.
Proof.
  unfold back_edges. induction specialists as [|a l IH]; simpl; intros g; [done|].
  by rewrite IH.
Qed.

Lemma delegation_edges_branches r d agents : forall g,
  branches (delegation_edges r d agents g)
  = branches g ++ List.map (fun a => (ResolvedAgent.name a, (r, d))) agents.
Proof.
  unfold delegation_edges. induction agents as [|a l IH]; simpl; intros g.
  - by rewrite app_nil_r.
  - rewrite IH. simpl. by rewrite <- app_assoc.
Qed.

Lemma build_sequential_branches `{py : Platform} env agents g :
  (2 <= length agents)%nat ->
  _build_sequential env agents = Ok g ->
  exists first validator,
    head agents = Some first /\ last agents = Some validator /\
    branches g =
      [(ResolvedAgent.name validator,
        (RouteValidation (ResolvedAgent.name first),
         <["__error__" := END]>
           (<["__accepted__" := END]>
              {[ ResolvedAgent.name first := ResolvedAgent.name first ]})))].
Proof.
  intros Hlen. unfold _build_sequential. rewrite bool_decide_eq_false_2 by lia.
  destruct (last agents) as [validator|]; [|discriminate].
  destruct (last (but_last agents)) as [before|]; [|discriminate].
  destruct agents as [|first rest]; [discriminate|].
  destruct (add_nodes _ _ empty_graph) as [g1|e] eqn:H1; simpl; [|discriminate].
  destruct (make_validator_node env validator) as [n|e]; simpl; [|discriminate].
  destruct (add_node _ n g1) as [g2|e] eqn:H2; simpl; [|discriminate].
  intros Heq; inversion Heq; subst; clear Heq.
  exists first, validator. split; [done|]. split; [done|].
  cbn [branches add_conditional_edges add_edge].
  pose proof (chain_edges_frame (first :: rest)
                (set_entry_point (ResolvedAgent.name first) g2)) as (Hb & _).
  simpl in Hb. rewrite Hb. clear Hb.
  apply add_node_frame in H2 as (_ & _ & -> & _).
  apply add_nodes_frame in H1 as (_ & _ & ->). done.
Qed.

Lemma build_orchestrator_branches `{py : Platform} env system agents g :
  _build_orchestrator env system agents = Ok g ->
  exists first,
    head agents = Some first /\
    branches g =
      [(ResolvedAgent.name first,
        (RouteDecision (List.map ResolvedAgent.name (drop 1 agents)),
         <["__done__" := END]>
           (identity_map (List.map ResolvedAgent.name (drop 1 agents)))))].
Proof.
  unfold _build_orchestrator.
  destruct (add_nodes _ _ empty_graph) as [g1|e] eqn:H1; simpl; [|discriminate].
  destruct agents as [|first rest]; simpl; [discriminate|].
  intros Heq; inversion Heq; subst; clear Heq.
  exists first. split; [done|].
  rewrite back_edges_branches. simpl.
  apply add_nodes_frame in H1 as (_ & _ & ->). done.
Qed.

Lemma build_decentralised_branches `{py : Platform} env agents g :
  _build_decentralised env agents = Ok g ->
  branches g =
    List.map (fun a => (ResolvedAgent.name a,
                (RouteDelegation (List.map ResolvedAgent.name agents),
                 <["__done__" := END]> (identity_map (List.map ResolvedAgent.name agents)))))
      agents.
Proof.
  unfold _build_decentralised.
  destruct (add_nodes _ _ empty_graph) as [g1|e] eqn:H1; simpl; [|discriminate].
  destruct (first_agent agents) as [first|e]; simpl; [|discriminate].
  intros Heq; inversion Heq; subst; clear Heq.
  rewrite delegation_edges_branches. simpl.
  apply add_nodes_frame in H1 as (_ & _ & ->). done.
Qed.

Lemma done_or_known_in_destinations names label :
  label = "__done__" \/ label ∈ names ->
  is_Some ((<["__done__" := END]> (identity_map names) : gmap string string) !! label).
Proof.
  intros Hl. destruct (decide ("__done__" = label)) as [<-|Hne].
  - rewrite lookup_insert_eq. eauto.
  - rewrite lookup_insert_ne by done. rewrite identity_map_lookup.
    destruct Hl as [->|Hin]; [done|]. rewrite bool_decide_eq_true_2 by done. eauto.
Qed.

Lemma build_single_node `{py : Platform} env agent g :
  _build_single env agent = Ok g ->
  exists tools, node_tools env agent = Ok tools /\
    nodes g = [(ResolvedAgent.name agent, AgentNode agent tools)] /\
    entry_point g = Some (ResolvedAgent.name agent) /\
    edges g = [(ResolvedAgent.name agent, END)] /\ branches g = [].
Proof.
  unfold _build_single, make_agent_node.
  destruct (node_tools env agent) as [tools|e]; simpl; [|discriminate].
  destruct (add_node _ _ empty_graph) as [g1|e] eqn:Ha; simpl; [|discriminate].
  apply add_node_frame in Ha as (He & Hd & Hb & Hn).
  intros Heq; inversion Heq; subst; simpl. exists tools.
  rewrite Hn, Hd, Hb. auto.
Qed.


Lemma validation_label_in_destinations state first :
  is_Some ((<["__error__" := END]> (<["__accepted__" := END]> {[ first := first ]})
            : gmap string string) !! route_validation state first).
Proof.
  unfold route_validation.
  case_bool_decide.
  - rewrite lookup_insert_ne by done. rewrite lookup_insert_eq. eauto.
  - case_bool_decide.
    + rewrite lookup_insert_eq. eauto.
    + destruct (decide ("__error__" = first)) as [<-|H1]; [rewrite lookup_insert_eq; eauto|].
      rewrite lookup_insert_ne by done.
      destruct (decide ("__accepted__" = first)) as [<-|H2]; [rewrite lookup_insert_eq; eauto|].
      rewrite lookup_insert_ne by done. rewrite lookup_singleton_eq. eauto.
Qed.

(** In every compiled graph, a router that returns answers with a key of
    its own destination map, and a router raises nothing but what the decoder
    raised past its handler. *)
Lemma graph_routers_closed `{py : Platform} env system agents g state content :
  build_graph env system agents = Ok g ->
  last_content state = Ok content ->
  forall src r (destinations : gmap string string),
    (src, (r, destinations)) ∈ branches g ->
    match run_router r state with
    | Ok (label, _) => is_Some (destinations !! label)
    | Raise e => escapes e /\ Json.loads (Py.strip content) = Raise e
    end.
Proof.
  intros Hb Hc src r destinations Hin.
  assert (Hsingle : forall a, _build_single env a = Ok g -> False).
  { intros a Ha. apply build_single_node in Ha as (tools & _ & _ & _ & _ & Hbr).
    rewrite Hbr in Hin. by apply elem_of_nil in Hin. }
  unfold build_graph in Hb.
  case_bool_decide.
  { destruct (first_agent agents) as [a|e]; simpl in Hb; [|discriminate]. by destruct (Hsingle a). }
  case_bool_decide.
  { destruct (decide (length agents < 2)%nat) as [Hlt|Hge].
    - unfold _build_sequential in Hb. rewrite bool_decide_eq_true_2 in Hb by done.
      destruct (first_agent agents) as [a|e]; simpl in Hb; [|discriminate].
      by destruct (Hsingle a).
    - apply build_sequential_branches in Hb as (first & validator & _ & _ & Hbr); [|lia].
      rewrite Hbr in Hin. apply list_elem_of_singleton in Hin. inversion Hin; subst.
      cbn [run_router]. apply validation_label_in_destinations. }
  case_bool_decide.
  { apply build_orchestrator_branches in Hb as (first & _ & Hbr).
    rewrite Hbr in Hin. apply list_elem_of_singleton in Hin. inversion Hin; subst.
    pose proof (route_decision_cases state (List.map ResolvedAgent.name (drop 1 agents))
                  content Hc) as Hr.
    cbn [run_router].
    destruct (route_decision state _) as [[label state']|e]; [|exact Hr].
    destruct Hr as [Hcl _]. by apply done_or_known_in_destinations. }
  case_bool_decide; [|discriminate].
  apply build_decentralised_branches in Hb. rewrite Hb in Hin.
  apply list_elem_of_In, in_map_iff in Hin as (a & Ha & _). inversion Ha; subst.
  pose proof (route_delegation_cases state (List.map ResolvedAgent.name agents) content Hc)
    as Hr.
  cbn [run_router].
  destruct (route_delegation state _) as [[label state']|e]; [|exact Hr].
  destruct Hr as [_ Hcl]. by apply done_or_known_in_destinations.
Qed.

(** On a state whose latest message has a string as its content, whatever
    the string, orchestrator routing and delegation routing return the done
    label or one of the agent names they were given, or raise the
    [ValueError] or the [RecursionError] that [json.loads] raised on the
    stripped text: they return nothing else and raise nothing else.  In every
    graph the builder returns, a router that returns answers with a key of
    the destination map of its own conditional edge. *)
Theorem routers_closed `{py : Platform} (env : Env) (system : SystemConfig.t)
    (agents : list ResolvedAgent.t) (g : StateGraph) (state : AgentState)
    (earlier : list Message) (m : Message) (text : string) (agent_names : list string) :
  messages state = earlier ++ [m] ->
  message_content m = ContentStr text ->
  match route_decision state agent_names with
  | Ok (label, _) => label = "__done__" \/ label ∈ agent_names
  | Raise e => escapes e /\ Json.loads (Py.strip text) = Raise e
  end /\
  match route_delegation state agent_names with
  | Ok (label, _) => label = "__done__" \/ label ∈ agent_names
  | Raise e => escapes e /\ Json.loads (Py.strip text) = Raise e
  end /\
  (build_graph env system agents = Ok g ->
   forall src r (destinations : gmap string string),
     (src, (r, destinations)) ∈ branches g ->
     match run_router r state with
     | Ok (label, _) => is_Some (destinations !! label)
     | Raise e => escapes e /\ Json.loads (Py.strip text) = Raise e
     end).
Proof.
  intros Hm Hc. pose proof (last_content_snoc _ _ _ Hm) as Hl.
  rewrite Hc in Hl. cbn [_extract_content] in Hl.
  split; [|split].
  - pose proof (route_decision_cases state agent_names _ Hl) as Hr.
    destruct (route_decision state agent_names) as [[label state']|e]; [|exact Hr].
    by destruct Hr.
  - pose proof (route_delegation_cases state agent_names _ Hl) as Hr.
    destruct (route_delegation state agent_names) as [[label state']|e]; [|exact Hr].
    by destruct Hr.
  - intros Hb. exact (graph_routers_closed env system agents g state _ Hb Hl).
Qed.

Lemma routers_closed_witness :
  match route_decision (state_after "not json" 0 None) ["writer_1"] with
  | Ok (label, _) => label = "__done__" \/ label ∈ ["writer_1"]
  | Raise e => escapes e /\ Json.loads (Py.strip "not json") = Raise e
  end.
Proof.
  apply (routers_closed (constant_env "not json") single_system [writer_1]
           empty_graph (state_after "not json" 0 None)
           [HumanMessage "Compare Python and Rust"] (AIMessage (ContentStr "not json") [])
           "not json" ["writer_1"]); reflexivity.
Defined.

(** Claim C10 fails on the code.  A text that is one integer literal of
    4301 digits makes [json.loads] raise [ValueError], which the handlers of
    the two routers do not list: both routers raise instead of answering done,
    and a run of an orchestrator whose first agent answers with that text ends
    with the error chunk of the exception. *)
Theorem routers_raise_on_a_long_integer :
  route_decision (state_after long_integer 0 None) ["writer_1"]
  = Raise (Json.digits_error 4301) /\
  route_delegation (state_after long_integer 0 None) ["coder_0"; "writer_1"]
  = Raise (Json.digits_error 4301) /\
  exn_type (Json.digits_error 4301) = ValueError /\
  fst <$> execute_run (constant_env long_integer) 1 ∅ orchestrator_system "Compare Python and Rust"
  = Some [processing_chunk; error_chunk (Json.digits_error 4301); done_chunk].
Proof. repeat split; vm_compute; reflexivity. Qed.

Lemma route_decision_label `{py : Platform} s1 s2 names :
  last_content s1 = last_content s2 ->
  label_of (route_decision s1 names) = label_of (route_decision s2 names).
Proof.
  intros H. unfold route_decision. rewrite H.
  destruct (last_content s2) as [content|e]; simpl; [|done].
  destruct (Json.loads (Py.strip content)) as [data|e]; simpl.
  2:{ case_bool_decide; done. }
  destruct (Json.get data "agent" (JString "")) as [target|e]; simpl.
  2:{ case_bool_decide; done. }
  destruct (Json.eq_str target "__done__").
  - destruct (Json.get data "response" (JString "")) as [response|e]; simpl.
    + done.
    + case_bool_decide; done.
  - destruct (known_target target names); done.
Qed.

Lemma route_delegation_label `{py : Platform} s1 s2 names :
  last_content s1 = last_content s2 ->
  label_of (route_delegation s1 names) = label_of (route_delegation s2 names).
Proof.
  intros H. unfold route_delegation. rewrite H.
  destruct (last_content s2) as [content|e]; simpl; [|done].
  destruct (Json.loads (Py.strip content)) as [data|e]; simpl.
  2:{ case_bool_decide; done. }
  destruct (Json.get data "delegate" (JString "")) as [target|e]; simpl.
  2:{ case_bool_decide; done. }
  destruct (known_target target names); done.
Qed.

Lemma route_decision_frame `{py : Platform} state names label state' :
  route_decision state names = Ok (label, state') ->
  state' = state \/
  label = "__done__" /\ exists response,
    Json.truthy response = true /\ state' = set_final_response state response.
Proof.
  intros H.
  destruct (last_content state) as [content|e] eqn:Hc.
  2:{ unfold route_decision in H. rewrite Hc in H. discriminate. }
  pose proof (route_decision_cases state names content Hc) as Hr.
  rewrite H in Hr. by destruct Hr.
Qed.

Lemma route_delegation_frame `{py : Platform} state names label state' :
  route_delegation state names = Ok (label, state') -> state' = state.
Proof.
  intros H.
  destruct (last_content state) as [content|e] eqn:Hc.
  2:{ unfold route_delegation in H. rewrite Hc in H. discriminate. }
  pose proof (route_delegation_cases state names content Hc) as Hr.
  rewrite H in Hr. by destruct Hr.
Qed.

(** Claim C3, as amended.  A routing call leaves the messages, the current
    agent, the retry count and the validation result of the state as they
    were.  Delegation routing and validation routing leave the whole state
    unchanged; orchestrator routing either leaves it unchanged or, when it
    answers done, stores the truthy [response] of the decoded text in
    [final_response].  The answer of orchestrator and delegation routing is a
    function of the extracted text of the latest message (and the names the
    router was built with); the answer of validation routing is a function of
    [validation_result] and [retry_count] (and the first agent's name). *)
Theorem routers_frame `{py : Platform} (r : Router) (state state' : AgentState) (label : string) :
  run_router r state = Ok (label, state') ->
  (messages state' = messages state /\ current_agent state' = current_agent state /\
   retry_count state' = retry_count state /\
   validation_result state' = validation_result state) /\
  match r with
  | RouteDecision _ =>
      state' = state \/
      label = "__done__" /\ exists response,
        Json.truthy response = true /\ final_response state' = Some response
  | _ => state' = state
  end /\
  forall other : AgentState,
    match r with
    | RouteValidation _ =>
        validation_result other = validation_result state ->
        retry_count other = retry_count state ->
        label_of (run_router r other) = Ok label
    | _ =>
        last_content other = last_content state ->
        label_of (run_router r other) = Ok label
    end.
Proof.
  intros H. destruct r as [first|names|names]; simpl in H.
  - inversion H; subst. repeat split; try done.
    intros other Hv Hr. simpl. unfold route_validation. by rewrite Hv, Hr.
  - pose proof (route_decision_frame _ _ _ _ H) as Hf.
    split; [|split].
    + destruct Hf as [->|(_ & response & _ & ->)]; done.
    + destruct Hf as [->|(Hl & response & Ht & ->)]; [by left|right].
      split; [done|]. by exists response.
    + intros other Hl. simpl. rewrite (route_decision_label other state names Hl).
      by rewrite H.
  - pose proof (route_delegation_frame _ _ _ _ H) as ->.
    repeat split; try done.
    intros other Hl. simpl. rewrite (route_delegation_label other state names Hl).
    by rewrite H.
Qed.

Lemma routers_frame_witness :
  run_router (RouteDecision ["writer_1"])
    (state_after (json2 "agent" "__done__" "response" "X") 0 None)
  = Ok ("__done__",
        set_final_response (state_after (json2 "agent" "__done__" "response" "X") 0 None)
          (JString "X")) /\
  messages (set_final_response (state_after (json2 "agent" "__done__" "response" "X") 0 None)
              (JString "X"))
  = messages (state_after (json2 "agent" "__done__" "response" "X") 0 None).
Proof.
  split; [vm_compute; reflexivity|].
  apply (routers_frame (RouteDecision ["writer_1"])
           (state_after (json2 "agent" "__done__" "response" "X") 0 None)
           (set_final_response (state_after (json2 "agent" "__done__" "response" "X") 0 None)
              (JString "X"))
           "__done__").
  vm_compute. reflexivity.
Defined.


(** Claim C3 fails as stated: on a done answer with a response, orchestrator
    routing overwrites [final_response]; and two states with the same latest
    message but different retry counts get different answers from validation
    routing. *)
Lemma routers_not_pure :
  (exists state',
      run_router (RouteDecision ["writer_1"])
        (state_after (json2 "agent" "__done__" "response" "X") 0 None)
      = Ok ("__done__", state') /\
      final_response state' = Some (JString "X") /\
      final_response (state_after (json2 "agent" "__done__" "response" "X") 0 None)
      = Some (JString (json2 "agent" "__done__" "response" "X")) /\
      state' <> state_after (json2 "agent" "__done__" "response" "X") 0 None) /\
  (last_content (state_after "Looks wrong." 0 (Some "rejected"))
   = last_content (state_after "Looks wrong." 3 (Some "rejected")) /\
   run_router (RouteValidation "coder_0") (state_after "Looks wrong." 0 (Some "rejected"))
   = Ok ("coder_0", state_after "Looks wrong." 0 (Some "rejected")) /\
   run_router (RouteValidation "coder_0") (state_after "Looks wrong." 3 (Some "rejected"))
   = Ok ("__error__", state_after "Looks wrong." 3 (Some "rejected"))).
Proof.
  split.
  - eexists. split; [vm_compute; reflexivity|].
    split; [reflexivity|]. split; [reflexivity|]. discriminate.
  - repeat split; reflexivity.
Qed.

(* ===================================================================== *)
(** * Validation routing and the sequential builder *)
(* ===================================================================== *)

Lemma route_validation_cases state first :
  (validation_result state = Some "accepted" ->
   route_validation state first = "__accepted__") /\
  (validation_result state = Some "rejected" -> retry_count state < 3 ->
   route_validation state first = first) /\
  (validation_result state = Some "rejected" -> 3 <= retry_count state ->
   route_validation state first = "__error__").
Proof.
  unfold route_validation, MAX_RETRIES. repeat split.
  - intros ->. reflexivity.
  - intros -> Hlt. simpl. rewrite bool_decide_eq_false_2 by lia. reflexivity.
  - intros -> Hge. simpl. rewrite bool_decide_eq_true_2 by lia. reflexivity.
Qed.

(** Claim C1.  In the graph compiled under sequential from two or more
    agents, the last agent's conditional edge is driven by validation routing
    on the first agent's name; both termination labels lead to the end of the
    graph and the first agent's name leads to the first agent.  The maximum is
    3, and on every state: accepted gives the success label; rejected with
    fewer than 3 retries gives the first agent; rejected with 3 or more gives
    the error label.  Routing returns the state as it received it, so the
    retry count is unchanged. *)
Theorem validation_routing_three_way `{py : Platform} (env : Env) (agents : list ResolvedAgent.t)
    (g : StateGraph) (state : AgentState) :
  (2 <= length agents)%nat ->
  _build_sequential env agents = Ok g ->
  exists first validator (destinations : gmap string string),
    head agents = Some first /\ last agents = Some validator /\
    branches g = [(ResolvedAgent.name validator,
                   (RouteValidation (ResolvedAgent.name first), destinations))] /\
    destinations !! "__accepted__" = Some END /\
    destinations !! "__error__" = Some END /\
    (ResolvedAgent.name first <> "__accepted__" ->
     ResolvedAgent.name first <> "__error__" ->
     destinations !! ResolvedAgent.name first = Some (ResolvedAgent.name first)) /\
    MAX_RETRIES = 3 /\
    (validation_result state = Some "accepted" ->
     run_router (RouteValidation (ResolvedAgent.name first)) state
     = Ok ("__accepted__", state)) /\
    (validation_result state = Some "rejected" -> retry_count state < 3 ->
     run_router (RouteValidation (ResolvedAgent.name first)) state
     = Ok (ResolvedAgent.name first, state)) /\
    (validation_result state = Some "rejected" -> 3 <= retry_count state ->
     run_router (RouteValidation (ResolvedAgent.name first)) state
     = Ok ("__error__", state)).
Proof.
  intros Hlen Hb.
  destruct (build_sequential_branches env agents g Hlen Hb) as (first & validator & Hh & Hl & Hbr).
  exists first, validator. eexists. split; [done|]. split; [done|]. split; [exact Hbr|].
  destruct (route_validation_cases state (ResolvedAgent.name first)) as (Ha & Hr & He).
  split; [|split; [|split; [|split; [|split; [|split]]]]].
  - rewrite lookup_insert_ne by done. by rewrite lookup_insert_eq.
  - by rewrite lookup_insert_eq.
  - intros H1 H2. rewrite !lookup_insert_ne by done. by rewrite lookup_singleton_eq.
  - reflexivity.
  - intros H. simpl. by rewrite Ha.
  - intros H1 H2. simpl. by rewrite Hr.
  - intros H1 H2. simpl. by rewrite He.
Qed.

Lemma validation_routing_three_way_witness :
  exists g first validator (destinations : gmap string string),
    _build_sequential (constant_env "ok") [coder_0; validator_1] = Ok g /\
    head [coder_0; validator_1] = Some first /\
    last [coder_0; validator_1] = Some validator /\
    branches g = [(ResolvedAgent.name validator,
                   (RouteValidation (ResolvedAgent.name first), destinations))] /\
    run_router (RouteValidation (ResolvedAgent.name first))
      (state_after "Looks wrong." 3 (Some "rejected"))
    = Ok ("__error__", state_after "Looks wrong." 3 (Some "rejected")).
Proof.
  eexists ?[g].
  edestruct (validation_routing_three_way (constant_env "ok") [coder_0; validator_1] ?g
               (state_after "Looks wrong." 3 (Some "rejected")))
    as (first & validator & destinations & Hh & Hl & Hbr & _ & _ & _ & _ & _ & _ & He);
    [simpl; lia | vm_compute; reflexivity |].
  exists first, validator, destinations.
  split; [vm_compute; reflexivity|]. split; [exact Hh|]. split; [exact Hl|]. split; [exact Hbr|].
  apply He; [reflexivity|simpl; lia].
Defined.


(** Claim C8.  On a list of fewer than two agents the sequential builder
    returns what the single strategy returns on that list (the same graph, or
    the same exception on the empty list); a graph so built has the one agent
    as a plain node, entered first, with one unconditional edge to the end and
    no conditional edge. *)
Theorem sequential_degrades_to_single `{py : Platform} (env : Env) (system : SystemConfig.t)
    (agents : list ResolvedAgent.t) :
  SystemConfig.topology system = "single" ->
  (length agents < 2)%nat ->
  _build_sequential env agents = build_graph env system agents /\
  forall g, _build_sequential env agents = Ok g ->
    exists agent tools,
      agents = [agent] /\ node_tools env agent = Ok tools /\
      nodes g = [(ResolvedAgent.name agent, AgentNode agent tools)] /\
      entry_point g = Some (ResolvedAgent.name agent) /\
      edges g = [(ResolvedAgent.name agent, END)] /\
      branches g = [].
Proof.
  intros Ht Hlen. unfold build_graph, _build_sequential. rewrite Ht.
  rewrite (bool_decide_eq_true_2 (length agents < 2)%nat) by done.
  rewrite bool_decide_eq_true_2 by done.
  split; [reflexivity|].
  intros g. destruct agents as [|agent [|b rest]]; simpl in *; [discriminate| |lia].
  intros Hg. destruct (build_single_node env agent g Hg) as (tools & H).
  exists agent, tools. split; [done|exact H].
Qed.

Lemma sequential_degrades_to_single_witness :
  _build_sequential (constant_env "ok") [coder_0]
  = build_graph (constant_env "ok") single_system [coder_0].
Proof.
  apply (sequential_degrades_to_single (constant_env "ok") single_system [coder_0]).
  - reflexivity.
  - simpl. lia.
Defined.


(* ===================================================================== *)
(** * Delegation in the decentralised graph *)
(* ===================================================================== *)

(** Claim C4 on the code.  In the decentralised graph of two peers the
    conditional edge of [coder_0] is driven by delegation routing over both
    names, its destination map sends [coder_0] to [coder_0], and a hand-off of
    [coder_0] to itself is routed back to [coder_0]. *)
Theorem decentralised_self_delegation :
  exists graph destinations,
    _build_decentralised (constant_env (json1 "delegate" "coder_0")) [coder_0; writer_1]
    = Ok graph /\
    assoc "coder_0" (branches graph)
    = Some (RouteDelegation ["coder_0"; "writer_1"], destinations) /\
    destinations !! "coder_0" = Some "coder_0" /\
    route_delegation (state_after (json1 "delegate" "coder_0") 0 None) ["coder_0"; "writer_1"]
    = Ok ("coder_0", state_after (json1 "delegate" "coder_0") 0 None) /\
    next_node graph "coder_0" (state_after (json1 "delegate" "coder_0") 0 None)
    = Ok "coder_0".
Proof.
  eexists. eexists. split; [vm_compute; reflexivity|].
  split; [vm_compute; reflexivity|].
  repeat split; vm_compute; reflexivity.
Qed.

(** ** Strings: concatenation, and decoding a one-member object *)

Lemma append_cons c s t : String c s +:+ t = String c (s +:+ t).
Proof. reflexivity. Qed.

Lemma append_nil_l t : "" +:+ t = t.
Proof. reflexivity. Qed.

Lemma append_nil_r s : s +:+ "" = s.
Proof. induction s as [|c s IH]; [done|]. by rewrite append_cons, IH. Qed.

Lemma append_assoc s t u : (s +:+ t) +:+ u = s +:+ (t +:+ u).
Proof. induction s as [|c s IH]; [done|]. by rewrite !append_cons, IH. Qed.

Lemma length_append s t : String.length (s +:+ t) = (String.length s + String.length t)%nat.
Proof. induction s as [|c s IH]; [done|]. rewrite append_cons. simpl. by rewrite IH. Qed.

(** A run of plain characters closed by a quote is scanned as itself. *)
Lemma scan_string_plain v : forall acc rest fuel,
  plain v = true ->
  (String.length v < fuel)%nat ->
  Json.scan_string fuel (v +:+ String Py.dquote rest) acc = Some (acc +:+ v, rest).
Proof.
  induction v as [|c v IH]; intros acc rest fuel Hp Hf.
  - destruct fuel as [|fuel]; [simpl in Hf; lia|]. rewrite append_nil_l.
    cbn [Json.scan_string]. rewrite decide_True by done. by rewrite append_nil_r.
  - destruct fuel as [|fuel]; [simpl in Hf; lia|].
    simpl in Hp. apply andb_true_iff in Hp as [Hc Hp].
    unfold plain_char in Hc. apply andb_true_iff in Hc as [Hc Hb].
    apply andb_true_iff in Hc as [Hc Hq].
    apply negb_true_iff, bool_decide_eq_false in Hq, Hb.
    rewrite append_cons. cbn [Json.scan_string].
    rewrite decide_False by done. rewrite decide_False by done.
    assert ((Py.code c <? 32) = false) as -> by (apply Z.ltb_ge; by apply Z.leb_le).
    rewrite IH by first [done | simpl in Hf; lia].
    by rewrite append_assoc, append_cons, append_nil_l.
Qed.

(** [json.loads] of a one-member object with plain key and value. *)
Lemma loads_json1 `{py : Platform} k v :
  plain k = true -> plain v = true ->
  Json.loads (json1 k v) = Ok (JObject [(k, JString v)]).
Proof.
  pose proof recursion_budget_positive as Hdepth. intros Hk Hv. unfold Json.loads, json1, quoted, Py.quote.
  destruct recursion_budget as [|depth]; [lia|].
  repeat first [rewrite append_cons | rewrite append_nil_l | rewrite append_assoc].
  remember (2 * String.length _ + 2)%nat as fuel eqn:Hfuel.
  assert (3 <= fuel)%nat as Hge by (subst fuel; simpl; lia).
  clear Hfuel. destruct fuel as [|[|[|fuel]]]; try lia. clear Hge.
  cbn [Json.skip_ws].
  change (Json.is_ws "{"%char) with false. cbn iota.
  cbn [Json.scan_once Json.skip_ws].
  change (Json.is_ws Py.dquote) with false. cbn iota.
  cbn [Json.scan_members].
  rewrite scan_string_plain by (first [done | rewrite length_append; simpl; lia]).
  rewrite append_nil_l. cbn [Json.skip_ws].
  change (Json.is_ws ":"%char) with false. cbn iota.
  cbn [Json.skip_ws].
  change (Json.is_ws " "%char) with true. cbn iota.
  change (Json.is_ws Py.dquote) with false. cbn iota.
  cbn [Json.scan_once].
  rewrite scan_string_plain by (first [done | rewrite length_append; simpl; lia]).
  rewrite append_nil_l. cbn [Json.skip_ws].
  change (Json.is_ws "}"%char) with false. cbn iota.
  reflexivity.
Qed.

(** ** Stripping leaves a text between two ASCII characters that are not
    white space as it is *)

Lemma isspace2_ascii_l a b : Py.code a < 128 -> Py.isspace2 a b = false.
Proof.
  intros Ha. unfold Py.isspace2.
  destruct (Z.eqb_spec (Py.code a) 194); [lia|reflexivity].
Qed.

Lemma isspace2_ascii_r a b : Py.code b < 128 -> Py.isspace2 a b = false.
Proof.
  intros Hb. unfold Py.isspace2.
  destruct (Z.eqb_spec (Py.code b) 133); [lia|].
  destruct (Z.eqb_spec (Py.code b) 160); [lia|].
  apply andb_false_r.
Qed.

Lemma isspace3_ascii_l a b c : Py.code a < 128 -> Py.isspace3 a b c = false.
Proof.
  intros Ha. unfold Py.isspace3.
  destruct (Z.eqb_spec (Py.code a) 225); [lia|].
  destruct (Z.eqb_spec (Py.code a) 226); [lia|].
  destruct (Z.eqb_spec (Py.code a) 227); [lia|].
  reflexivity.
Qed.

Lemma isspace3_ascii_m a b c : Py.code b < 128 -> Py.isspace3 a b c = false.
Proof.
  intros Hb. unfold Py.isspace3.
  destruct (Z.eqb_spec (Py.code b) 154); [lia|].
  destruct (Z.eqb_spec (Py.code b) 128); [lia|].
  destruct (Z.eqb_spec (Py.code b) 129); [lia|].
  by rewrite !andb_false_r.
Qed.

Lemma isspace3_ascii_r a b c : Py.code c < 128 -> Py.isspace3 a b c = false.
Proof.
  intros Hc. unfold Py.isspace3.
  destruct (Z.eqb_spec (Py.code c) 128); [lia|].
  destruct (Z.leb_spec 128 (Py.code c)); [lia|].
  destruct (Z.eqb_spec (Py.code c) 168); [lia|].
  destruct (Z.eqb_spec (Py.code c) 169); [lia|].
  destruct (Z.eqb_spec (Py.code c) 175); [lia|].
  destruct (Z.eqb_spec (Py.code c) 159); [lia|].
  by rewrite !andb_false_r.
Qed.

Lemma lstrip_ascii a r :
  Py.code a < 128 -> Py.isspace a = false -> Py.lstrip (String a r) = String a r.
Proof.
  intros Ha Hs. cbn [Py.lstrip]. rewrite Hs.
  destruct r as [|b [|c r]]; try reflexivity.
  - by rewrite isspace2_ascii_l.
  - by rewrite isspace2_ascii_l, isspace3_ascii_l.
Qed.

Lemma all_space_snoc_ascii c :
  Py.code c < 128 -> Py.isspace c = false ->
  forall n s, (String.length s <= n)%nat -> Py.all_space (s +:+ String c "") = false.
Proof.
  intros Hc Hs. induction n as [|n IH]; intros s Hn.
  { destruct s; [|simpl in Hn; lia]. rewrite append_nil_l. cbn [Py.all_space]. by rewrite Hs. }
  destruct s as [|a s]; [rewrite append_nil_l; cbn [Py.all_space]; by rewrite Hs|].
  rewrite append_cons. cbn [Py.all_space].
  destruct (Py.isspace a); [apply IH; simpl in Hn; lia|].
  destruct s as [|b s].
  { rewrite append_nil_l. by rewrite isspace2_ascii_r. }
  rewrite append_cons.
  destruct (Py.isspace2 a b); [apply IH; simpl in Hn; lia|].
  destruct s as [|d s].
  { rewrite append_nil_l. by rewrite isspace3_ascii_r. }
  rewrite append_cons.
  destruct (Py.isspace3 a b d); [apply IH; simpl in Hn; lia|reflexivity].
Qed.

Lemma rstrip_ascii s c :
  Py.code c < 128 -> Py.isspace c = false ->
  Py.rstrip (s +:+ String c "") = s +:+ String c "".
Proof.
  intros Hc Hs. induction s as [|a s IH].
  - rewrite append_nil_l. cbn [Py.rstrip Py.all_space]. by rewrite Hs.
  - rewrite append_cons. cbn [Py.rstrip]. rewrite IH.
    rewrite <- append_cons.
    by rewrite (all_space_snoc_ascii c Hc Hs (String.length (String a s)) (String a s)).
Qed.

Lemma rstrip_brace s : Py.rstrip (s +:+ "}") = s +:+ "}".
Proof. by apply rstrip_ascii. Qed.

Lemma strip_json1 k v : Py.strip (json1 k v) = json1 k v.
Proof.
  unfold Py.strip, json1.
  change ("{" +:+ ?s) with (String "{"%char s).
  rewrite lstrip_ascii by done.
  change (String "{"%char ?s) with ("{" +:+ s).
  rewrite <- !append_assoc. apply rstrip_brace.
Qed.

(** ** Every decentralised graph *)

Lemma assoc_map_const {A} (x : A) agents a :
  a ∈ agents ->
  assoc (ResolvedAgent.name a) (List.map (fun b => (ResolvedAgent.name b, x)) agents) = Some x.
Proof.
  induction agents as [|b agents IH]; intros Hin; [by apply elem_of_nil in Hin|].
  cbn [List.map assoc]. destruct (decide (ResolvedAgent.name b = ResolvedAgent.name a)); [done|].
  apply elem_of_cons in Hin as [->|Hin]; [done|auto].
Qed.

Lemma delegation_edges_edges r d agents : forall g,
  edges (delegation_edges r d agents g) = edges g.
Proof.
  unfold delegation_edges. induction agents as [|a l IH]; simpl; intros g; [done|].
  by rewrite IH.
Qed.

Lemma build_decentralised_edges `{py : Platform} env agents g :
  _build_decentralised env agents = Ok g -> edges g = [].
Proof.
  unfold _build_decentralised.
  destruct (add_nodes _ _ empty_graph) as [g1|e] eqn:H1; simpl; [|discriminate].
  destruct (first_agent agents) as [first|e]; simpl; [|discriminate].
  intros Heq; inversion Heq; subst; clear Heq.
  rewrite delegation_edges_edges. simpl.
  by apply add_nodes_frame in H1 as (_ & -> & _).
Qed.

(** In every decentralised graph, an agent whose latest message hands off to
    the agent itself is run again. *)
Lemma self_handoff_runs_the_agent_again `{py : Platform} env agents g a state earlier :
  _build_decentralised env agents = Ok g ->
  a ∈ agents ->
  plain (ResolvedAgent.name a) = true ->
  ResolvedAgent.name a <> "__done__" ->
  messages state
  = earlier ++ [AIMessage (ContentStr (json1 "delegate" (ResolvedAgent.name a))) []] ->
  route_delegation state (List.map ResolvedAgent.name agents)
  = Ok (ResolvedAgent.name a, state) /\
  next_node g (ResolvedAgent.name a) state = Ok (ResolvedAgent.name a).
Proof.
  intros Hb Hin Hp Hne Hm.
  assert (Hr : route_delegation state (List.map ResolvedAgent.name agents)
               = Ok (ResolvedAgent.name a, state)).
  { unfold route_delegation, last_content. rewrite Hm, last_snoc.
    cbn [message_content _extract_content mbind result_bind].
    rewrite strip_json1, loads_json1 by done.
    cbn [try_except mbind result_bind Json.get Json.lookup_member].
    rewrite decide_True by done. cbn [default].
    unfold id, known_target, Py.mem. rewrite bool_decide_eq_true_2; [reflexivity|].
    apply list_elem_of_In, in_map, list_elem_of_In, Hin. }
  split; [exact Hr|].
  unfold next_node. rewrite (build_decentralised_edges _ _ _ Hb).
  rewrite (build_decentralised_branches _ _ _ Hb). cbn [assoc].
  rewrite (assoc_map_const _ _ _ Hin). cbn [run_router]. rewrite Hr.
  cbn [mbind result_bind fst].
  rewrite lookup_insert_ne by done. rewrite identity_map_lookup.
  rewrite bool_decide_eq_true_2; [reflexivity|].
  apply list_elem_of_In, in_map, list_elem_of_In, Hin.
Qed.

Example self_handoff_of_the_first_peer `{py : Platform} env g :
  _build_decentralised env [coder_0; writer_1] = Ok g ->
  next_node g "coder_0" (state_after (json1 "delegate" "coder_0") 0 None) = Ok "coder_0".
Proof.
  intros Hb.
  apply (self_handoff_runs_the_agent_again env [coder_0; writer_1] g coder_0 _
           [HumanMessage "Compare Python and Rust"] Hb);
    [apply list_elem_of_here | reflexivity | discriminate | reflexivity].
Qed.

(* ===================================================================== *)
(** * The validating node and the retry count *)
(* ===================================================================== *)

(** ** Fuel: a result does not depend on how much is left *)

Lemma tool_call_loop_mono `{py : Platform} llm tools : forall fuel fuel' msgs tool_results r,
  tool_call_loop fuel llm tools msgs tool_results = Some r ->
  (fuel <= fuel')%nat ->
  tool_call_loop fuel' llm tools msgs tool_results = Some r.
Proof.
  induction fuel as [|fuel IH]; intros fuel' msgs tool_results r H Hle; [discriminate|].
  destruct fuel' as [|fuel']; [lia|]. cbn [tool_call_loop] in *.
  destruct (llm msgs) as [response|e]; [|exact H].
  destruct (resp_tool_calls response) as [|tc calls]; [exact H|].
  destruct (_execute_tool_calls (tc :: calls) tools) as [batch|e]; [|exact H].
  apply (IH fuel'); [exact H|lia].
Qed.

Lemma run_node_mono `{py : Platform} env fuel fuel' node state u :
  run_node env fuel node state = Some u ->
  (fuel <= fuel')%nat ->
  run_node env fuel' node state = Some u.
Proof.
  intros H Hle.
  assert (Htry : forall agent prompt tools r,
             agent_node_try env fuel agent prompt tools state = Some r ->
             agent_node_try env fuel' agent prompt tools state = Some r).
  { intros agent prompt tools r. unfold agent_node_try, run_bind, lift.
    destruct (_get_llm env (ResolvedAgent.model agent) tools) as [llm|e]; [|done].
    destruct (tool_call_loop fuel llm tools _ []) as [x|] eqn:Hl; [|discriminate].
    by rewrite (tool_call_loop_mono _ _ _ _ _ _ _ Hl Hle). }
  destruct node as [agent tools|agent tools|agent prompt tools]; simpl in *.
  - unfold agent_node in *.
    destruct (agent_node_try env fuel agent _ tools state) as [r|] eqn:Ht; [|discriminate].
    by rewrite (Htry _ _ _ _ Ht).
  - unfold validator_node, validator_node_try, validator_loop, run_bind, lift in *.
    destruct (_get_llm env (ResolvedAgent.model agent) tools) as [llm|e]; [|done].
    destruct (tool_call_loop fuel llm tools _ []) as [x|] eqn:Hl; [|discriminate].
    by rewrite (tool_call_loop_mono _ _ _ _ _ _ _ Hl Hle).
  - unfold decentralised_node in *.
    destruct (agent_node_try env fuel agent prompt tools state) as [r|] eqn:Ht; [|discriminate].
    by rewrite (Htry _ _ _ _ Ht).
Qed.

(** A model that asks for no tool ends the loop at once. *)
Lemma tool_call_loop_no_tools `{py : Platform} fuel llm tools msgs tool_results response :
  llm msgs = Ok response ->
  resp_tool_calls response = [] ->
  tool_call_loop (S fuel) llm tools msgs tool_results = Some (Ok (response, msgs, tool_results)).
Proof. intros Hl Hc. cbn [tool_call_loop]. by rewrite Hl, Hc. Qed.

(** ** The verdict of the validating node *)

Lemma scan_sentinels_values tool_results v :
  scan_sentinels tool_results = Some v -> v = "accepted" \/ v = "rejected".
Proof.
  induction tool_results as [|tr rest IH]; simpl; [discriminate|].
  destruct (Py.contains "__ACCEPTED__" _); [intros H; inversion H; auto|].
  destruct (Py.contains "__REJECTED__:" _); [intros H; inversion H; auto|].
  exact IH.
Qed.

Lemma scan_sentinels_none tool_results :
  Forall (fun tr => Py.contains "__ACCEPTED__" (tool_message_content tr) = false /\
                    Py.contains "__REJECTED__:" (tool_message_content tr) = false)
    tool_results ->
  scan_sentinels tool_results = None.
Proof.
  induction 1 as [|tr rest [Ha Hr] _ IH]; simpl; [done|]. by rewrite Ha, Hr.
Qed.

Lemma verdict_cases agent state response tool_results :
  (upd_validation_result (validator_verdict agent state response tool_results)
   = Some "accepted" /\
   upd_retry_count (validator_verdict agent state response tool_results)
   = Some (retry_count state)) \/
  (upd_validation_result (validator_verdict agent state response tool_results)
   = Some "rejected" /\
   upd_retry_count (validator_verdict agent state response tool_results)
   = Some (retry_count state + 1)).
Proof.
  unfold validator_verdict. simpl.
  destruct (scan_sentinels tool_results) as [v|] eqn:Hs.
  - apply scan_sentinels_values in Hs as [-> | ->]; [left|right]; done.
  - left. done.
Qed.

Section Validating.
Context `{py : Platform}.
Context (env : Env) (fuel : nat) (agent : ResolvedAgent.t) (tools : list (string * Tool)).
Context (state : AgentState) (u : Update).
Hypothesis Hnode : validator_node env fuel agent tools state = Some u.

(** The update comes from the sentinel inspection or from the handler. *)
Lemma validator_node_cases :
  (exists response tool_results,
     validator_loop env fuel agent tools state = Some (Ok (response, tool_results)) /\
     validator_node_try env fuel agent tools state = Some (Ok u) /\
     u = validator_verdict agent state response tool_results) \/
  (exists e,
     validator_node_try env fuel agent tools state = Some (Raise e) /\
     u = validator_error_update agent state e).
Proof.
  revert Hnode. unfold validator_node, validator_node_try, run_bind.
  destruct (validator_loop env fuel agent tools state) as [[[response tool_results]|e]|];
    simpl; intros H; inversion H; subst.
  - left. exists response, tool_results. done.
  - right. exists e. done.
Qed.

Lemma validator_step :
  (upd_validation_result u = Some "accepted" /\
   retry_count (apply_update state u) = retry_count state) \/
  (upd_validation_result u = Some "rejected" /\
   retry_count (apply_update state u) = retry_count state + 1).
Proof.
  destruct validator_node_cases as [(response & tool_results & _ & _ & ->)|(e & _ & ->)].
  - destruct (verdict_cases agent state response tool_results) as [[Hv Hr]|[Hv Hr]];
      [left|right]; (split; [exact Hv|]); unfold apply_update; cbn [retry_count];
      by rewrite Hr.
  - right. done.
Qed.

End Validating.

Lemma agent_node_try_keys `{py : Platform} env fuel agent prompt tools state u :
  agent_node_try env fuel agent prompt tools state = Some (Ok u) ->
  upd_retry_count u = None /\ upd_validation_result u = None.
Proof.
  unfold agent_node_try, run_bind, lift.
  destruct (_get_llm _ _ _) as [llm|e]; [|discriminate].
  destruct (tool_call_loop _ _ _ _ _) as [[[[response msgs] trs]|e]|]; try discriminate.
  destruct (text_retry _ _ _ _ _) as [response'|e]; [|discriminate].
  intros H; inversion H; subst. done.
Qed.

Lemma plain_step `{py : Platform} env fuel agent prompt tools state u :
  match agent_node_try env fuel agent prompt tools state with
  | None => None
  | Some (Ok u) => Some u
  | Some (Raise e) => Some (agent_error_update agent e)
  end = Some u ->
  apply_update state u
  = {| messages := messages state ++ upd_messages u;
       current_agent := Some (upd_current_agent u);
       final_response := Some (JString (upd_final_response u));
       retry_count := retry_count state;
       validation_result := validation_result state |}.
Proof.
  destruct (agent_node_try env fuel agent prompt tools state) as [[u'|e]|] eqn:Ht;
    intros H; inversion H; subst.
  - apply agent_node_try_keys in Ht as [Hr Hv]. unfold apply_update. by rewrite Hr, Hv.
  - done.
Qed.

Lemma node_step_monotone `{py : Platform} env fuel node state u :
  run_node env fuel node state = Some u ->
  retry_count state <= retry_count (apply_update state u).
Proof.
  destruct node as [agent tools|agent tools|agent prompt tools]; intros H; simpl in H.
  - unfold agent_node in H. rewrite (plain_step _ _ _ _ _ _ _ H). simpl. lia.
  - apply validator_step in H as [[_ ->]|[_ ->]]; lia.
  - unfold decentralised_node in H. rewrite (plain_step _ _ _ _ _ _ _ H). simpl. lia.
Qed.

Lemma astream_from_sorted `{py : Platform} env fuel g : forall limit current state events failure,
  astream_from env fuel limit g current state = Some (events, failure) ->
  Sorted Z.le (retry_count state :: List.map retry_count (replay state events)).
Proof.
  induction limit as [|limit IH]; simpl; intros current state events failure H.
  - inversion H; subst. simpl. repeat constructor.
  - destruct (assoc current (nodes g)) as [n|]; [|inversion H; subst; repeat constructor].
    destruct (run_node env fuel n state) as [u|] eqn:Hn; [|discriminate].
    pose proof (node_step_monotone _ _ _ _ _ Hn) as Hle.
    destruct (next_node g current (apply_update state u)) as [dst|e].
    2:{ inversion H; subst. simpl. repeat constructor. }
    case_bool_decide.
    { inversion H; subst. simpl. repeat constructor. exact Hle. }
    destruct (astream_from env fuel limit g dst (apply_update state u))
      as [[events' failure']|] eqn:Hrec; [|discriminate].
    inversion H; subst.
    change (Sorted Z.le
              (retry_count state :: retry_count (apply_update state u)
                 :: List.map retry_count (replay (apply_update state u) events'))).
    constructor; [eapply IH; exact Hrec|]. constructor. exact Hle.
Qed.

(** Claim C2.  Folding the update of any node into the state never lowers
    [retry_count].  The validating node either reports accepted and leaves the
    count as it was, or reports rejected and raises it by exactly one; when
    its [try] block raises, the state ends with [validation_result] rejected
    and the count raised by one.  Along any run of the step loop the counts of
    the successive states are sorted. *)
Theorem retry_count_bookkeeping `{py : Platform} (env : Env) (fuel : nat) (node : Node)
    (state : AgentState) (u : Update) :
  run_node env fuel node state = Some u ->
  retry_count state <= retry_count (apply_update state u) /\
  (forall agent tools, node = ValidatorNode agent tools ->
     ((upd_validation_result u = Some "accepted" /\
       retry_count (apply_update state u) = retry_count state) \/
      (upd_validation_result u = Some "rejected" /\
       retry_count (apply_update state u) = retry_count state + 1)) /\
     (forall e, validator_node_try env fuel agent tools state = Some (Raise e) ->
        validation_result (apply_update state u) = Some "rejected" /\
        retry_count (apply_update state u) = retry_count state + 1)) /\
  (forall g limit current events failure,
     astream_from env fuel limit g current state = Some (events, failure) ->
     Sorted Z.le (retry_count state :: List.map retry_count (replay state events))).
Proof.
  intros H. split; [exact (node_step_monotone _ _ _ _ _ H)|]. split.
  - intros agent tools ->. simpl in H. split; [exact (validator_step _ _ _ _ _ _ H)|].
    intros e He. unfold validator_node in H. rewrite He in H. inversion H; subst. done.
  - intros g limit current events failure. apply astream_from_sorted.
Qed.

Lemma retry_count_bookkeeping_witness :
  exists u,
    run_node rejecting_env 2 (ValidatorNode validator_1 validator_tools)
      (state_after "A draft." 1 None) = Some u /\
    upd_validation_result u = Some "rejected" /\
    retry_count (state_after "A draft." 1 None)
    <= retry_count (apply_update (state_after "A draft." 1 None) u).
Proof.
  eexists. split; [vm_compute; reflexivity|]. split; [reflexivity|].
  apply (retry_count_bookkeeping rejecting_env 2 (ValidatorNode validator_1 validator_tools)).
  vm_compute. reflexivity.
Defined.


(** ** A node returns when the model settles *)

Lemma tool_call_loop_settles `{py : Platform} llm tools : forall k msgs tool_results,
  settles k llm tools msgs ->
  exists r, tool_call_loop (S k) llm tools msgs tool_results = Some r.
Proof.
  induction k as [|k IH]; intros msgs tool_results H.
  - cbn [tool_call_loop settles] in *.
    destruct (llm msgs) as [response|e]; [|eauto].
    destruct (resp_tool_calls response) as [|tc calls]; [eauto|].
    destruct (_execute_tool_calls (tc :: calls) tools) as [batch|e]; [done|eauto].
  - cbn [settles] in H.
    change (tool_call_loop (S (S k)) llm tools msgs tool_results)
      with (match llm msgs with
            | Raise e => Some (Raise e)
            | Ok response =>
                match resp_tool_calls response with
                | [] => Some (Ok (response, msgs, tool_results))
                | calls =>
                    match _execute_tool_calls calls tools with
                    | Raise e => Some (Raise e)
                    | Ok batch =>
                        tool_call_loop (S k) llm tools
                          ((msgs ++ [response_message response]) ++ batch)
                          (tool_results ++ batch)
                    end
                end
            end).
    destruct (llm msgs) as [response|e]; [|eauto].
    destruct (resp_tool_calls response) as [|tc calls]; [eauto|].
    destruct (_execute_tool_calls (tc :: calls) tools) as [batch|e]; [|eauto].
    apply IH, H.
Qed.

Lemma run_node_settles `{py : Platform} env k node state :
  bounded_tool_rounds env k -> exists u, run_node env (S k) node state = Some u.
Proof.
  intros Hk.
  assert (Hloop : forall agent tools msgs,
             exists r,
               run_bind (lift (_get_llm env (ResolvedAgent.model agent) tools))
                 (fun llm => tool_call_loop (S k) llm tools msgs []) = Some r).
  { intros agent tools msgs. unfold _get_llm, run_bind, lift.
    destruct (ANTHROPIC_API_KEY env) as [[|c key]|]; eauto.
    apply tool_call_loop_settles, Hk. }
  assert (Htry : forall agent prompt tools,
             exists r, agent_node_try env (S k) agent prompt tools state = Some r).
  { intros agent prompt tools. unfold agent_node_try.
    destruct (Hloop agent tools (SystemMessage prompt :: messages state)) as [r Hr].
    unfold run_bind, lift in *.
    destruct (_get_llm env (ResolvedAgent.model agent) tools) as [llm|e]; [|eauto].
    rewrite Hr. destruct r as [[[response msgs] trs]|e]; [|eauto].
    destruct (text_retry env agent tools response msgs); eauto. }
  destruct node as [agent tools|agent tools|agent prompt tools]; cbn [run_node].
  - unfold agent_node. destruct (Htry agent (ResolvedAgent.prompt agent) tools) as [r ->].
    destruct r; eauto.
  - unfold validator_node, validator_node_try, validator_loop.
    destruct (Hloop agent tools
                (SystemMessage (ResolvedAgent.prompt agent) :: messages state)) as [r Hr].
    unfold run_bind, lift in *.
    destruct (_get_llm env (ResolvedAgent.model agent) tools) as [llm|e]; [|eauto].
    rewrite Hr. destruct r as [[[response msgs] trs]|e]; [|eauto].
    destruct (text_retry env agent tools response msgs); eauto.
  - unfold decentralised_node. destruct (Htry agent prompt tools) as [r ->].
    destruct r; eauto.
Qed.

(** Claim C9 fails as stated.  A validating node invokes a tool whose result
    holds neither sentinel; the model call that follows raises.  The node
    reports rejected and adds one to [retry_count]: the failure is caught by
    the handler of the node before the tool results are inspected. *)
Lemma tool_run_without_sentinel_rejected :
  let state := state_after "A draft." 1 None in
  let llm := ainvoke failing_env (ResolvedAgent.model coder_0) (List.map fst coder_tools) in
  let msgs := SystemMessage (ResolvedAgent.prompt coder_0) :: messages state in
  let call := mkToolCall "calculate" (JObject [("expression", JString "2+2")]) "call_1" in
  let request := mkResponse (ContentStr "") [call] in
  let failure := mkExn (OtherError "APIConnectionError") "Connection error." in
  llm msgs = Ok request /\
  _execute_tool_calls [call] coder_tools = Ok [ToolMessage "4" "call_1"] /\
  Py.contains "__ACCEPTED__" "4" = false /\
  Py.contains "__REJECTED__:" "4" = false /\
  llm ((msgs ++ [response_message request]) ++ [ToolMessage "4" "call_1"]) = Raise failure /\
  retry_count state = 1 /\
  exists u,
    validator_node failing_env 2 coder_0 coder_tools state = Some u /\
    upd_validation_result u = Some "rejected" /\
    upd_retry_count u = Some 2 /\
    validation_result (apply_update state u) = Some "rejected" /\
    retry_count (apply_update state u) = 2.
Proof.
  cbv zeta. repeat (split; [vm_compute; reflexivity|]).
  eexists. split; [vm_compute; reflexivity|]. repeat split.
Qed.

(** Claim C9, as amended.  When the tool-call loop of the validating node and
    the guard after it complete, and no tool result of the invocation holds
    either sentinel, the node reports accepted and leaves [retry_count]
    unchanged, whether tools were invoked or not.  When a model call or a tool
    raises instead, the node reports rejected and adds one to [retry_count],
    whatever the tools invoked before have returned.  One of the two happens
    whenever the model settles: with a model that asks for tools in at most
    [k] rounds, the loop ends within [k + 1] rounds. *)
Theorem implicit_accept_without_sentinel `{py : Platform} (env : Env) (fuel : nat) (agent : ResolvedAgent.t)
    (tools : list (string * Tool)) (state : AgentState) :
  (forall response tool_results,
     validator_loop env fuel agent tools state = Some (Ok (response, tool_results)) ->
     Forall (fun tr => Py.contains "__ACCEPTED__" (tool_message_content tr) = false /\
                       Py.contains "__REJECTED__:" (tool_message_content tr) = false)
       tool_results ->
     exists u,
       validator_node env fuel agent tools state = Some u /\
       upd_validation_result u = Some "accepted" /\
       upd_retry_count u = Some (retry_count state) /\
       validation_result (apply_update state u) = Some "accepted" /\
       retry_count (apply_update state u) = retry_count state) /\
  (forall e,
     validator_loop env fuel agent tools state = Some (Raise e) ->
     exists u,
       validator_node env fuel agent tools state = Some u /\
       upd_validation_result u = Some "rejected" /\
       upd_retry_count u = Some (retry_count state + 1) /\
       validation_result (apply_update state u) = Some "rejected" /\
       retry_count (apply_update state u) = retry_count state + 1) /\
  (forall k,
     fuel = S k -> bounded_tool_rounds env k ->
     exists r, validator_loop env fuel agent tools state = Some r).
Proof.
  split; [|split].
  - intros response tool_results Hloop Hnone.
    exists (validator_verdict agent state response tool_results).
    unfold validator_node, validator_node_try, run_bind. rewrite Hloop. simpl.
    unfold validator_verdict. rewrite (scan_sentinels_none _ Hnone). done.
  - intros e Hloop. exists (validator_error_update agent state e).
    unfold validator_node, validator_node_try, run_bind. rewrite Hloop. done.
  - intros k -> Hk.
    destruct (run_node_settles env k (ValidatorNode agent tools) state Hk) as [u Hu].
    cbn [run_node] in Hu. unfold validator_node, validator_node_try, run_bind in Hu.
    destruct (validator_loop env (S k) agent tools state); [eauto|done].
Qed.

Lemma implicit_accept_without_sentinel_witness :
  (exists u,
     validator_node calculating_env 2 coder_0 coder_tools (state_after "A draft." 1 None)
     = Some u /\
     upd_validation_result u = Some "accepted" /\
     upd_retry_count u = Some 1 /\
     validation_result (apply_update (state_after "A draft." 1 None) u) = Some "accepted" /\
     retry_count (apply_update (state_after "A draft." 1 None) u) = 1) /\
  (exists u,
     validator_node failing_env 2 coder_0 coder_tools (state_after "A draft." 1 None)
     = Some u /\
     upd_validation_result u = Some "rejected" /\
     upd_retry_count u = Some (1 + 1) /\
     validation_result (apply_update (state_after "A draft." 1 None) u) = Some "rejected" /\
     retry_count (apply_update (state_after "A draft." 1 None) u) = 1 + 1) /\
  bounded_tool_rounds (constant_env "Fine.") 0 /\
  (exists r,
     validator_loop (constant_env "Fine.") 1 coder_0 coder_tools
       (state_after "A draft." 1 None) = Some r).
Proof.
  split; [|split; [|split]].
  3: intros model bound tools msgs; exact I.
  3: { apply (proj2 (proj2 (implicit_accept_without_sentinel (constant_env "Fine.") 1 coder_0
                              coder_tools (state_after "A draft." 1 None))) 0%nat eq_refl).
       intros model bound tools msgs. exact I. }
  - apply (proj1 (implicit_accept_without_sentinel calculating_env 2 coder_0 coder_tools
                    (state_after "A draft." 1 None))
             (mkResponse (ContentStr "The sum is right.") [])
             [ToolMessage "4" "call_1"]).
    + vm_compute. reflexivity.
    + repeat constructor.
  - apply (proj1 (proj2 (implicit_accept_without_sentinel failing_env 2 coder_0 coder_tools
                           (state_after "A draft." 1 None)))
             (mkExn (OtherError "APIConnectionError") "Connection error.")).
    vm_compute. reflexivity.
Defined.


(* ===================================================================== *)
(** * The run executor *)
(* ===================================================================== *)

(** ** The run executor *)

Lemma handle_update_types `{py : Platform} l item :
  Forall yielded_in_try (handle_update l item).1.
Proof.
  destruct item as [node_name u]. unfold handle_update.
  case_bool_decide; [constructor|]. simpl.
  apply Forall_app. split.
  - destruct (negb _); [|constructor]. constructor; [by left|constructor].
  - case_bool_decide; [|constructor]. constructor; [by right; left|constructor].
Qed.

Lemma handle_items_types `{py : Platform} items : forall l, Forall yielded_in_try (handle_items l items).1.
Proof.
  induction items as [|item rest IH]; intros l; simpl; [constructor|].
  pose proof (handle_update_types l item) as Hu.
  destruct (handle_update l item) as [chunks [l'|e]]; simpl in *; [|done].
  specialize (IH l'). destruct (handle_items l' rest) as [chunks' r]. simpl in *.
  apply Forall_app. done.
Qed.

Lemma drive_types `{py : Platform} events failure : forall l, Forall yielded_in_try (drive l events failure).1.
Proof.
  induction events as [|event rest IH]; intros l; simpl.
  - destruct failure; constructor.
  - pose proof (handle_items_types event l) as Hu.
    destruct (handle_items l event) as [chunks [l'|e]]; simpl in *; [|done].
    specialize (IH l'). destruct (drive l' rest failure) as [chunks' r]. simpl in *.
    apply Forall_app. done.
Qed.

Lemma drive_failure `{py : Platform} events e : forall l, exists e', (drive l events (Some e)).2 = Raise e'.
Proof.
  induction events as [|event rest IH]; intros l; simpl; [by exists e|].
  destruct (handle_items l event) as [chunks [l'|e1]]; simpl; [|by exists e1].
  destruct (IH l') as [e' He']. destruct (drive l' rest (Some e)) as [chunks' r].
  simpl in *. by exists e'.
Qed.

Lemma execute_try_types `{py : Platform} trace : Forall yielded_in_try (execute_try trace).1.
Proof.
  unfold execute_try. pose proof (drive_types trace.1 trace.2 (mkLoop None None)) as Hd.
  destruct (drive _ _ _) as [chunks [l|e]]; simpl in *; [|done].
  destruct (final_content l) as [fc|]; [|done].
  destruct (Json.truthy fc); [|done].
  destruct fc; simpl; try done.
  apply Forall_app. split; [done|]. constructor; [by right; right|constructor].
Qed.

Lemma execute_try_failure `{py : Platform} events e :
  exists e', (execute_try (events, Some e)).2 = Raise e'.
Proof.
  unfold execute_try. simpl.
  destruct (drive_failure events e (mkLoop None None)) as [e' He'].
  destruct (drive _ _ _) as [chunks r]. simpl in He'. subst. by exists e'.
Qed.

Lemma yielded_not_done c : yielded_in_try c -> RunResponseChunk.type c <> "done".
Proof. intros [H|[H|H]]; rewrite H; discriminate. Qed.

Lemma yielded_not_error c : yielded_in_try c -> RunResponseChunk.type c <> "error".
Proof. intros [H|[H|H]]; rewrite H; discriminate. Qed.

(** ** A run returns when the model settles *)

Lemma astream_from_settles `{py : Platform} env k g :
  bounded_tool_rounds env k ->
  forall limit current state, exists trace,
    astream_from env (S k) limit g current state = Some trace.
Proof.
  intros Hk. induction limit as [|limit IH]; intros current state.
  - cbn [astream_from]. eauto.
  - change (astream_from env (S k) (S limit) g current state)
      with (match assoc current (nodes g) with
            | None => Some ([], Some (mkExn KeyError (Py.repr_str current)))
            | Some n =>
                match run_node env (S k) n state with
                | None => None
                | Some u =>
                    let state' := apply_update state u in
                    match next_node g current state' with
                    | Raise e => Some ([], Some e)
                    | Ok dst =>
                        if bool_decide (dst = END) then Some ([[(current, u)]], None)
                        else
                          match astream_from env (S k) limit g dst state' with
                          | None => None
                          | Some (events, e) => Some ([(current, u)] :: events, e)
                          end
                    end
                end
            end).
    destruct (assoc current (nodes g)) as [n|]; [|eauto].
    destruct (run_node_settles env k n state Hk) as [u ->]. cbn zeta.
    destruct (next_node g current (apply_update state u)) as [dst|e]; [|eauto].
    case_bool_decide; [eauto|].
    destruct (IH dst (apply_update state u)) as [[events e] ->]. eauto.
Qed.

Lemma execute_run_settles `{py : Platform} env k _cache system prompt :
  bounded_tool_rounds env k ->
  exists chunks cache', execute_run env (S k) _cache system prompt = Some (chunks, cache').
Proof.
  intros Hk. unfold execute_run, execute_run_with.
  destruct (match merge_agents (SystemConfig.agents system) 0 with
            | Ok agents => get_or_build env _cache system agents
            | Raise e => (Raise e, _cache)
            end) as [[graph|e] cache1]; [|eauto].
  unfold astream. destruct (entry_point graph) as [entry|]; [|eauto].
  destruct (astream_from_settles env k graph Hk recursion_limit entry (initial_state prompt))
    as [trace ->].
  eauto.
Qed.

(** A model that asks for a tool whenever it is invoked keeps the loop of
    the node going: no number of rounds gives a result. *)
Lemma looping_loop `{py : Platform} tools : forall fuel model bound msgs tool_results,
  assoc "parse_document" tools = Some parse_document_stub ->
  tool_call_loop fuel (ainvoke looping_env model bound) tools msgs tool_results = None.
Proof.
  intros fuel model bound msgs tool_results Ht. revert msgs tool_results.
  induction fuel as [|fuel IH]; intros msgs tool_results; [reflexivity|].
  cbn [tool_call_loop looping_env ainvoke resp_tool_calls _execute_tool_calls tc_name].
  rewrite Ht. cbn [parse_document_stub tc_args mbind result_bind mret result_ret tc_id].
  apply IH.
Qed.

(** Claim C6, as amended.  A run returns whenever the model settles: when,
    whatever it is asked, the model asks for tools in at most [k] rounds of a
    node's loop, the run returns within [k + 1] rounds.  Whatever the driver of
    the compiled graph delivers, the chunks of a run that returns end with the
    done chunk and hold no other done chunk.  When the graph was built and the
    second [try] block raises [e], the chunk just before done is the error
    chunk of [e], and no chunk before it is an error chunk; a failure of the
    driver itself always makes the block raise. *)
Theorem done_is_last `{py : Platform} (env : Env) (_cache : Cache) (system : SystemConfig.t)
    (prompt : string) :
  (forall k,
     bounded_tool_rounds env k ->
     exists chunks cache',
       execute_run env (S k) _cache system prompt = Some (chunks, cache')) /\
  (forall (driver : StateGraph -> AgentState -> option Trace) chunks cache',
     execute_run_with driver env _cache system prompt = Some (chunks, cache') ->
     exists before,
       chunks = before ++ [done_chunk] /\
       Forall (fun c => RunResponseChunk.type c <> "done") before /\
       forall agents graph cache1 trace,
         merge_agents (SystemConfig.agents system) 0 = Ok agents ->
         get_or_build env _cache system agents = (Ok graph, cache1) ->
         driver graph (initial_state prompt) = Some trace ->
         (forall e, (execute_try trace).2 = Raise e ->
            exists earlier,
              before = earlier ++ [error_chunk e] /\
              Forall (fun c => RunResponseChunk.type c <> "error") earlier) /\
         (is_Some trace.2 -> exists e, (execute_try trace).2 = Raise e)).
Proof.
  split; [intros k; apply execute_run_settles|].
  intros driver chunks cache'.
  unfold execute_run_with. intros H.
  destruct (merge_agents (SystemConfig.agents system) 0) as [agents|e0] eqn:Hm.
  2:{ inversion H; subst. exists [build_error_chunk e0].
      split; [done|]. split; [repeat constructor; discriminate|]. discriminate. }
  destruct (get_or_build env _cache system agents) as [[graph|e0] cache1] eqn:Hg.
  2:{ inversion H; subst. exists [build_error_chunk e0].
      split; [done|]. split; [repeat constructor; discriminate|].
      intros agents' graph c1 trace Ha. inversion Ha; subst. rewrite Hg. discriminate. }
  destruct (driver graph (initial_state prompt)) as [trace|] eqn:Hd; [|discriminate].
  inversion H; subst. exists (processing_chunk :: execute_body trace).
  split; [done|].
  pose proof (execute_try_types trace) as Ht.
  split.
  - constructor; [discriminate|]. unfold execute_body.
    destruct (execute_try trace) as [cs [[]|e]]; simpl in *.
    + eapply Forall_impl; [exact Ht|]. apply yielded_not_done.
    + apply Forall_app. split; [|repeat constructor; discriminate].
      eapply Forall_impl; [exact Ht|]. apply yielded_not_done.
  - intros agents' graph' c1 trace' Ha Hg' Hd'.
    inversion Ha; subst. rewrite Hg in Hg'. inversion Hg'; subst.
    rewrite Hd in Hd'. inversion Hd'; subst. split.
    + intros e He. unfold execute_body.
      destruct (execute_try trace') as [cs r]. simpl in *. subst.
      exists (processing_chunk :: cs). split; [done|].
      constructor; [discriminate|].
      eapply Forall_impl; [exact Ht|]. apply yielded_not_error.
    + intros [e He]. destruct trace' as [events failure]. simpl in He. subst.
      apply execute_try_failure.
Qed.

Lemma done_is_last_witness :
  bounded_tool_rounds (constant_env "42") 0 /\
  exists chunks cache' before,
    execute_run (constant_env "42") 1 ∅ single_system "What is six times seven?"
    = Some (chunks, cache') /\
    chunks = before ++ [done_chunk] /\
    Forall (fun c => RunResponseChunk.type c <> "done") before.
Proof.
  assert (Hk : bounded_tool_rounds (constant_env "42") 0) by (intros model bound tools msgs; exact I).
  split; [exact Hk|].
  destruct (done_is_last (constant_env "42") ∅ single_system "What is six times seven?")
    as [Hlive Hsafe].
  destruct (Hlive 0%nat Hk) as (chunks & cache' & Hrun).
  destruct (Hsafe (astream (constant_env "42") 1) chunks cache' Hrun)
    as (before & Heq & Hall & _).
  exists chunks, cache', before. done.
Defined.

(** Claim C6 fails as stated: the loop of a node has no bound, so a run
    whose model asks for a tool whenever it is invoked never returns, whatever
    the number of rounds it is given, and its stream has no done chunk. *)
Lemma run_without_done :
  ~ exists fuel chunks cache',
      execute_run looping_env fuel ∅ single_system "Summarise the report"
      = Some (chunks, cache').
Proof.
  intros (fuel & chunks & cache' & H). revert H.
  unfold execute_run, execute_run_with.
  destruct (match merge_agents (SystemConfig.agents single_system) 0 with
            | Ok agents => get_or_build looping_env ∅ single_system agents
            | Raise e => (Raise e, ∅)
            end) as [[graph|e] cache1] eqn:Hb; vm_compute in Hb; [|discriminate].
  inversion Hb; subst; clear Hb.
  unfold astream. cbn [entry_point]. unfold recursion_limit.
  cbn [astream_from nodes assoc]. rewrite decide_True by done.
  cbn [run_node]. unfold agent_node, agent_node_try, _get_llm.
  cbn [looping_env ANTHROPIC_API_KEY run_bind lift].
  rewrite (looping_loop _ fuel) by reflexivity.
  discriminate.
Qed.


Lemma add_node_not_end name n g g' : add_node name n g = Ok g' -> name <> END.
Proof.
  unfold add_node. destruct (Py.mem _ _); [discriminate|].
  case_bool_decide; [discriminate|].
  case_bool_decide as He; [discriminate|]. intros _. exact He.
Qed.

Lemma build_single_name `{py : Platform} env agent g :
  _build_single env agent = Ok g -> ResolvedAgent.name agent <> END.
Proof.
  unfold _build_single.
  destruct (make_agent_node env agent) as [n|e]; simpl; [|discriminate].
  destruct (add_node _ n empty_graph) as [g1|e] eqn:Ha; simpl; [|discriminate].
  intros _. eapply add_node_not_end, Ha.
Qed.

Lemma agent_node_constant `{py : Platform} env fuel agent tools state text c key :
  ANTHROPIC_API_KEY env = Some (String c key) ->
  (forall model bound msgs,
     ainvoke env model bound msgs = Ok (mkResponse (ContentStr text) [])) ->
  Py.nonempty text = true ->
  agent_node env (S fuel) agent tools state
  = Some {| upd_messages := [AIMessage (ContentStr text) []];
            upd_current_agent := ResolvedAgent.name agent;
            upd_final_response := text;
            upd_validation_result := None;
            upd_retry_count := None |}.
Proof.
  intros Hkey Hllm Htext.
  unfold agent_node, agent_node_try, _get_llm. rewrite Hkey.
  cbn [lift run_bind tool_call_loop]. rewrite Hllm. cbn [resp_tool_calls run_bind].
  unfold text_retry. cbn [resp_content _extract_content]. rewrite Htext.
  destruct tools; reflexivity.
Qed.

Lemma astream_single `{py : Platform} env fuel g name n state u :
  nodes g = [(name, n)] ->
  entry_point g = Some name ->
  edges g = [(name, END)] ->
  run_node env fuel n state = Some u ->
  astream env fuel g state = Some ([[(name, u)]], None).
Proof.
  intros Hn He Hd Hrun. unfold astream. rewrite He. unfold recursion_limit.
  change (astream_from env fuel 25 g name state)
    with (match assoc name (nodes g) with
          | None => Some ([], Some (mkExn KeyError (Py.repr_str name)))
          | Some n =>
              match run_node env fuel n state with
              | None => None
              | Some u =>
                  let state' := apply_update state u in
                  match next_node g name state' with
                  | Raise e => Some ([], Some e)
                  | Ok dst =>
                      if bool_decide (dst = END) then Some ([[(name, u)]], None)
                      else
                        match astream_from env fuel 24 g dst state' with
                        | None => None
                        | Some (events, e) => Some ([(name, u)] :: events, e)
                        end
                  end
              end
          end).
  rewrite Hn. cbn [assoc]. rewrite decide_True by done. rewrite Hrun.
  cbn zeta. unfold next_node. rewrite Hd. cbn [assoc]. rewrite decide_True by done.
  by rewrite bool_decide_eq_true_2.
Qed.

(** A short integer literal converts on every platform. *)
Lemma short_literal `{py : Platform} (d : string) :
  (String.length d < 640)%nat ->
  bool_decide (0 < int_max_str_digits < String.length d)%nat = false.
Proof.
  intros Hd. apply bool_decide_eq_false_2.
  destruct str_digits_check_threshold; lia.
Qed.

Lemma loads_42 `{py : Platform} : Json.loads "42" = Ok (JInt 42).
Proof.
  unfold Json.loads. cbn [String.length Json.skip_ws Nat.mul Nat.add].
  change (Json.is_ws "4"%char) with false. cbn iota.
  cbn [Json.scan_once]. change (Json.scan_literal "42") with (@None (JValue * string)).
  cbn iota. unfold Json.scan_number.
  change (Json.scan_int "42") with (Some (false, "42", "")).
  cbn iota. change (Json.scan_frac "") with ("", ""). change (Json.scan_exp "") with ("", "").
  cbn iota. rewrite short_literal by (simpl; lia). reflexivity.
Qed.

(** Claim C5, as amended.  A single-topology pipeline with one agent whose
    model always answers with the text 42 and asks for no tool yields first
    the status chunk of the request, then the status chunk of the agent, and
    last the done chunk; the chunks in between are neither status nor done
    chunks. *)
Theorem single_run_events `{py : Platform} (env : Env) (fuel : nat) (_cache : Cache)
    (system : SystemConfig.t) (ref : SystemAgentRef.t) (agent : ResolvedAgent.t)
    (graph : StateGraph) (prompt : string) (c : ascii) (key : string) :
  SystemConfig.topology system = "single" ->
  SystemConfig.agents system = [ref] ->
  merge_agent ref 0 = Ok agent ->
  _build_single env agent = Ok graph ->
  _cache !! SystemConfig.id system = None ->
  ANTHROPIC_API_KEY env = Some (String c key) ->
  (forall model bound msgs,
     ainvoke env model bound msgs = Ok (mkResponse (ContentStr "42") [])) ->
  (0 < fuel)%nat ->
  exists middle cache',
    execute_run env fuel _cache system prompt
    = Some (processing_chunk :: agent_status (ResolvedAgent.name agent)
              :: middle ++ [done_chunk], cache') /\
    Forall (fun c => RunResponseChunk.type c <> "status" /\
                     RunResponseChunk.type c <> "done") middle.
Proof.
  intros Htop Hagents Hmerge Hbuild Hcache Hkey Hllm Hfuel.
  destruct fuel as [|fuel]; [lia|].
  destruct (build_single_node env agent graph Hbuild) as (tools & Htools & Hn & He & Hd & Hb).
  pose proof (build_single_name env agent graph Hbuild) as Hne.
  unfold execute_run, execute_run_with. rewrite Hagents. simpl. rewrite Hmerge. simpl.
  unfold get_or_build. rewrite Hcache.
  unfold build_graph. rewrite Htop. rewrite bool_decide_eq_true_2 by done. simpl.
  rewrite Hbuild.
  rewrite (astream_single env (S fuel) graph _ _ _ _ Hn He Hd
             (agent_node_constant env fuel agent tools _ "42" c key Hkey Hllm eq_refl)).
  exists [error_chunk (mkExn AttributeError "'int' object has no attribute 'get'")].
  eexists. split.
  - unfold execute_body, execute_try. cbn [fst snd drive handle_items handle_update].
    rewrite bool_decide_eq_false_2 by exact Hne.
    cbn [upd_messages capture_messages capture_message message_content _extract_content
         Py.nonempty negb mbind result_bind].
    change (Py.strip "42") with "42". rewrite loads_42.
    reflexivity.
  - constructor; [split; discriminate|constructor].
Qed.

Lemma single_run_events_witness :
  exists middle cache',
    execute_run (constant_env "42") 1 ∅ single_system "What is six times seven?"
    = Some (processing_chunk :: agent_status "writer_0" :: middle ++ [done_chunk], cache') /\
    Forall (fun c => RunResponseChunk.type c <> "status" /\
                     RunResponseChunk.type c <> "done") middle.
Proof.
  eapply (single_run_events (constant_env "42") 1 ∅ single_system
            (SystemAgentRef.mk "writer" "Answer briefly.")
            (ResolvedAgent.mk "writer_0" "writer"
               "Creative writer for marketing and content." sonnet ["parse_document"]
               "Answer briefly.")
            _ "What is six times seven?" "s"%char "k-test").
  - reflexivity.
  - reflexivity.
  - vm_compute. reflexivity.
  - vm_compute. reflexivity.
  - reflexivity.
  - reflexivity.
  - intros. reflexivity.
  - lia.
Defined.

(** Claim C5 fails as stated: the run yields four chunks, the first two of
    them status chunks, and not the two chunks token, done. *)
Lemma single_run_yields_four_events :
  fst <$> execute_run (constant_env "42") 1 ∅ single_system "What is six times seven?"
  = Some [processing_chunk; agent_status "writer_0";
          error_chunk (mkExn AttributeError "'int' object has no attribute 'get'");
          done_chunk] /\
  forall a,
    fst <$> execute_run (constant_env "42") 1 ∅ single_system "What is six times seven?"
    <> Some [RunResponseChunk.mk "token" "42" a; done_chunk].
Proof.
  assert (H : fst <$> execute_run (constant_env "42") 1 ∅ single_system
                        "What is six times seven?"
              = Some [processing_chunk; agent_status "writer_0";
                      error_chunk (mkExn AttributeError "'int' object has no attribute 'get'");
                      done_chunk]) by (vm_compute; reflexivity).
  split; [exact H|]. intros a. rewrite H. discriminate.
Qed.


(* ===================================================================== *)
(** * The graph cache and the content hash *)
(* ===================================================================== *)

(** ** The content hash *)

Lemma hash_prefix a b rest :
  String.substring 0 16 (Sha256.hex8 a (Sha256.hex8 b rest))
  = Sha256.hex8 a (Sha256.hex8 b EmptyString).
Proof. destruct rest; reflexivity. Qed.

(** ** The hashed text holds every prompt *)












Lemma get_or_build_entry `{py : Platform} env (_cache : Cache) system agents graph cache1 :
  get_or_build env _cache system agents = (Ok graph, cache1) ->
  cache1 !! SystemConfig.id system = Some (_hash_system system agents, graph).
Proof.
  unfold get_or_build.
  destruct (_cache !! SystemConfig.id system) as [[cached_hash cached_graph]|] eqn:Hc.
  - case_bool_decide as Hh.
    + intros H; inversion H; subst. exact Hc.
    + destruct (build_graph env system agents); intros H; inversion H; subst.
      apply lookup_insert_eq.
  - destruct (build_graph env system agents); intros H; inversion H; subst.
    apply lookup_insert_eq.
Qed.




(* ===================================================================== *)
(** * Resolved agents: names                                              *)
(* ===================================================================== *)

Lemma pretty_N_char_no_underscore x : pretty_N_char x <> "_"%char.
Proof. unfold pretty_N_char. by repeat case_match. Qed.

Lemma pretty_N_go_no_underscore x : forall s,
  no_underscore s -> no_underscore (pretty_N_go x s).
Proof.
  induction (N.lt_wf_0 x) as [x _ IH]; intros s Hs.
  destruct (decide (x = 0)%N) as [->|Hx]; [by rewrite pretty_N_go_0|].
  rewrite pretty_N_go_step by lia. apply IH.
  - apply N.div_lt; lia.
  - split; [apply pretty_N_char_no_underscore|exact Hs].
Qed.

Lemma str_of_nat_no_underscore n : no_underscore (Py.str_of_nat n).
Proof.
  unfold Py.str_of_nat, pretty, pretty_nat, pretty, pretty_N.
  case_decide; [simpl; split; [discriminate|done]|].
  by apply pretty_N_go_no_underscore.
Qed.

(** A text is cut at its last underscore in one way only. *)
Lemma suffix_after_underscore p : forall q d d',
  no_underscore d -> no_underscore d' ->
  p +:+ "_" +:+ d = q +:+ "_" +:+ d' -> p = q /\ d = d'.
Proof.
  assert (Hin : forall q d, no_underscore (q +:+ "_" +:+ d) -> False).
  { induction q as [|c q IH]; intros d.
    - rewrite append_nil_l, append_cons. intros [H _]. done.
    - rewrite append_cons. intros [_ H]. by apply (IH d). }
  induction p as [|c p IH]; intros [|c' q] d d' Hd Hd'.
  - rewrite !append_nil_l, !append_cons, !append_nil_l. intros H; inversion H; done.
  - rewrite !append_nil_l, !append_cons, !append_nil_l. intros H; inversion H; subst.
    exfalso. by apply (Hin q d').
  - rewrite !append_nil_l, !append_cons, !append_nil_l. intros H; inversion H; subst.
    exfalso. by apply (Hin p d).
  - rewrite !append_cons. intros H; inversion H; subst.
    destruct (IH q d d' Hd Hd') as [-> ->]; done.
Qed.

Lemma merge_agent_name `{py : Platform} ref i a :
  merge_agent ref i = Ok a ->
  ResolvedAgent.name a = SystemAgentRef.type ref +:+ "_" +:+ Py.str_of_nat i /\
  ResolvedAgent.type a = SystemAgentRef.type ref /\
  ResolvedAgent.prompt a = SystemAgentRef.prompt ref /\
  exists typedef,
    assoc (SystemAgentRef.type ref) AGENT_TYPE_REGISTRY = Some typedef /\
    ResolvedAgent.description a = AgentTypeDefinition.description typedef /\
    ResolvedAgent.model a = AgentTypeDefinition.model typedef /\
    ResolvedAgent.tools a = AgentTypeDefinition.tools typedef.
Proof.
  unfold merge_agent, resolve_agent_type.
  destruct (assoc _ AGENT_TYPE_REGISTRY) as [typedef|]; simpl; [|discriminate].
  intros H; inversion H; subst; simpl. repeat split; eauto.
Qed.

Lemma merge_agents_names `{py : Platform} refs : forall i agents,
  merge_agents refs i = Ok agents ->
  length agents = length refs /\
  forall a, a ∈ agents ->
    exists ref k, ref ∈ refs /\ (i <= k)%nat /\ merge_agent ref k = Ok a.
Proof.
  induction refs as [|ref refs IH]; intros i agents; simpl.
  - intros H; inversion H; subst. split; [done|]. intros a Ha. by apply elem_of_nil in Ha.
  - destruct (merge_agent ref i) as [a0|e] eqn:H0; simpl; [|discriminate].
    destruct (merge_agents refs (S i)) as [l|e] eqn:Hl; simpl; [|discriminate].
    intros H; inversion H; subst. apply IH in Hl as [Hlen Hall].
    split; [simpl; by rewrite Hlen|].
    intros a [->|Ha]%elem_of_cons.
    + exists ref, i. split; [apply list_elem_of_here|]. split; [lia|done].
    + destruct (Hall a Ha) as (r & k & Hr & Hk & Hm).
      exists r, k. split; [by apply list_elem_of_further|]. split; [lia|done].
Qed.

Lemma merge_agents_index `{py : Platform} refs : forall i agents a,
  merge_agents refs i = Ok agents -> a ∈ agents ->
  exists t k, (i <= k)%nat /\ ResolvedAgent.name a = t +:+ "_" +:+ Py.str_of_nat k.
Proof.
  intros i agents a Hm Ha.
  destruct (merge_agents_names refs i agents Hm) as [_ Hall].
  destruct (Hall a Ha) as (r & k & _ & Hk & Hr).
  apply merge_agent_name in Hr as [Hn _]. eauto.
Qed.

Lemma merge_agents_NoDup `{py : Platform} refs : forall i agents,
  merge_agents refs i = Ok agents -> NoDup (List.map ResolvedAgent.name agents).
Proof.
  induction refs as [|ref refs IH]; intros i agents; simpl.
  - intros H; inversion H; subst. constructor.
  - destruct (merge_agent ref i) as [a0|e] eqn:H0; simpl; [|discriminate].
    destruct (merge_agents refs (S i)) as [l|e] eqn:Hl; simpl; [|discriminate].
    intros H; inversion H; subst. cbn [List.map]. constructor; [|by eapply IH].
    intros Hin. apply list_elem_of_In, in_map_iff in Hin as (b & Hb & Hbl).
    apply list_elem_of_In in Hbl.
    destruct (merge_agents_index _ _ _ _ Hl Hbl) as (t & k & Hk & Hname).
    apply merge_agent_name in H0 as [Hn0 _].
    rewrite Hname, Hn0 in Hb.
    apply suffix_after_underscore in Hb as [_ Hd]; try apply str_of_nat_no_underscore.
    apply (inj pretty) in Hd. lia.
Qed.

(** The names that [merge_agent] gives are usable as node names: pairwise
    distinct within one system, one per reference and in the order of the
    references, and none of them a label of a router or a reserved name of the
    graph library. *)
Theorem merged_names_distinct `{py : Platform} (refs : list SystemAgentRef.t) (agents : list ResolvedAgent.t) :
  merge_agents refs 0 = Ok agents ->
  NoDup (List.map ResolvedAgent.name agents) /\
  List.map ResolvedAgent.type agents = List.map SystemAgentRef.type refs /\
  List.map ResolvedAgent.prompt agents = List.map SystemAgentRef.prompt refs /\
  Forall (fun a => ResolvedAgent.name a <> "__done__" /\
                   ResolvedAgent.name a <> "__accepted__" /\
                   ResolvedAgent.name a <> "__error__" /\
                   ResolvedAgent.name a <> START /\ ResolvedAgent.name a <> END) agents.
Proof.
  intros H. split; [by eapply merge_agents_NoDup|].
  assert (Hfields : forall refs i agents, merge_agents refs i = Ok agents ->
            List.map ResolvedAgent.type agents = List.map SystemAgentRef.type refs /\
            List.map ResolvedAgent.prompt agents = List.map SystemAgentRef.prompt refs).
  { clear. induction refs as [|ref refs IH]; intros i agents; simpl.
    - intros H; inversion H; subst. done.
    - destruct (merge_agent ref i) as [a0|e] eqn:H0; simpl; [|discriminate].
      destruct (merge_agents refs (S i)) as [l|e] eqn:Hl; simpl; [|discriminate].
      intros H; inversion H; subst. apply IH in Hl as [Ht Hp].
      apply merge_agent_name in H0 as (_ & Ht0 & Hp0 & _).
      cbn [List.map]. by rewrite Ht, Hp, Ht0, Hp0. }
  destruct (Hfields _ _ _ H) as [Ht Hp]. split; [exact Ht|]. split; [exact Hp|].
  apply Forall_forall. intros a Ha.
  destruct (merge_agents_names _ _ _ H) as [_ Hall].
  destruct (Hall a Ha) as (r & k & _ & _ & Hr).
  apply merged_name_not_reserved in Hr. tauto.
Qed.

Lemma merged_names_distinct_witness :
  exists agents,
    merge_agents [SystemAgentRef.mk "writer" "Write."; SystemAgentRef.mk "writer" "Rewrite.";
                  SystemAgentRef.mk "validator" "Check."] 0 = Ok agents /\
    List.map ResolvedAgent.name agents = ["writer_0"; "writer_1"; "validator_2"] /\
    NoDup (List.map ResolvedAgent.name agents).
Proof.
  eexists. split; [vm_compute; reflexivity|]. split; [reflexivity|].
  eapply (merged_names_distinct
            [SystemAgentRef.mk "writer" "Write."; SystemAgentRef.mk "writer" "Rewrite.";
             SystemAgentRef.mk "validator" "Check."]).
  vm_compute. reflexivity.
Defined.

(* ===================================================================== *)
(** * The compiled graphs                                                 *)
(* ===================================================================== *)

Lemma assoc_None {A} k (l : list (string * A)) : assoc k l = None <-> (k ∉ List.map fst l).
Proof.
  induction l as [|[k' v] l IH]; simpl.
  - split; [intros _ H; by apply elem_of_nil in H|done].
  - destruct (decide (k' = k)) as [->|Hne].
    + split; [discriminate|]. intros H. exfalso. apply H, list_elem_of_here.
    + rewrite IH. split.
      * intros H [->|Hin]%elem_of_cons; done.
      * intros H Hin. apply H. by apply list_elem_of_further.
Qed.

Lemma assoc_elem {A} k (l : list (string * A)) v : assoc k l = Some v -> (k, v) ∈ l.
Proof.
  induction l as [|[k' v'] l IH]; simpl; [discriminate|].
  destruct (decide (k' = k)) as [->|Hne]; intros H.
  - inversion H; subst. apply list_elem_of_here.
  - apply list_elem_of_further. auto.
Qed.

Lemma assoc_app_None {A} k (l1 l2 : list (string * A)) :
  assoc k l1 = None -> assoc k (l1 ++ l2) = assoc k l2.
Proof.
  induction l1 as [|[k' v] l1 IH]; simpl; [done|].
  destruct (decide (k' = k)); [discriminate|]. exact IH.
Qed.

Lemma assoc_app_Some {A} k (l1 l2 : list (string * A)) v :
  assoc k l1 = Some v -> assoc k (l1 ++ l2) = Some v.
Proof.
  induction l1 as [|[k' v'] l1 IH]; simpl; [discriminate|].
  destruct (decide (k' = k)); [done|]. exact IH.
Qed.

Lemma add_node_ok name n g :
  name ∉ List.map fst (nodes g) -> node_name name ->
  add_node name n g
  = Ok (mkGraph (nodes g ++ [(name, n)]) (entry_point g) (edges g) (branches g)).
Proof.
  intros Hin (Hk & Hs & He & Hbar & Hcolon). unfold add_node, Py.mem.
  rewrite (bool_decide_eq_false_2 _ Hk).
  rewrite bool_decide_eq_false_2.
  2:{ intros [x Hx]. apply assoc_key in Hx. done. }
  rewrite !bool_decide_eq_false_2 by done. by rewrite Hbar, Hcolon.
Qed.

Lemma add_node_accepts name n g g' :
  add_node name n g = Ok g' -> (name ∉ List.map fst (nodes g)) /\ node_name name.
Proof.
  unfold add_node, Py.mem. case_bool_decide as Hk; [discriminate|].
  case_bool_decide as Hp; [discriminate|].
  case_bool_decide as He; [discriminate|]. case_bool_decide as Hs; [discriminate|].
  destruct (Py.contains "|" name) eqn:Hbar; [discriminate|].
  destruct (Py.contains ":" name) eqn:Hcolon; [discriminate|].
  intros _. split; [|done]. apply assoc_None.
  destruct (assoc name (nodes g)) eqn:Ha; [|done]. exfalso. apply Hp. eauto.
Qed.

Lemma add_node_fresh name n g g' :
  add_node name n g = Ok g' ->
  (name ∉ List.map fst (nodes g)) /\ name <> END /\ name <> START.
Proof.
  intros H. apply add_node_accepts in H as (Hin & _ & Hs & He & _). done.
Qed.

(** What a loop of [add_node] calls leaves: the nodes added in order, under
    names that are new, distinct and not reserved. *)
Lemma add_nodes_nodes make agents : forall g g',
  add_nodes make agents g = Ok g' ->
  exists ns,
    nodes g' = nodes g ++ ns /\
    List.map fst ns = List.map ResolvedAgent.name agents /\
    Forall2 (fun a kn => make a = Ok kn.2) agents ns /\
    NoDup (List.map ResolvedAgent.name agents) /\
    Forall (fun a => (ResolvedAgent.name a ∉ List.map fst (nodes g)) /\
                     ResolvedAgent.name a <> END /\ ResolvedAgent.name a <> START) agents.
Proof.
  induction agents as [|a agents IH]; simpl; intros g g' H.
  - inversion H; subst. exists []. rewrite app_nil_r.
    repeat split; constructor.
  - destruct (make a) as [n|e] eqn:Hm; simpl in H; [|discriminate].
    destruct (add_node (ResolvedAgent.name a) n g) as [g1|e] eqn:Ha; simpl in H; [|discriminate].
    pose proof (add_node_fresh _ _ _ _ Ha) as (Hfresh & He & Hs).
    apply add_node_frame in Ha as (_ & _ & _ & Hn).
    apply IH in H as (ns & Hns & Hk & Hmk & Hnd & Hall).
    exists ((ResolvedAgent.name a, n) :: ns).
    rewrite Hns, Hn, <- app_assoc. split; [done|]. split; [simpl; by rewrite Hk|].
    split; [constructor; [exact Hm|exact Hmk]|].
    rewrite Hn in Hall. split.
    + constructor; [|exact Hnd]. intros Hin.
      apply list_elem_of_In, in_map_iff in Hin as (b & Hb & Hbl).
      apply list_elem_of_In in Hbl.
      rewrite Forall_forall in Hall. destruct (Hall b Hbl) as (Hnin & _).
      apply Hnin. rewrite map_app. apply elem_of_app. right. simpl.
      rewrite Hb. apply list_elem_of_here.
    + constructor; [done|].
      eapply Forall_impl; [exact Hall|]. intros b (Hnin & Hbe & Hbs).
      split; [|done]. intros Hin. apply Hnin. rewrite map_app. apply elem_of_app. by left.
Qed.

Lemma add_nodes_ok make agents : forall g,
  Forall (fun a => exists n, make a = Ok n) agents ->
  NoDup (List.map ResolvedAgent.name agents) ->
  Forall (fun a => (ResolvedAgent.name a ∉ List.map fst (nodes g)) /\
                   node_name (ResolvedAgent.name a)) agents ->
  exists g', add_nodes make agents g = Ok g'.
Proof.
  induction agents as [|a agents IH]; simpl; intros g Hmk Hnd Hall; [eauto|].
  inversion Hmk as [|? ? [n Hn] Hmk']; subst.
  inversion Hnd as [|? ? Hnin Hnd']; subst.
  inversion Hall as [|? ? (Hf & Hname) Hall']; subst.
  rewrite Hn. simpl. rewrite (add_node_ok _ n g Hf Hname). simpl.
  apply IH; [done|done|].
  rewrite Forall_forall in Hall'. apply Forall_forall. intros b Hb.
  destruct (Hall' b Hb) as (Hbf & Hbname). split; [|done].
  simpl. rewrite map_app. intros [Hin|Hin]%elem_of_app; [done|].
  simpl in Hin. apply list_elem_of_singleton in Hin.
  apply Hnin. rewrite <- Hin. apply list_elem_of_In, in_map, list_elem_of_In. exact Hb.
Qed.

Lemma chain_edges_edges agents : forall g first rest before validator,
  agents = first :: rest ->
  last agents = Some validator -> last (but_last agents) = Some before ->
  edges (chain_edges agents g) ++ [(ResolvedAgent.name before, ResolvedAgent.name validator)]
  = edges g ++ pairs (List.map ResolvedAgent.name agents).
Proof.
  induction agents as [|a [|b [|c rest']] IH]; intros g first rest before validator Heq Hl Hbl.
  - discriminate.
  - discriminate.
  - simpl in *. inversion Hl; inversion Hbl; subst. done.
  - change (chain_edges (a :: b :: c :: rest') g)
      with (chain_edges (b :: c :: rest') (add_edge (ResolvedAgent.name a) (ResolvedAgent.name b) g)).
    rewrite (IH _ b (c :: rest') before validator); [| done | exact Hl |].
    + simpl. by rewrite <- app_assoc.
    + unfold but_last in *. simpl in Hbl. simpl. exact Hbl.
Qed.

Lemma no_missing_tools env names :
  Forall (fun n => is_Some (assoc n (_registry env))) names ->
  List.filter (fun n => negb (bool_decide (is_Some (assoc n (_registry env))))) names = [].
Proof.
  induction 1 as [|x l Hx _ IH]; [done|].
  simpl. rewrite bool_decide_eq_true_2 by done. simpl. exact IH.
Qed.

Lemma node_tools_ok `{py : Platform} env a :
  Forall (fun n => is_Some (assoc n (_registry env))) (ResolvedAgent.tools a) ->
  exists tools, node_tools env a = Ok tools.
Proof.
  intros Hall. unfold node_tools. destruct (ResolvedAgent.tools a) as [|n names] eqn:Ht; [eauto|].
  unfold resolve_tools. rewrite (no_missing_tools _ _ Hall). eauto.
Qed.

Lemma head_first_agent agents a : first_agent agents = Ok a <-> head agents = Some a.
Proof. destruct agents; simpl; split; intros H; inversion H; done. Qed.

Lemma build_single_ok `{py : Platform} env a :
  Forall (fun n => is_Some (assoc n (_registry env))) (ResolvedAgent.tools a) ->
  node_name (ResolvedAgent.name a) ->
  exists g, _build_single env a = Ok g.
Proof.
  intros Ht Hname. destruct (node_tools_ok env a Ht) as [tools Htools].
  unfold _build_single, make_agent_node. rewrite Htools. simpl.
  rewrite add_node_ok; [simpl; eauto| |done].
  simpl. apply not_elem_of_nil.
Qed.

Lemma fresh_in_empty (l : list ResolvedAgent.t) :
  Forall (fun a => node_name (ResolvedAgent.name a)) l ->
  Forall (fun a => (ResolvedAgent.name a ∉ List.map fst (nodes empty_graph)) /\
                   node_name (ResolvedAgent.name a)) l.
Proof.
  intros H. eapply Forall_impl; [exact H|]. intros a Hname.
  split; [apply not_elem_of_nil|done].
Qed.

Lemma build_orchestrator_ok `{py : Platform} env system agents :
  buildable env agents -> exists g, _build_orchestrator env system agents = Ok g.
Proof.
  intros (Hne & Hnodup & Hnames & Htools). unfold _build_orchestrator.
  destruct (add_nodes_ok (make_agent_node env) agents empty_graph) as [g1 Hg1].
  - eapply Forall_impl; [exact Htools|]. intros a Ha.
    destruct (node_tools_ok env a Ha) as [tools Ht]. unfold make_agent_node. rewrite Ht.
    simpl. eauto.
  - exact Hnodup.
  - by apply fresh_in_empty.
  - rewrite Hg1. simpl. destruct agents; [done|]. simpl. eauto.
Qed.

Lemma build_decentralised_ok `{py : Platform} env agents :
  buildable env agents -> exists g, _build_decentralised env agents = Ok g.
Proof.
  intros (Hne & Hnodup & Hnames & Htools). unfold _build_decentralised.
  destruct (add_nodes_ok (fun agent => make_decentralised_node env agent agents) agents
              empty_graph) as [g1 Hg1].
  - eapply Forall_impl; [exact Htools|]. intros a Ha.
    destruct (node_tools_ok env a Ha) as [tools Ht]. unfold make_decentralised_node.
    rewrite Ht. simpl. eauto.
  - exact Hnodup.
  - by apply fresh_in_empty.
  - rewrite Hg1. simpl. destruct agents; [done|]. simpl. eauto.
Qed.

Lemma build_first_ok `{py : Platform} env first rest :
  buildable env (first :: rest) -> exists g, _build_single env first = Ok g.
Proof.
  intros (Hne & Hnodup & Hnames & Htools).
  inversion Htools; inversion Hnames; subst.
  apply build_single_ok; tauto.
Qed.

Lemma build_sequential_ok `{py : Platform} env agents :
  buildable env agents -> exists g, _build_sequential env agents = Ok g.
Proof.
  intros Hb. pose proof Hb as (Hne & Hnodup & Hnames & Htools).
  unfold _build_sequential. case_bool_decide as Hlen.
  { destruct agents as [|first rest]; [done|]. simpl. by eapply build_first_ok. }
  assert (Hl : exists validator, last agents = Some validator).
  { destruct (last agents) eqn:Hl; [eauto|]. apply last_None in Hl. done. }
  destruct Hl as [validator Hl]. rewrite Hl.
  assert (Hsplit : agents = but_last agents ++ [validator]).
  { apply last_Some in Hl as [l' Hl']. unfold but_last. rewrite Hl' at 2. rewrite Hl'.
    rewrite length_app. simpl. replace (length l' + 1 - 1)%nat with (length l') by lia.
    by rewrite take_app_length. }
  assert (Hbl : exists before, last (but_last agents) = Some before).
  { destruct (last (but_last agents)) eqn:Hbl; [eauto|]. apply last_None in Hbl.
    rewrite Hbl in Hsplit. rewrite Hsplit in Hlen. simpl in Hlen. lia. }
  destruct Hbl as [before Hbl]. rewrite Hbl.
  rewrite Hsplit in Htools, Hnodup, Hnames.
  apply Forall_app in Htools as [Ht1 Ht2]. apply Forall_app in Hnames as [Hn1 Hn2].
  rewrite map_app in Hnodup. apply NoDup_app in Hnodup as (Hnd1 & Hdisj & _).
  destruct (add_nodes_ok (make_agent_node env) (but_last agents) empty_graph) as [g1 Hg1].
  - eapply Forall_impl; [exact Ht1|]. intros a Ha.
    destruct (node_tools_ok env a Ha) as [tools Ht]. unfold make_agent_node. rewrite Ht.
    simpl. eauto.
  - exact Hnd1.
  - by apply fresh_in_empty.
  - destruct agents as [|first rest] eqn:Hagents; [done|]. rewrite <- Hagents in *.
    rewrite Hg1. simpl.
    inversion Ht2 as [|? ? Hvt _]; subst. inversion Hn2 as [|? ? Hvname _]; subst.
    destruct (node_tools_ok env validator Hvt) as [tools Ht].
    unfold make_validator_node. rewrite Ht. simpl.
    apply add_nodes_nodes in Hg1 as (ns & Hns & Hk & _).
    rewrite add_node_ok; [simpl; eauto| |done].
    rewrite Hns. simpl. rewrite Hk. intros Hin. apply (Hdisj _ Hin). simpl.
    apply list_elem_of_here.
Qed.


Lemma back_edges_frame first specialists : forall g,
  nodes (back_edges first specialists g) = nodes g /\
  entry_point (back_edges first specialists g) = entry_point g /\
  edges (back_edges first specialists g)
  = edges g ++ List.map (fun a => (ResolvedAgent.name a, first)) specialists.
Proof.
  unfold back_edges. induction specialists as [|a l IH]; simpl; intros g.
  - by rewrite app_nil_r.
  - destruct (IH (add_edge (ResolvedAgent.name a) first g)) as (-> & -> & ->).
    simpl. by rewrite <- app_assoc.
Qed.

Lemma delegation_edges_frame r d agents : forall g,
  nodes (delegation_edges r d agents g) = nodes g /\
  entry_point (delegation_edges r d agents g) = entry_point g.
Proof.
  unfold delegation_edges. induction agents as [|a l IH]; simpl; intros g; [done|].
  destruct (IH (add_conditional_edges (ResolvedAgent.name a) r d g)) as (-> & ->). done.
Qed.

Lemma but_last_snoc agents validator :
  last agents = Some validator -> agents = but_last agents ++ [validator].
Proof.
  intros Hl. apply last_Some in Hl as [l' Hl']. unfold but_last. rewrite Hl' at 2. rewrite Hl'.
  rewrite length_app. simpl. replace (length l' + 1 - 1)%nat with (length l') by lia.
  by rewrite take_app_length.
Qed.

(** The parts of a sequential graph of two agents or more. *)
Lemma build_sequential_parts `{py : Platform} env agents g :
  (2 <= length agents)%nat ->
  _build_sequential env agents = Ok g ->
  exists first validator,
    head agents = Some first /\ last agents = Some validator /\
    entry_point g = Some (ResolvedAgent.name first) /\
    List.map fst (nodes g) = List.map ResolvedAgent.name agents /\
    NoDup (List.map ResolvedAgent.name agents) /\
    Forall (fun a => ResolvedAgent.name a <> END /\ ResolvedAgent.name a <> START) agents /\
    edges g = pairs (List.map ResolvedAgent.name agents).
Proof.
  intros Hlen. unfold _build_sequential. rewrite bool_decide_eq_false_2 by lia.
  destruct (last agents) as [validator|] eqn:Hl; [|discriminate].
  destruct (last (but_last agents)) as [before|] eqn:Hbl; [|discriminate].
  pose proof (but_last_snoc _ _ Hl) as Hsplit.
  destruct agents as [|first rest] eqn:Hagents; [discriminate|]. rewrite <- Hagents in *.
  destruct (add_nodes _ _ empty_graph) as [g1|e] eqn:H1; simpl; [|discriminate].
  destruct (make_validator_node env validator) as [n|e]; simpl; [|discriminate].
  destruct (add_node _ n g1) as [g2|e] eqn:H2; simpl; [|discriminate].
  intros Heq; inversion Heq; subst g; clear Heq.
  exists first, validator.
  split; [by rewrite Hagents|]. split; [done|].
  cbn [entry_point nodes edges add_conditional_edges add_edge].
  pose proof (chain_edges_frame agents (set_entry_point (ResolvedAgent.name first) g2))
    as (_ & He & Hn).
  rewrite He, Hn. cbn [entry_point nodes set_entry_point].
  pose proof (add_node_fresh _ _ _ _ H2) as (Hfresh & Hve & Hvs).
  pose proof (add_node_frame _ _ _ _ H2) as (_ & Hd2 & _ & Hn2).
  pose proof (add_nodes_frame _ _ _ _ H1) as (_ & Hd1 & _).
  apply add_nodes_nodes in H1 as (ns & Hns & Hk & _ & Hnd & Hall).
  simpl in Hns. subst ns.
  split; [done|]. split.
  { rewrite Hn2, map_app, Hk. simpl. rewrite Hsplit at 2. by rewrite map_app. }
  split.
  { rewrite Hsplit, map_app. apply NoDup_app. split; [exact Hnd|]. split.
    - intros x Hx [->|Hin]%elem_of_cons; [|by apply elem_of_nil in Hin].
      apply Hfresh. by rewrite Hk.
    - simpl. apply NoDup_singleton. }
  split.
  { rewrite Hsplit. apply Forall_app. split.
    - eapply Forall_impl; [exact Hall|]. intros a (_ & Hae & Has). done.
    - constructor; [done|constructor]. }
  rewrite (chain_edges_edges agents _ first rest before validator Hagents Hl Hbl).
  simpl. by rewrite Hd2, Hd1.
Qed.

Lemma assoc_pairs (names : list string) : forall i a b,
  NoDup names -> names !! i = Some a -> names !! S i = Some b ->
  assoc a (pairs names) = Some b.
Proof.
  induction names as [|x [|y l] IH]; intros i a b Hnd Ha Hb.
  - done.
  - destruct i; simpl in *; done.
  - change (pairs (x :: y :: l)) with ((x, y) :: pairs (y :: l)). cbn [assoc].
    destruct i as [|i].
    + simpl in Ha, Hb. inversion Ha; inversion Hb; subst. by rewrite decide_True.
    + simpl in Ha. inversion Hnd as [|? ? Hx Hnd']; subst.
      rewrite decide_False.
      * eapply IH; [exact Hnd'|exact Ha|exact Hb].
      * intros ->. apply Hx. eapply list_elem_of_lookup_2. exact Ha.
Qed.

Lemma assoc_pairs_last (names : list string) a :
  NoDup names -> last names = Some a -> assoc a (pairs names) = None.
Proof.
  induction names as [|x [|y l] IH]; intros Hnd Hl; [done|done|].
  change (pairs (x :: y :: l)) with ((x, y) :: pairs (y :: l)). cbn [assoc].
  inversion Hnd as [|? ? Hx Hnd']; subst.
  rewrite decide_False.
  - apply IH; [exact Hnd'|exact Hl].
  - intros ->. apply Hx. change (last (a :: y :: l)) with (last (y :: l)) in Hl.
    apply last_Some in Hl as [l' Hl']. rewrite Hl'. apply elem_of_app. right.
    apply list_elem_of_here.
Qed.

Lemma last_map {A B} (f : A -> B) (l : list A) : last (List.map f l) = f <$> last l.
Proof.
  induction l as [|x [|y l] IH]; [done|done|].
  change (last (f x :: List.map f (y :: l)) = f <$> last (y :: l)). exact IH.
Qed.


(** ** Building succeeds on well-formed input, and how it fails *)

Lemma build_graph_ok `{py : Platform} env system agents :
  SystemConfig.topology system ∈ ["single"; "sequential"; "orchestrator"; "decentralised"] ->
  buildable env agents ->
  exists g, build_graph env system agents = Ok g.
Proof.
  intros Htop Hb. unfold build_graph.
  case_bool_decide.
  { destruct Hb as (Hne & Hb). destruct agents as [|first rest]; [done|]. simpl.
    eapply build_first_ok. split; [done|exact Hb]. }
  case_bool_decide; [by apply build_sequential_ok|].
  case_bool_decide; [by apply build_orchestrator_ok|].
  case_bool_decide; [by apply build_decentralised_ok|].
  repeat (apply elem_of_cons in Htop as [Htop|Htop]; [done|]). by apply elem_of_nil in Htop.
Qed.

(** [build_graph] raises [ValueError] on a topology it does not know,
    whatever the agents, and [IndexError] on an empty agent list under each
    topology it knows. *)
Theorem build_graph_failures `{py : Platform} (env : Env) (system : SystemConfig.t)
    (agents : list ResolvedAgent.t) :
  (SystemConfig.topology system ∉ ["single"; "sequential"; "orchestrator"; "decentralised"] ->
   build_graph env system agents
   = Raise (mkExn ValueError ("Unknown topology: " +:+ SystemConfig.topology system))) /\
  (SystemConfig.topology system ∈ ["single"; "sequential"; "orchestrator"; "decentralised"] ->
   build_graph env system [] = Raise (mkExn IndexError "list index out of range")).
Proof.
  split; intros Htop; unfold build_graph.
  - rewrite !bool_decide_eq_false_2; [done|..]; intros Heq; apply Htop; rewrite Heq;
      repeat first [apply list_elem_of_here | apply list_elem_of_further].
  - repeat (case_bool_decide; [reflexivity|]).
    repeat (apply elem_of_cons in Htop as [Htop|Htop]; [done|]). by apply elem_of_nil in Htop.
Qed.

Lemma build_graph_failures_witness :
  build_graph (constant_env "ok")
    (SystemConfig.mk "s" "S" None "ring" [SystemAgentRef.mk "writer" "Write."]) [writer_1]
  = Raise (mkExn ValueError "Unknown topology: ring") /\
  build_graph (constant_env "ok") sequential_system []
  = Raise (mkExn IndexError "list index out of range").
Proof.
  split.
  - apply (build_graph_failures (constant_env "ok")
             (SystemConfig.mk "s" "S" None "ring" [SystemAgentRef.mk "writer" "Write."])
             [writer_1]).
    apply (bool_decide_unpack _). vm_compute. exact I.
  - apply (build_graph_failures (constant_env "ok") sequential_system [writer_1]).
    simpl. apply list_elem_of_further, list_elem_of_here.
Defined.

(** ** The nodes and the entry point *)

(** In every graph [build_graph] returns, the entry point is the first
    agent and the node names are distinct.  Under the single topology, and
    under the sequential one with a single agent, the first agent is the only
    node; otherwise there is one node per agent, in the order of the list. *)
Theorem compiled_graph_nodes `{py : Platform} (env : Env) (system : SystemConfig.t)
    (agents : list ResolvedAgent.t) (g : StateGraph) :
  build_graph env system agents = Ok g ->
  exists first,
    head agents = Some first /\
    entry_point g = Some (ResolvedAgent.name first) /\
    List.map fst (nodes g)
    = (if bool_decide (SystemConfig.topology system = "single")
          || bool_decide (SystemConfig.topology system = "sequential")
             && bool_decide (length agents < 2)%nat
       then [ResolvedAgent.name first]
       else List.map ResolvedAgent.name agents) /\
    NoDup (List.map fst (nodes g)).
Proof.
  assert (Hsingle : forall a, head agents = Some a -> _build_single env a = Ok g ->
            head agents = Some a /\ entry_point g = Some (ResolvedAgent.name a) /\
            List.map fst (nodes g) = [ResolvedAgent.name a] /\
            NoDup (List.map fst (nodes g))).
  { intros a Hh Ha. apply build_single_node in Ha as (tools & _ & Hn & He & _).
    rewrite Hn, He. simpl. repeat split; [done|apply NoDup_singleton]. }
  unfold build_graph. intros Hb.
  case_bool_decide as H1.
  { destruct (first_agent agents) as [a|e] eqn:Hf; simpl in Hb; [|discriminate].
    apply head_first_agent in Hf. exists a. simpl. by apply Hsingle. }
  case_bool_decide as H2.
  { simpl. case_bool_decide as Hlen.
    - unfold _build_sequential in Hb. rewrite bool_decide_eq_true_2 in Hb by done.
      destruct (first_agent agents) as [a|e] eqn:Hf; simpl in Hb; [|discriminate].
      apply head_first_agent in Hf. exists a. by apply Hsingle.
    - apply build_sequential_parts in Hb
        as (first & validator & Hh & _ & He & Hn & Hnd & _); [|lia].
      exists first. rewrite Hn. done. }
  simpl.
  case_bool_decide as H3.
  { unfold _build_orchestrator in Hb.
    destruct (add_nodes _ _ empty_graph) as [g1|e] eqn:Hg1; simpl in Hb; [|discriminate].
    destruct (first_agent agents) as [a|e] eqn:Hf; simpl in Hb; [|discriminate].
    apply head_first_agent in Hf. inversion Hb; subst g; clear Hb.
    exists a. split; [done|].
    destruct (back_edges_frame (ResolvedAgent.name a) (drop 1 agents)
                (add_conditional_edges (ResolvedAgent.name a)
                   (RouteDecision (List.map ResolvedAgent.name (drop 1 agents)))
                   (<["__done__" := END]>
                      (identity_map (List.map ResolvedAgent.name (drop 1 agents))))
                   (set_entry_point (ResolvedAgent.name a) g1))) as (-> & -> & _).
    simpl. apply add_nodes_nodes in Hg1 as (ns & -> & Hk & _ & Hnd & _).
    simpl. rewrite Hk. done. }
  case_bool_decide as H4; [|discriminate].
  unfold _build_decentralised in Hb.
  destruct (add_nodes _ _ empty_graph) as [g1|e] eqn:Hg1; simpl in Hb; [|discriminate].
  destruct (first_agent agents) as [a|e] eqn:Hf; simpl in Hb; [|discriminate].
  apply head_first_agent in Hf. inversion Hb; subst g; clear Hb.
  exists a. split; [done|].
  destruct (delegation_edges_frame
              (RouteDelegation (List.map ResolvedAgent.name agents))
              (<["__done__" := END]> (identity_map (List.map ResolvedAgent.name agents)))
              agents (set_entry_point (ResolvedAgent.name a) g1)) as (-> & ->).
  simpl. apply add_nodes_nodes in Hg1 as (ns & -> & Hk & _ & Hnd & _).
  simpl. rewrite Hk. done.
Qed.

Lemma compiled_graph_nodes_witness :
  exists g first,
    build_graph (constant_env "ok") single_system [writer_1; coder_0] = Ok g /\
    head [writer_1; coder_0] = Some first /\
    entry_point g = Some (ResolvedAgent.name first) /\
    List.map fst (nodes g) = ["writer_1"].
Proof.
  eexists ?[g].
  edestruct (compiled_graph_nodes (constant_env "ok") single_system [writer_1; coder_0] ?g)
    as (first & Hh & He & Hn & _); [vm_compute; reflexivity|].
  exists first. split; [vm_compute; reflexivity|]. split; [exact Hh|]. split; [exact He|].
  simpl in Hh. inversion Hh; subst. exact Hn.
Defined.

(** ** The order of a sequential pipeline *)

(** In a sequential graph of two agents or more the unconditional edges are
    the consecutive pairs of the agent list: whatever the state, each agent
    but the last is followed by the next one, and the last agent, the
    validator, has no unconditional edge. *)
Theorem sequential_pipeline_order `{py : Platform} (env : Env) (agents : list ResolvedAgent.t)
    (g : StateGraph) :
  (2 <= length agents)%nat ->
  _build_sequential env agents = Ok g ->
  edges g = pairs (List.map ResolvedAgent.name agents) /\
  (forall state i a b,
     List.map ResolvedAgent.name agents !! i = Some a ->
     List.map ResolvedAgent.name agents !! S i = Some b ->
     next_node g a state = Ok b) /\
  (forall validator,
     last agents = Some validator -> assoc (ResolvedAgent.name validator) (edges g) = None).
Proof.
  intros Hlen Hb.
  apply build_sequential_parts in Hb as (first & v & _ & Hl & _ & _ & Hnd & _ & He);
    [|exact Hlen].
  split; [exact He|]. split.
  - intros state i a b Ha Hb. unfold next_node. rewrite He.
    by rewrite (assoc_pairs _ i a b Hnd Ha Hb).
  - intros validator Hv. rewrite He. apply assoc_pairs_last; [exact Hnd|].
    by rewrite last_map, Hv.
Qed.

Lemma sequential_pipeline_order_witness :
  exists g,
    _build_sequential (constant_env "ok") [coder_0; writer_1; validator_1] = Ok g /\
    edges g = [("coder_0", "writer_1"); ("writer_1", "validator_1")].
Proof.
  eexists ?[g]. split; [vm_compute; reflexivity|].
  apply (sequential_pipeline_order (constant_env "ok") [coder_0; writer_1; validator_1]).
  - simpl. lia.
  - vm_compute. reflexivity.
Defined.


(** ** The orchestrator and its specialists *)

Lemma last_content_nonempty state :
  messages state <> [] -> exists content, last_content state = Ok content.
Proof.
  intros Hne. unfold last_content. destruct (last (messages state)) eqn:Hl; [eauto|].
  by apply last_None in Hl.
Qed.

Lemma build_orchestrator_parts `{py : Platform} env system agents g :
  _build_orchestrator env system agents = Ok g ->
  exists first,
    head agents = Some first /\
    NoDup (List.map ResolvedAgent.name agents) /\
    ResolvedAgent.name first <> END /\
    edges g = List.map (fun a => (ResolvedAgent.name a, ResolvedAgent.name first))
                (drop 1 agents).
Proof.
  unfold _build_orchestrator.
  destruct (add_nodes _ _ empty_graph) as [g1|e] eqn:Hg1; simpl; [|discriminate].
  destruct (first_agent agents) as [a|e] eqn:Hf; simpl; [|discriminate].
  apply head_first_agent in Hf. intros Hb; inversion Hb; subst g; clear Hb.
  exists a. split; [done|].
  pose proof (add_nodes_frame _ _ _ _ Hg1) as (_ & Hd & _).
  apply add_nodes_nodes in Hg1 as (ns & _ & _ & _ & Hnd & Hall).
  split; [exact Hnd|]. split.
  - destruct agents as [|x l]; [discriminate|]. inversion Hf; subst.
    inversion Hall as [|? ? (_ & He & _) _]; subst. exact He.
  - destruct (back_edges_frame (ResolvedAgent.name a) (drop 1 agents)
                (add_conditional_edges (ResolvedAgent.name a)
                   (RouteDecision (List.map ResolvedAgent.name (drop 1 agents)))
                   (<["__done__" := END]>
                      (identity_map (List.map ResolvedAgent.name (drop 1 agents))))
                   (set_entry_point (ResolvedAgent.name a) g1))) as (_ & _ & ->).
    simpl. by rewrite Hd.
Qed.

(** In an orchestrator graph every specialist hands the turn back to the
    first agent, whatever the state.  When the routing of the first agent
    returns, it hands the turn to a specialist or ends the run: the first
    agent is never its own successor.  The routing raises only what
    [json.loads] raised on the stripped text of the latest message and the
    handler does not list: the [ValueError] of an integer literal that is too
    long, or a [RecursionError]. *)
Theorem orchestrator_routing_shape `{py : Platform} (env : Env) (system : SystemConfig.t)
    (agents : list ResolvedAgent.t) (g : StateGraph) (first : ResolvedAgent.t)
    (state : AgentState) :
  _build_orchestrator env system agents = Ok g ->
  head agents = Some first ->
  messages state <> [] ->
  (forall s, s ∈ drop 1 agents ->
     next_node g (ResolvedAgent.name s) state = Ok (ResolvedAgent.name first)) /\
  match next_node g (ResolvedAgent.name first) state with
  | Ok dst =>
      dst <> ResolvedAgent.name first /\
      (dst = END \/ dst ∈ List.map ResolvedAgent.name (drop 1 agents))
  | Raise e =>
      escapes e /\
      exists content,
        last_content state = Ok content /\ Json.loads (Py.strip content) = Raise e
  end.
Proof.
  intros Hb Hh Hm.
  pose proof (build_orchestrator_branches _ _ _ _ Hb) as (f & Hf & Hbr).
  pose proof (build_orchestrator_parts _ _ _ _ Hb) as (f' & Hf' & Hnd & Hend & He).
  rewrite Hh in Hf, Hf'. inversion Hf; inversion Hf'; subst f f'. clear Hf Hf'.
  destruct agents as [|a specialists]; [discriminate|]. simpl in Hh. inversion Hh; subst a.
  simpl in *. rewrite drop_0 in *. inversion Hnd as [|? ? Hfirst Hnd']; subst.
  split.
  - intros s Hs. unfold next_node. rewrite He.
    by rewrite (assoc_map_const (ResolvedAgent.name first) specialists s Hs).
  - unfold next_node. rewrite He.
    replace (assoc (ResolvedAgent.name first)
               (List.map (fun a => (ResolvedAgent.name a, ResolvedAgent.name first)) specialists))
      with (@None string).
    2:{ symmetry. apply assoc_None. rewrite map_map. simpl. exact Hfirst. }
    rewrite Hbr. cbn [assoc]. rewrite decide_True by done. cbn [run_router].
    destruct (last_content_nonempty state Hm) as [content Hc].
    pose proof (route_decision_cases state (List.map ResolvedAgent.name specialists) content Hc)
      as Hr.
    destruct (route_decision state (List.map ResolvedAgent.name specialists))
      as [[label state']|e]; cbn [mbind result_bind fst].
    2:{ destruct Hr as [He' Hl]. split; [exact He'|]. by exists content. }
    destruct Hr as [Hl _].
    destruct (decide ("__done__" = label)) as [<-|Hne].
    + rewrite lookup_insert_eq. split; [congruence|by left].
    + rewrite lookup_insert_ne by done. rewrite identity_map_lookup.
      destruct Hl as [->|Hin]; [done|]. rewrite bool_decide_eq_true_2 by done.
      split; [|by right].
      intros ->. done.
Qed.

Lemma orchestrator_routing_shape_witness :
  exists g,
    _build_orchestrator (constant_env "ok") single_system [coder_0; writer_1] = Ok g /\
    next_node g "writer_1" (state_after "Done." 0 None) = Ok "coder_0".
Proof.
  eexists ?[g].
  edestruct (orchestrator_routing_shape (constant_env "ok") single_system [coder_0; writer_1]
               ?g coder_0 (state_after "Done." 0 None)) as [Hback _];
    [vm_compute; reflexivity | reflexivity | discriminate |].
  split; [vm_compute; reflexivity|].
  apply (Hback writer_1). apply list_elem_of_here.
Defined.


(** ** Delegation between peers *)

(** In a decentralised graph, an agent whose answer is a hand-off to a peer
    of the graph is followed by that peer, and an agent whose answer, once
    stripped, is not a JSON document ([json.loads] raises [JSONDecodeError])
    ends the run.  When [json.loads] raises the [ValueError] of an integer
    literal that is too long or a [RecursionError], the routing raises it. *)
Theorem delegation_reaches_the_named_peer `{py : Platform} (env : Env) (agents : list ResolvedAgent.t)
    (g : StateGraph) (a b : ResolvedAgent.t) (state : AgentState) (earlier : list Message)
    (text : string) :
  _build_decentralised env agents = Ok g ->
  a ∈ agents ->
  messages state = earlier ++ [AIMessage (ContentStr text) []] ->
  (b ∈ agents -> plain (ResolvedAgent.name b) = true ->
   ResolvedAgent.name b <> "__done__" ->
   text = json1 "delegate" (ResolvedAgent.name b) ->
   next_node g (ResolvedAgent.name a) state = Ok (ResolvedAgent.name b)) /\
  (forall e, Json.loads (Py.strip text) = Raise e -> exn_type e = JSONDecodeError ->
     next_node g (ResolvedAgent.name a) state = Ok END) /\
  (forall e, Json.loads (Py.strip text) = Raise e -> escapes e ->
     next_node g (ResolvedAgent.name a) state = Raise e).
Proof.
  intros Hb Ha Hm.
  assert (Hnext : next_node g (ResolvedAgent.name a) state
                  = routed ← route_delegation state (List.map ResolvedAgent.name agents);
                    match (<["__done__" := END]>
                             (identity_map (List.map ResolvedAgent.name agents))
                           : gmap string string) !! routed.1 with
                    | Some dst => Ok dst
                    | None => Raise (mkExn KeyError (Py.repr_str routed.1))
                    end).
  { unfold next_node. rewrite (build_decentralised_edges _ _ _ Hb).
    rewrite (build_decentralised_branches _ _ _ Hb). cbn [assoc].
    by rewrite (assoc_map_const _ _ _ Ha). }
  rewrite Hnext. split; [|split].
  - intros Hin Hp Hne ->.
    assert (Hr : route_delegation state (List.map ResolvedAgent.name agents)
                 = Ok (ResolvedAgent.name b, state)).
    { unfold route_delegation, last_content. rewrite Hm, last_snoc.
      cbn [message_content _extract_content mbind result_bind].
      rewrite strip_json1, loads_json1 by done.
      cbn [try_except mbind result_bind Json.get Json.lookup_member].
      rewrite decide_True by done. cbn [default].
      unfold id, known_target, Py.mem. rewrite bool_decide_eq_true_2; [reflexivity|].
      apply list_elem_of_In, in_map, list_elem_of_In, Hin. }
    rewrite Hr. cbn [mbind result_bind fst].
    rewrite lookup_insert_ne by done. rewrite identity_map_lookup.
    rewrite bool_decide_eq_true_2; [reflexivity|].
    apply list_elem_of_In, in_map, list_elem_of_In, Hin.
  - intros e He Hty.
    assert (Hr : route_delegation state (List.map ResolvedAgent.name agents)
                 = Ok ("__done__", state)).
    { unfold route_delegation, last_content. rewrite Hm, last_snoc.
      cbn [message_content _extract_content mbind result_bind].
      rewrite He. cbn [mbind result_bind try_except].
      rewrite Hty. reflexivity. }
    rewrite Hr. cbn [mbind result_bind fst]. by rewrite lookup_insert_eq.
  - intros e He Hesc.
    assert (Hr : route_delegation state (List.map ResolvedAgent.name agents) = Raise e).
    { unfold route_delegation, last_content. rewrite Hm, last_snoc.
      cbn [message_content _extract_content mbind result_bind].
      rewrite He. cbn [mbind result_bind try_except].
      by rewrite (escapes_not_handled e Hesc). }
    by rewrite Hr.
Qed.

Lemma delegation_reaches_the_named_peer_witness :
  exists g,
    _build_decentralised (constant_env "ok") [coder_0; writer_1] = Ok g /\
    next_node g "coder_0" (state_after (json1 "delegate" "writer_1") 0 None) = Ok "writer_1".
Proof.
  eexists ?[g].
  edestruct (delegation_reaches_the_named_peer (constant_env "ok") [coder_0; writer_1] ?g
               coder_0 writer_1 (state_after (json1 "delegate" "writer_1") 0 None)
               [HumanMessage "Compare Python and Rust"] (json1 "delegate" "writer_1"))
    as [Hpeer _]; [vm_compute; reflexivity | apply list_elem_of_here | reflexivity |].
  split; [vm_compute; reflexivity|].
  apply Hpeer; [apply list_elem_of_further, list_elem_of_here|reflexivity|discriminate|reflexivity].
Defined.


(* ===================================================================== *)
(** * The graph cache: what a call touches                                *)
(* ===================================================================== *)

Lemma get_or_build_failure `{py : Platform} env (_cache : Cache) system agents e cache' :
  get_or_build env _cache system agents = (Raise e, cache') ->
  cache' = _cache /\ build_graph env system agents = Raise e.
Proof.
  unfold get_or_build.
  destruct (_cache !! SystemConfig.id system) as [[h g0]|].
  - case_bool_decide as Hh; [discriminate|].
    destruct (build_graph env system agents); intros H; inversion H; subst. done.
  - destruct (build_graph env system agents); intros H; inversion H; subst. done.
Qed.

(** [get_or_build] reads and writes the entry of its own system only, and a
    build that raises leaves the whole cache as it was: the failure is not
    cached and a stale entry of the system is not evicted. *)
Theorem get_or_build_frame `{py : Platform} (env : Env) (_cache : Cache) (system : SystemConfig.t)
    (agents : list ResolvedAgent.t) (r : result StateGraph) (cache' : Cache) :
  get_or_build env _cache system agents = (r, cache') ->
  (forall k, k <> SystemConfig.id system -> cache' !! k = _cache !! k) /\
  (forall e, r = Raise e ->
     cache' = _cache /\ build_graph env system agents = Raise e) /\
  (forall g, r = Ok g ->
     cache' !! SystemConfig.id system = Some (_hash_system system agents, g)).
Proof.
  intros H. split; [|split].
  - intros k Hk. revert H. unfold get_or_build.
    destruct (_cache !! SystemConfig.id system) as [[h g0]|].
    + case_bool_decide as Hh.
      * intros H; inversion H; subst. done.
      * destruct (build_graph env system agents); intros H; inversion H; subst; [|done].
        by rewrite lookup_insert_ne.
    + destruct (build_graph env system agents); intros H; inversion H; subst; [|done].
      by rewrite lookup_insert_ne.
  - intros e ->. by apply get_or_build_failure.
  - intros g ->. by eapply get_or_build_entry.
Qed.

Lemma get_or_build_frame_witness :
  get_or_build (constant_env "ok") {[ "review" := ("stale", empty_graph) ]}
    sequential_system []
  = (Raise (mkExn IndexError "list index out of range"),
     {[ "review" := ("stale", empty_graph) ]}) /\
  build_graph (constant_env "ok") sequential_system []
  = Raise (mkExn IndexError "list index out of range").
Proof.
  assert (H : get_or_build (constant_env "ok") {[ "review" := ("stale", empty_graph) ]}
                sequential_system []
              = (Raise (mkExn IndexError "list index out of range"),
                 {[ "review" := ("stale", empty_graph) ]})) by (vm_compute; reflexivity).
  split; [exact H|].
  eapply (get_or_build_frame (constant_env "ok") {[ "review" := ("stale", empty_graph) ]}
            sequential_system [] _ _ H). reflexivity.
Defined.

(** [invalidate] with no id, or with the empty id, empties the cache.  With
    the id of a system it removes that entry and no other, and the next
    [get_or_build] for the system builds its graph again even though nothing
    of its configuration has changed. *)
Theorem invalidate_forces_rebuild `{py : Platform} (env : Env) (_cache : Cache) (system : SystemConfig.t)
    (agents : list ResolvedAgent.t) :
  SystemConfig.id system <> "" ->
  invalidate _cache None = ∅ /\
  invalidate _cache (Some "") = ∅ /\
  (forall k, k <> SystemConfig.id system ->
     invalidate _cache (Some (SystemConfig.id system)) !! k = _cache !! k) /\
  get_or_build env (invalidate _cache (Some (SystemConfig.id system))) system agents
  = match build_graph env system agents with
    | Ok graph =>
        (Ok graph,
         <[SystemConfig.id system := (_hash_system system agents, graph)]>
           (invalidate _cache (Some (SystemConfig.id system))))
    | Raise e => (Raise e, invalidate _cache (Some (SystemConfig.id system)))
    end.
Proof.
  intros Hid. split; [done|]. split; [done|].
  assert (Hinv : invalidate _cache (Some (SystemConfig.id system))
                 = delete (SystemConfig.id system) _cache).
  { unfold invalidate. destruct (SystemConfig.id system); done. }
  rewrite Hinv. split.
  - intros k Hk. by rewrite lookup_delete_ne.
  - unfold get_or_build. rewrite lookup_delete_eq. reflexivity.
Qed.

Lemma invalidate_forces_rebuild_witness :
  exists graph cache1 graph',
    get_or_build (constant_env "ok") ∅ single_system [writer_1] = (Ok graph, cache1) /\
    build_graph (constant_env "ok") single_system [writer_1] = Ok graph' /\
    get_or_build (constant_env "ok") (invalidate cache1 (Some "answers")) single_system
      [writer_1]
    = (Ok graph',
       <["answers" := (_hash_system single_system [writer_1], graph')]>
         (invalidate cache1 (Some "answers"))).
Proof.
  eexists _, _, _. split; [vm_compute; reflexivity|]. split; [vm_compute; reflexivity|].
  match goal with |- get_or_build _ (invalidate ?c _) _ _ = _ =>
    destruct (invalidate_forces_rebuild (constant_env "ok") c single_system [writer_1])
      as (_ & _ & _ & H); [discriminate|] end.
  change (SystemConfig.id single_system) with "answers" in H.
  rewrite H. vm_compute. reflexivity.
Defined.


(* ===================================================================== *)
(** * Tool calls and sentinels                                            *)
(* ===================================================================== *)

(** When [_execute_tool_calls] returns, it returns one tool message per
    call, in the order of the calls, each carrying the id of its call and
    the text its tool returned.  A call that names a tool that is not bound
    raises [KeyError] once the calls before it have returned.  (The bound
    tools have distinct names, as a dictionary keyed by name has.) *)
Theorem tool_results_match_calls `{py : Platform} (tools : list (string * Tool)) (calls : list ToolCall) :
  NoDup (List.map fst tools) ->
  (forall msgs,
     _execute_tool_calls calls tools = Ok msgs ->
     Forall2 (fun tc m =>
                exists tool out,
                  (tc_name tc, tool) ∈ tools /\ tool (tc_args tc) = Ok out /\
                  m = ToolMessage out (tc_id tc)) calls msgs) /\
  (forall before tc after done,
     calls = before ++ tc :: after ->
     _execute_tool_calls before tools = Ok done ->
     tc_name tc ∉ List.map fst tools ->
     _execute_tool_calls calls tools = Raise (mkExn KeyError (Py.repr_str (tc_name tc)))).
Proof.
  intros _. split.
  - induction calls as [|tc calls IH]; simpl; intros msgs H.
    + inversion H; subst. constructor.
    + destruct (assoc (tc_name tc) tools) as [tool|] eqn:Ha; [|discriminate].
      destruct (tool (tc_args tc)) as [out|e] eqn:Ho; simpl in H; [|discriminate].
      destruct (_execute_tool_calls calls tools) as [rest|e]; simpl in H; [|discriminate].
      inversion H; subst. constructor; [|by apply IH].
      exists tool, out. split; [by apply assoc_elem|done].
  - intros before tc after done -> Hb Hn. apply assoc_None in Hn. revert done Hb.
    induction before as [|b before IH]; simpl; intros done Hb.
    + by rewrite Hn.
    + destruct (assoc (tc_name b) tools) as [tool|]; [|discriminate].
      destruct (tool (tc_args b)) as [out|e]; simpl in *; [|discriminate].
      destruct (_execute_tool_calls before tools) as [rest|e]; simpl in Hb; [|discriminate].
      by rewrite (IH rest eq_refl).
Qed.

Lemma tool_results_match_calls_witness :
  _execute_tool_calls
    [mkToolCall "calculate" (JObject [("expression", JString "2+2")]) "call_1";
     mkToolCall "tavily_search" (JObject [("query", JString "rust")]) "call_2"]
    coder_tools
  = Raise (mkExn KeyError "'tavily_search'").
Proof.
  apply (proj2 (tool_results_match_calls coder_tools _
                  ltac:(apply (bool_decide_unpack _); vm_compute; exact I))
           [mkToolCall "calculate" (JObject [("expression", JString "2+2")]) "call_1"]
           (mkToolCall "tavily_search" (JObject [("query", JString "rust")]) "call_2")
           [] [ToolMessage "4" "call_1"]).
  - reflexivity.
  - reflexivity.
  - apply (bool_decide_unpack _). vm_compute. exact I.
Defined.

Lemma startswith_refl s : forall r, Py.startswith (s +:+ r) s = true.
Proof.
  induction s as [|c s IH]; intros r; [by destruct r|].
  rewrite append_cons. simpl. rewrite decide_True by done. apply IH.
Qed.

Lemma contains_app_r needle s : forall p,
  Py.contains needle s = true -> Py.contains needle (p +:+ s) = true.
Proof.
  induction p as [|c p IH]; intros H; [by rewrite append_nil_l|].
  rewrite append_cons. simpl. rewrite (IH H). apply orb_true_r.
Qed.

(** The validating node reads its tool results in order and stops at the
    first one that holds a sentinel; in that result the accept sentinel is
    looked for first.  So a rejection through [reject_output] whose reason
    quotes the accept sentinel is read as an acceptance. *)
Theorem accept_sentinel_wins `{py : Platform} (earlier later : list Message) (reason call_id : string)
    (agent : ResolvedAgent.t) (state : AgentState) (response : AIResponse) :
  Forall (fun tr => Py.contains "__ACCEPTED__" (tool_message_content tr) = false /\
                    Py.contains "__REJECTED__:" (tool_message_content tr) = false) earlier ->
  Py.contains "__ACCEPTED__" reason = true ->
  exists out,
    reject_output (JObject [("reason", JString reason)]) = Ok out /\
    Py.contains "__REJECTED__:" out = true /\
    scan_sentinels (earlier ++ ToolMessage out call_id :: later) = Some "accepted" /\
    upd_validation_result
      (validator_verdict agent state response (earlier ++ ToolMessage out call_id :: later))
    = Some "accepted" /\
    upd_retry_count
      (validator_verdict agent state response (earlier ++ ToolMessage out call_id :: later))
    = Some (retry_count state).
Proof.
  intros Hearlier Hreason. exists ("__REJECTED__: " +:+ reason).
  split; [reflexivity|].
  split; [apply (startswith_refl "__REJECTED__:" (" " +:+ reason))|].
  assert (Hs : scan_sentinels (earlier ++ ToolMessage ("__REJECTED__: " +:+ reason) call_id
                                 :: later) = Some "accepted").
  { induction Hearlier as [|tr rest [Ha Hr] _ IH].
    - cbn [app scan_sentinels tool_message_content].
      by rewrite (contains_app_r "__ACCEPTED__" reason "__REJECTED__: " Hreason).
    - change ((tr :: rest) ++ ?l) with (tr :: (rest ++ l)). cbn [scan_sentinels].
      by rewrite Ha, Hr. }
  split; [exact Hs|]. unfold validator_verdict. rewrite Hs. simpl. done.
Qed.

Lemma accept_sentinel_wins_witness :
  scan_sentinels
    [ToolMessage "4" "call_1";
     ToolMessage "__REJECTED__: the draft never says __ACCEPTED__" "call_2"]
  = Some "accepted".
Proof.
  destruct (accept_sentinel_wins [ToolMessage "4" "call_1"] []
              "the draft never says __ACCEPTED__" "call_2" validator_1
              (state_after "A draft." 1 None) (mkResponse (ContentStr "Fine.") []))
    as (out & Hout & _ & Hs & _).
  - repeat constructor.
  - vm_compute. reflexivity.
  - simpl in Hout. inversion Hout; subst out. exact Hs.
Defined.


(* ===================================================================== *)
(** * What a node adds to the conversation                                *)
(* ===================================================================== *)

Lemma agent_node_try_message `{py : Platform} env fuel agent prompt tools state u :
  agent_node_try env fuel agent prompt tools state = Some (Ok u) ->
  (exists m, upd_messages u = [m] /\ is_ai_message m) /\
  upd_current_agent u = ResolvedAgent.name agent.
Proof.
  unfold agent_node_try, run_bind, lift.
  destruct (_get_llm _ _ _) as [llm|e]; [|discriminate].
  destruct (tool_call_loop _ _ _ _ _) as [[[[response msgs] trs]|e]|]; try discriminate.
  destruct (text_retry _ _ _ _ _) as [response'|e]; [|discriminate].
  intros H; inversion H; subst. simpl. split; [|done]. eexists. split; [done|exact I].
Qed.

(** Whatever a node does inside, tool calls included, it adds exactly one
    message to the conversation of the run, an assistant message: its final
    answer or, when it fails, the report of the error.  The requests for tools
    and the tool results stay inside the node.  The update names the agent of
    the node as the current agent. *)
Theorem node_appends_one_ai_message `{py : Platform} (env : Env) (fuel : nat) (node : Node)
    (state : AgentState) (u : Update) :
  run_node env fuel node state = Some u ->
  exists m,
    upd_messages u = [m] /\ is_ai_message m /\
    messages (apply_update state u) = messages state ++ [m] /\
    current_agent (apply_update state u)
    = Some (ResolvedAgent.name
              match node with
              | AgentNode agent _ | ValidatorNode agent _ | DecentralisedNode agent _ _ => agent
              end).
Proof.
  assert (Hplain : forall agent prompt tools,
            match agent_node_try env fuel agent prompt tools state with
            | None => None
            | Some (Ok u) => Some u
            | Some (Raise e) => Some (agent_error_update agent e)
            end = Some u ->
            (exists m, upd_messages u = [m] /\ is_ai_message m) /\
            upd_current_agent u = ResolvedAgent.name agent).
  { intros agent prompt tools.
    destruct (agent_node_try env fuel agent prompt tools state) as [[u'|e]|] eqn:Ht;
      intros H; inversion H; subst.
    - by eapply agent_node_try_message.
    - simpl. split; [|done]. eexists. split; [done|exact I]. }
  assert (Hfinish : forall agent,
            (exists m, upd_messages u = [m] /\ is_ai_message m) /\
            upd_current_agent u = ResolvedAgent.name agent ->
            exists m,
              upd_messages u = [m] /\ is_ai_message m /\
              messages (apply_update state u) = messages state ++ [m] /\
              current_agent (apply_update state u) = Some (ResolvedAgent.name agent)).
  { intros agent [(m & Hm & Hai) Hc]. exists m. unfold apply_update. simpl.
    rewrite Hm, Hc. done. }
  destruct node as [agent tools|agent tools|agent prompt tools]; simpl; intros H.
  - apply Hfinish. by eapply Hplain.
  - apply Hfinish. revert H. unfold validator_node, validator_node_try, run_bind, lift.
    destruct (validator_loop env fuel agent tools state) as [[[response trs]|e]|];
      intros H; inversion H; subst; simpl; (split; [|done]); eexists; (split; [done|exact I]).
  - apply Hfinish. by eapply Hplain.
Qed.

Lemma node_appends_one_ai_message_witness :
  exists u m,
    run_node calculating_env 2 (AgentNode coder_0 coder_tools) (state_after "A draft." 0 None)
    = Some u /\
    messages (apply_update (state_after "A draft." 0 None) u)
    = messages (state_after "A draft." 0 None) ++ [m] /\
    is_ai_message m.
Proof.
  eexists ?[u].
  edestruct (node_appends_one_ai_message calculating_env 2 (AgentNode coder_0 coder_tools)
               (state_after "A draft." 0 None) ?u) as (m & _ & Hai & Hm & _);
    [vm_compute; reflexivity|].
  exists m. split; [vm_compute; reflexivity|]. split; [exact Hm|exact Hai].
Defined.


(* ===================================================================== *)
(** * The event stream of a run                                           *)
(* ===================================================================== *)

Lemma handle_update_progress `{py : Platform} l item : Forall is_progress (handle_update l item).1.
Proof.
  destruct item as [node_name u]. unfold handle_update.
  case_bool_decide; [constructor|]. simpl.
  apply Forall_app. split.
  - destruct (negb _); [|constructor]. constructor; [by left|constructor].
  - case_bool_decide; [|constructor]. constructor; [by right|constructor].
Qed.

Lemma handle_items_progress `{py : Platform} items : forall l, Forall is_progress (handle_items l items).1.
Proof.
  induction items as [|item rest IH]; intros l; simpl; [constructor|].
  pose proof (handle_update_progress l item) as Hu.
  destruct (handle_update l item) as [chunks [l'|e]]; simpl in *; [|done].
  specialize (IH l'). destruct (handle_items l' rest) as [chunks' r]. simpl in *.
  apply Forall_app. done.
Qed.

Lemma drive_progress `{py : Platform} events failure : forall l, Forall is_progress (drive l events failure).1.
Proof.
  induction events as [|event rest IH]; intros l; simpl.
  - destruct failure; constructor.
  - pose proof (handle_items_progress event l) as Hu.
    destruct (handle_items l event) as [chunks [l'|e]]; simpl in *; [|done].
    specialize (IH l'). destruct (drive l' rest failure) as [chunks' r]. simpl in *.
    apply Forall_app. done.
Qed.

(** The shape of the chunks of a run, whatever the driver of the graph
    delivers.  A run whose graph cannot be built yields the error chunk of the
    build and the done chunk, and leaves the cache as it was.  Any other run
    yields the status chunk of the request, then status and rejection chunks
    only, then at most one closing chunk, which is a token chunk with a text
    that is not empty or an error chunk, and last the done chunk: never both a
    token and an error, and never two tokens. *)
Theorem run_chunks_shape `{py : Platform} (driver : StateGraph -> AgentState -> option Trace) (env : Env)
    (_cache : Cache) (system : SystemConfig.t) (prompt : string)
    (chunks : list Chunk) (cache' : Cache) :
  execute_run_with driver env _cache system prompt = Some (chunks, cache') ->
  (exists e, chunks = [build_error_chunk e; done_chunk] /\ cache' = _cache) \/
  (exists progress closing,
     chunks = processing_chunk :: progress ++ closing ++ [done_chunk] /\
     Forall is_progress progress /\
     (closing = [] \/
      (exists text agent,
         closing = [RunResponseChunk.mk "token" text agent] /\ text <> "") \/
      (exists e, closing = [error_chunk e]))).
Proof.
  unfold execute_run_with. intros H.
  destruct (merge_agents (SystemConfig.agents system) 0) as [agents|e0] eqn:Hm.
  2:{ inversion H; subst. left. by exists e0. }
  destruct (get_or_build env _cache system agents) as [[graph|e0] cache1] eqn:Hg.
  2:{ inversion H; subst. left. exists e0. split; [done|].
      by apply get_or_build_failure in Hg as [-> _]. }
  destruct (driver graph (initial_state prompt)) as [trace|] eqn:Hd; [|discriminate].
  inversion H; subst. right. unfold execute_body, execute_try.
  pose proof (drive_progress trace.1 trace.2 (mkLoop None None)) as Hp.
  destruct (drive _ _ _) as [cs [l|e]]; simpl in Hp.
  - destruct (final_content l) as [fc|].
    + destruct (Json.truthy fc) eqn:Ht.
      * destruct fc as [| | | |s| |]; simpl;
          try (eexists cs, [error_chunk _];
               split; [by rewrite <- app_assoc|]; split; [done|]; right; right; eauto).
        exists cs, [RunResponseChunk.mk "token" s (last_agent l)].
        split; [by rewrite <- !app_assoc|]. split; [done|]. right. left.
        exists s, (last_agent l). split; [done|]. intros ->. discriminate.
      * exists cs, []. split; [done|]. split; [done|]. by left.
    + exists cs, []. split; [done|]. split; [done|]. by left.
  - exists cs, [error_chunk e]. split; [by rewrite <- app_assoc|]. split; [done|].
    right. right. eauto.
Qed.

Lemma run_chunks_shape_witness :
  exists progress closing,
    fst <$> execute_run_with (astream pipeline_env 2) pipeline_env ∅ sequential_system
              "Write a haiku"
    = Some (processing_chunk :: progress ++ closing ++ [done_chunk]) /\
    Forall is_progress progress.
Proof.
  destruct (execute_run_with (astream pipeline_env 2) pipeline_env ∅ sequential_system
              "Write a haiku") as [[chunks cache']|] eqn:Hrun; [|vm_compute in Hrun; discriminate].
  destruct (run_chunks_shape (astream pipeline_env 2) pipeline_env ∅ sequential_system
              "Write a haiku" chunks cache' Hrun)
    as [(e & -> & _)|(progress & closing & -> & Hp & _)].
  - vm_compute in Hrun. discriminate.
  - exists progress, closing. split; [reflexivity|exact Hp].
Defined.


(** ** Status chunks *)

Lemma status_agents_app chunks chunks' :
  status_agents (chunks ++ chunks') = status_agents chunks ++ status_agents chunks'.
Proof. unfold status_agents. by rewrite List.filter_app, map_app. Qed.

Lemma no_repeat_app {A} (l1 : list A) : forall a l2,
  no_repeat (a :: l1) -> no_repeat (default a (last l1) :: l2) -> no_repeat (a :: l1 ++ l2).
Proof.
  induction l1 as [|b l1 IH]; intros a l2 H1 H2; [exact H2|].
  destruct H1 as [Hab H1]. change ((b :: l1) ++ l2) with (b :: (l1 ++ l2)).
  split; [exact Hab|]. apply IH; [exact H1|].
  replace (default b (last l1)) with (default a (last (b :: l1))); [exact H2|].
  rewrite last_cons. by destruct (last l1).
Qed.

Lemma last_default_app {A} (a : A) l1 l2 :
  default a (last (l1 ++ l2)) = default (default a (last l1)) (last l2).
Proof.
  destruct l2 as [|x l2] using rev_ind; [by rewrite app_nil_r|].
  by rewrite app_assoc, !last_snoc.
Qed.

Lemma handle_update_switches `{py : Platform} l item : switches (last_agent l) (handle_update l item).
Proof.
  destruct item as [node_name u]. unfold handle_update, switches.
  case_bool_decide as Hend; [split; [exact I|intros l' H'; by inversion H']|].
  cbn [fst snd]. rewrite status_agents_app.
  assert (Hrej : status_agents
                   (if bool_decide (upd_validation_result u = Some "rejected")
                    then [rejected_chunk (upd_current_agent u)] else []) = []).
  { by destruct (bool_decide (upd_validation_result u = Some "rejected")). }
  rewrite Hrej, app_nil_r. clear Hrej.
  destruct (bool_decide (Some (upd_current_agent u) = last_agent l)) eqn:Hsw; cbn [negb].
  - apply bool_decide_eq_true in Hsw. split; [exact I|]. intros l'.
    destruct (capture_messages _ _) as [fc|e]; [|discriminate]. cbn [mbind result_bind].
    destruct (capture_final_response _ _) as [fc'|e]; [|discriminate].
    intros H'; inversion H'; subst. done.
  - apply bool_decide_eq_false in Hsw.
    change (status_agents [agent_status (upd_current_agent u)])
      with [Some (upd_current_agent u)].
    split; [split; [intros Heq; by apply Hsw|exact I]|]. intros l'.
    destruct (capture_messages _ _) as [fc|e]; [|discriminate]. cbn [mbind result_bind].
    destruct (capture_final_response _ _) as [fc'|e]; [|discriminate].
    intros H'; inversion H'; subst. done.
Qed.

Lemma switches_seq la chunks l' chunks' r :
  switches la (chunks, Ok l') -> switches (last_agent l') (chunks', r) ->
  switches la (chunks ++ chunks', r).
Proof.
  intros [H1 H1'] [H2 H2']. cbn [fst snd] in *. specialize (H1' l' eq_refl).
  rewrite H1' in H2, H2'. unfold switches. cbn [fst snd]. split.
  - rewrite status_agents_app. by apply no_repeat_app.
  - intros l'' Hr. rewrite (H2' l'' Hr), status_agents_app. by rewrite last_default_app.
Qed.

Lemma handle_items_switches `{py : Platform} items : forall l, switches (last_agent l) (handle_items l items).
Proof.
  induction items as [|item rest IH]; intros l; simpl.
  - split; [exact I|]. intros l' H'. by inversion H'.
  - pose proof (handle_update_switches l item) as Hu.
    destruct (handle_update l item) as [chunks [l'|e]].
    + specialize (IH l'). destruct (handle_items l' rest) as [chunks' r].
      by eapply switches_seq.
    + split; [apply Hu|discriminate].
Qed.

Lemma drive_switches `{py : Platform} events failure : forall l,
  switches (last_agent l) (drive l events failure).
Proof.
  induction events as [|event rest IH]; intros l; simpl.
  - destruct failure; (split; [exact I|]); intros l' H'; by inversion H'.
  - pose proof (handle_items_switches event l) as Hu.
    destruct (handle_items l event) as [chunks [l'|e]].
    + specialize (IH l'). destruct (drive l' rest failure) as [chunks' r].
      by eapply switches_seq.
    + split; [apply Hu|discriminate].
Qed.

(** A status chunk marks a change of agent: in the chunks of a run, whatever
    the driver of the graph delivers, two status chunks that follow one
    another, with any other chunks between them, never name the same agent. *)
Theorem status_chunks_mark_switches `{py : Platform} (driver : StateGraph -> AgentState -> option Trace)
    (env : Env) (_cache : Cache) (system : SystemConfig.t) (prompt : string)
    (chunks : list Chunk) (cache' : Cache) :
  execute_run_with driver env _cache system prompt = Some (chunks, cache') ->
  no_repeat (status_agents chunks).
Proof.
  unfold execute_run_with. intros H.
  destruct (merge_agents (SystemConfig.agents system) 0) as [agents|e0].
  2:{ inversion H; subst. exact I. }
  destruct (get_or_build env _cache system agents) as [[graph|e0] cache1].
  2:{ inversion H; subst. exact I. }
  destruct (driver graph (initial_state prompt)) as [trace|]; [|discriminate].
  inversion H; subst. clear H.
  change (processing_chunk :: execute_body trace ++ [done_chunk])
    with ([processing_chunk] ++ execute_body trace ++ [done_chunk]).
  rewrite !status_agents_app.
  change (status_agents [done_chunk]) with (@nil (option string)).
  change (status_agents [processing_chunk]) with [@None string].
  rewrite app_nil_r. cbn [app].
  pose proof (drive_switches trace.1 trace.2 (mkLoop None None)) as [Hd _].
  cbn [last_agent] in Hd.
  unfold execute_body, execute_try.
  destruct (drive _ _ _) as [cs [l|e]]; cbn [fst] in Hd.
  - destruct (final_content l) as [fc|]; [|exact Hd].
    destruct (Json.truthy fc); [|exact Hd].
    destruct fc; cbn [token_chunk]; rewrite ?status_agents_app, ?app_nil_r; exact Hd.
  - rewrite status_agents_app, app_nil_r. exact Hd.
Qed.

Lemma status_chunks_mark_switches_witness :
  exists chunks cache',
    execute_run_with (astream pipeline_env 2) pipeline_env ∅ sequential_system "Write a haiku"
    = Some (chunks, cache') /\
    no_repeat (status_agents chunks).
Proof.
  eexists ?[chunks], ?[cache'].
  pose proof (status_chunks_mark_switches (astream pipeline_env 2) pipeline_env ∅
                sequential_system "Write a haiku" ?chunks ?cache') as H.
  split; [vm_compute; reflexivity|]. apply H. vm_compute. reflexivity.
Defined.


(** ** Single-agent runs: what becomes of the agent's answer *)

Lemma single_run_of_update `{py : Platform} env fuel (_cache : Cache) system agent others graph prompt u :
  SystemConfig.topology system = "single" ->
  merge_agents (SystemConfig.agents system) 0 = Ok (agent :: others) ->
  _build_single env agent = Ok graph ->
  _cache !! SystemConfig.id system = None ->
  (forall tools, agent_node env fuel agent tools (initial_state prompt) = Some u) ->
  execute_run env fuel _cache system prompt
  = Some (processing_chunk
            :: execute_body ([[(ResolvedAgent.name agent, u)]], None) ++ [done_chunk],
          <[SystemConfig.id system := (_hash_system system (agent :: others), graph)]> _cache).
Proof.
  intros Htop Hmerge Hbuild Hcache Hnode.
  destruct (build_single_node env agent graph Hbuild) as (tools & Htools & Hn & He & Hd & Hb).
  unfold execute_run, execute_run_with. rewrite Hmerge.
  unfold get_or_build. rewrite Hcache.
  unfold build_graph. rewrite Htop. rewrite bool_decide_eq_true_2 by done.
  cbn [first_agent mbind result_bind]. rewrite Hbuild.
  by rewrite (astream_single env fuel graph _ _ _ _ Hn He Hd (Hnode tools)).
Qed.

Lemma handle_plain_update `{py : Platform} name m fr :
  name <> END ->
  handle_update (mkLoop None None)
    (name, mkUpdate [AIMessage (ContentStr m) []] name fr None None)
  = ([agent_status name],
     fc ← capture_message None (AIMessage (ContentStr m) []);
     fc ← capture_final_response fc fr;
     mret (mkLoop (Some name) fc)).
Proof.
  intros Hne. unfold handle_update. rewrite bool_decide_eq_false_2 by exact Hne.
  cbn [upd_current_agent upd_validation_result upd_messages upd_final_response last_agent
       final_content capture_messages].
  rewrite bool_decide_eq_false_2 by discriminate. cbn [negb].
  rewrite bool_decide_eq_false_2 by discriminate. cbn [app].
  destruct (capture_message None (AIMessage (ContentStr m) [])); reflexivity.
Qed.

Lemma capture_message_prose `{py : Platform} fc text e :
  Py.nonempty text = true ->
  Json.loads (Py.strip text) = Raise e -> exn_type e = JSONDecodeError ->
  capture_message fc (AIMessage (ContentStr text) []) = Ok (Some (JString text)).
Proof.
  intros Hne Hl Hty. unfold capture_message. cbn [message_content _extract_content].
  rewrite Hne. cbn [negb]. rewrite Hl. cbn [mbind result_bind try_except].
  by rewrite Hty.
Qed.

Lemma capture_final_prose `{py : Platform} fc fr e :
  Py.nonempty fr = true ->
  Json.loads fr = Raise e -> exn_type e = JSONDecodeError ->
  capture_final_response fc fr = Ok (Some (JString fr)).
Proof.
  intros Hne Hl Hty. unfold capture_final_response.
  rewrite Hne. cbn [negb]. rewrite Hl. cbn [mbind result_bind try_except].
  by rewrite Hty.
Qed.

Lemma execute_body_token `{py : Platform} name m fr e1 e2 :
  name <> END ->
  Py.nonempty m = true ->
  Json.loads (Py.strip m) = Raise e1 -> exn_type e1 = JSONDecodeError ->
  Py.nonempty fr = true ->
  Json.loads fr = Raise e2 -> exn_type e2 = JSONDecodeError ->
  execute_body ([[(name, mkUpdate [AIMessage (ContentStr m) []] name fr None None)]], None)
  = [agent_status name; RunResponseChunk.mk "token" fr (Some name)].
Proof.
  intros Hne Hm Hlm Hty1 Hfr Hlfr Hty2.
  unfold execute_body, execute_try. cbn [fst snd drive handle_items].
  rewrite (handle_plain_update name m fr Hne).
  rewrite (capture_message_prose None m e1 Hm Hlm Hty1). cbn [mbind result_bind].
  rewrite (capture_final_prose _ fr e2 Hfr Hlfr Hty2). cbn [mbind result_bind mret result_ret].
  cbn [final_content last_agent Json.truthy app]. rewrite Hfr. reflexivity.
Qed.

(** An answer in prose reaches the client unchanged.  In a single-agent
    run whose model answers with a text that is not empty and is not a JSON
    document, neither as it is nor stripped ([json.loads] raises
    [JSONDecodeError] on both), the chunks are the two status chunks, one
    token chunk holding exactly that text, and the done chunk; the graph is
    cached under the content hash. *)
Theorem prose_answer_is_the_token `{py : Platform} (env : Env) (fuel : nat) (_cache : Cache)
    (system : SystemConfig.t) (agent : ResolvedAgent.t) (others : list ResolvedAgent.t)
    (graph : StateGraph) (prompt text : string) (c : ascii) (key : string) (e1 e2 : Exn) :
  SystemConfig.topology system = "single" ->
  merge_agents (SystemConfig.agents system) 0 = Ok (agent :: others) ->
  _build_single env agent = Ok graph ->
  _cache !! SystemConfig.id system = None ->
  ANTHROPIC_API_KEY env = Some (String c key) ->
  (forall model bound msgs,
     ainvoke env model bound msgs = Ok (mkResponse (ContentStr text) [])) ->
  Py.nonempty text = true ->
  Json.loads (Py.strip text) = Raise e1 -> exn_type e1 = JSONDecodeError ->
  Json.loads text = Raise e2 -> exn_type e2 = JSONDecodeError ->
  execute_run env (S fuel) _cache system prompt
  = Some ([processing_chunk; agent_status (ResolvedAgent.name agent);
           RunResponseChunk.mk "token" text (Some (ResolvedAgent.name agent)); done_chunk],
          <[SystemConfig.id system := (_hash_system system (agent :: others), graph)]> _cache).
Proof.
  intros Htop Hmerge Hbuild Hcache Hkey Hllm Htext Hl1 Hty1 Hl2 Hty2.
  rewrite (single_run_of_update env (S fuel) _cache system agent others graph prompt
             (mkUpdate [AIMessage (ContentStr text) []] (ResolvedAgent.name agent) text
                None None) Htop Hmerge Hbuild Hcache).
  - rewrite (execute_body_token _ text text e1 e2
               (build_single_name env agent graph Hbuild) Htext Hl1 Hty1 Htext Hl2 Hty2).
    reflexivity.
  - intros tools. by apply (agent_node_constant env fuel agent tools _ text c key).
Qed.

Lemma prose_answer_is_the_token_witness :
  fst <$> execute_run (constant_env "Rust is faster.") 1 ∅ single_system "Compare them"
  = Some [processing_chunk; agent_status "writer_0";
          RunResponseChunk.mk "token" "Rust is faster." (Some "writer_0"); done_chunk].
Proof.
  erewrite (prose_answer_is_the_token (constant_env "Rust is faster.") 0 ∅ single_system
              (ResolvedAgent.mk "writer_0" "writer"
                 "Creative writer for marketing and content." sonnet ["parse_document"]
                 "Answer briefly.") [] _ "Compare them" "Rust is faster." "s"%char "k-test").
  - reflexivity.
  - reflexivity.
  - vm_compute. reflexivity.
  - vm_compute. reflexivity.
  - reflexivity.
  - reflexivity.
  - intros. reflexivity.
  - reflexivity.
  - vm_compute. reflexivity.
  - reflexivity.
  - vm_compute. reflexivity.
  - reflexivity.
Defined.


Lemma capture_message_scalar `{py : Platform} fc text v :
  Py.nonempty text = true ->
  Json.loads (Py.strip text) = Ok v ->
  (forall members, v <> JObject members) ->
  capture_message fc (AIMessage (ContentStr text) [])
  = Raise (mkExn AttributeError
             ("'" +:+ Json.type_name v +:+ "' object has no attribute 'get'")).
Proof.
  intros Hne Hl Hv. unfold capture_message. cbn [message_content _extract_content].
  rewrite Hne. cbn [negb]. rewrite Hl. cbn [mbind result_bind].
  destruct v; try reflexivity. by destruct (Hv members).
Qed.

(** An answer that is a JSON document but not an object, such as a number,
    a quoted string, a list, [true] or [null], is not forwarded: the lookup
    of the routing key fails on it with [AttributeError], which the handler of
    the capture does not list, so the run closes with the error chunk of that
    exception and yields no token. *)
Theorem scalar_json_answer_is_an_error `{py : Platform} (env : Env) (fuel : nat) (_cache : Cache)
    (system : SystemConfig.t) (agent : ResolvedAgent.t) (others : list ResolvedAgent.t)
    (graph : StateGraph) (prompt text : string) (c : ascii) (key : string) (v : JValue) :
  SystemConfig.topology system = "single" ->
  merge_agents (SystemConfig.agents system) 0 = Ok (agent :: others) ->
  _build_single env agent = Ok graph ->
  _cache !! SystemConfig.id system = None ->
  ANTHROPIC_API_KEY env = Some (String c key) ->
  (forall model bound msgs,
     ainvoke env model bound msgs = Ok (mkResponse (ContentStr text) [])) ->
  Py.nonempty text = true ->
  Json.loads (Py.strip text) = Ok v ->
  (forall members, v <> JObject members) ->
  fst <$> execute_run env (S fuel) _cache system prompt
  = Some [processing_chunk; agent_status (ResolvedAgent.name agent);
          RunResponseChunk.mk "error"
            ("Execution error: '" +:+ Json.type_name v +:+ "' object has no attribute 'get'")
            None;
          done_chunk].
Proof.
  intros Htop Hmerge Hbuild Hcache Hkey Hllm Htext Hl Hv.
  rewrite (single_run_of_update env (S fuel) _cache system agent others graph prompt
             (mkUpdate [AIMessage (ContentStr text) []] (ResolvedAgent.name agent) text
                None None) Htop Hmerge Hbuild Hcache).
  - unfold execute_body, execute_try. cbn [fst snd drive handle_items].
    rewrite (handle_plain_update _ text text (build_single_name env agent graph Hbuild)).
    rewrite (capture_message_scalar None text v Htext Hl Hv). reflexivity.
  - intros tools. by apply (agent_node_constant env fuel agent tools _ text c key).
Qed.

Lemma scalar_json_answer_is_an_error_witness :
  fst <$> execute_run (constant_env "[1, 2]") 1 ∅ single_system "List them"
  = Some [processing_chunk; agent_status "writer_0";
          RunResponseChunk.mk "error"
            "Execution error: 'list' object has no attribute 'get'" None;
          done_chunk].
Proof.
  apply (scalar_json_answer_is_an_error (constant_env "[1, 2]") 0 ∅ single_system
           (ResolvedAgent.mk "writer_0" "writer"
              "Creative writer for marketing and content." sonnet ["parse_document"]
              "Answer briefly.") [] (mkGraph
                [("writer_0", AgentNode (ResolvedAgent.mk "writer_0" "writer"
                    "Creative writer for marketing and content." sonnet ["parse_document"]
                    "Answer briefly.") [("parse_document", parse_document_stub)])]
                (Some "writer_0") [("writer_0", END)] [])
           "List them" "[1, 2]" "s"%char "k-test" (JArray [JInt 1; JInt 2])).
  - reflexivity.
  - reflexivity.
  - vm_compute. reflexivity.
  - reflexivity.
  - reflexivity.
  - intros. reflexivity.
  - reflexivity.
  - vm_compute. reflexivity.
  - discriminate.
Defined.

(** ** Structured answers *)

Lemma loads_json2 `{py : Platform} k1 v1 k2 v2 :
  plain k1 = true -> plain v1 = true -> plain k2 = true -> plain v2 = true ->
  Json.loads (json2 k1 v1 k2 v2) = Ok (JObject [(k1, JString v1); (k2, JString v2)]).
Proof.
  pose proof recursion_budget_positive as Hdepth.
  intros Hk1 Hv1 Hk2 Hv2. unfold Json.loads, json2, quoted, Py.quote.
  destruct recursion_budget as [|depth]; [lia|].
  repeat first [rewrite append_cons | rewrite append_nil_l | rewrite append_assoc].
  remember (2 * String.length _ + 2)%nat as fuel eqn:Hfuel.
  assert (Hf : (4 <= fuel)%nat).
  { rewrite Hfuel. simpl. lia. }
  clear Hfuel. destruct fuel as [|[|[|[|fuel]]]]; try lia. clear Hf.
  cbn [Json.skip_ws]. change (Json.is_ws "{"%char) with false. cbn iota.
  cbn [Json.scan_once Json.skip_ws]. change (Json.is_ws Py.dquote) with false. cbn iota.
  cbn [Json.scan_members].
  rewrite scan_string_plain by (first [done | rewrite length_append; simpl; lia]).
  rewrite append_nil_l. cbn [Json.skip_ws]. change (Json.is_ws ":"%char) with false. cbn iota.
  cbn [Json.skip_ws]. change (Json.is_ws " "%char) with true. cbn iota.
  change (Json.is_ws Py.dquote) with false. cbn iota. cbn [Json.scan_once].
  rewrite scan_string_plain by (first [done | rewrite length_append; simpl; lia]).
  rewrite append_nil_l. cbn [Json.skip_ws]. change (Json.is_ws ","%char) with false. cbn iota.
  cbn [Json.skip_ws]. change (Json.is_ws " "%char) with true. cbn iota.
  change (Json.is_ws Py.dquote) with false. cbn iota.
  cbn [Json.scan_members].
  rewrite scan_string_plain by (first [done | rewrite length_append; simpl; lia]).
  rewrite append_nil_l. cbn [Json.skip_ws]. change (Json.is_ws ":"%char) with false. cbn iota.
  cbn [Json.skip_ws]. change (Json.is_ws " "%char) with true. cbn iota.
  change (Json.is_ws Py.dquote) with false. cbn iota. cbn [Json.scan_once].
  rewrite scan_string_plain by (first [done | rewrite length_append; simpl; lia]).
  rewrite append_nil_l. cbn [Json.skip_ws]. change (Json.is_ws "}"%char) with false. cbn iota.
  reflexivity.
Qed.

Lemma strip_json2 k1 v1 k2 v2 : Py.strip (json2 k1 v1 k2 v2) = json2 k1 v1 k2 v2.
Proof.
  unfold Py.strip, json2.
  change ("{" +:+ ?s) with (String "{"%char s).
  rewrite lstrip_ascii by done.
  change (String "{"%char ?s) with ("{" +:+ s).
  rewrite <- !append_assoc. apply rstrip_brace.
Qed.


Lemma capture_message_object `{py : Platform} fc text members :
  Py.nonempty text = true ->
  Json.loads (Py.strip text) = Ok (JObject members) ->
  capture_message fc (AIMessage (ContentStr text) [])
  = Ok (if Json.eq_str (default JNull (Json.lookup_member "agent" members)) "__done__"
           && Json.truthy (default JNull (Json.lookup_member "response" members))
        then Some (default JNull (Json.lookup_member "response" members))
        else if Json.has_key (JObject members) "agent"
                || Json.has_key (JObject members) "delegate"
             then fc
             else Some (JString text)).
Proof.
  intros Hne Hl. unfold capture_message. cbn [message_content _extract_content].
  rewrite Hne. cbn [negb]. rewrite Hl. cbn [mbind result_bind Json.get try_except].
  destruct (Json.eq_str (default JNull (Json.lookup_member "agent" members)) "__done__");
    cbn [mbind result_bind andb];
    destruct (Json.truthy (default JNull (Json.lookup_member "response" members)));
    destruct (Json.has_key (JObject members) "agent"
              || Json.has_key (JObject members) "delegate"); reflexivity.
Qed.

Lemma capture_final_object `{py : Platform} fc fr members :
  Py.nonempty fr = true ->
  Json.loads fr = Ok (JObject members) ->
  capture_final_response fc fr
  = Ok (if Json.eq_str (default JNull (Json.lookup_member "agent" members)) "__done__"
           && Json.truthy (default JNull (Json.lookup_member "response" members))
        then Some (default JNull (Json.lookup_member "response" members))
        else fc).
Proof.
  intros Hne Hl. unfold capture_final_response.
  rewrite Hne. cbn [negb]. rewrite Hl. cbn [mbind result_bind Json.get try_except].
  destruct (Json.eq_str (default JNull (Json.lookup_member "agent" members)) "__done__");
    cbn [mbind result_bind andb];
    destruct (Json.truthy (default JNull (Json.lookup_member "response" members)));
    reflexivity.
Qed.

(** The chunk that closes the second [try] block, by the captured content. *)
Lemma execute_body_object `{py : Platform} name text members :
  name <> END ->
  Py.nonempty text = true ->
  Json.loads (Py.strip text) = Ok (JObject members) ->
  Json.loads text = Ok (JObject members) ->
  execute_body
    ([[(name, mkUpdate [AIMessage (ContentStr text) []] name text None None)]], None)
  = agent_status name ::
    match
      (if Json.eq_str (default JNull (Json.lookup_member "agent" members)) "__done__"
          && Json.truthy (default JNull (Json.lookup_member "response" members))
       then Some (default JNull (Json.lookup_member "response" members))
       else if Json.has_key (JObject members) "agent"
               || Json.has_key (JObject members) "delegate"
            then None
            else Some (JString text))
    with
    | Some fc =>
        if Json.truthy fc then
          match fc with
          | JString s => [RunResponseChunk.mk "token" s (Some name)]
          | _ => [error_chunk
                    (mkExn ValidationError (validation_error "RunResponseChunk" fc))]
          end
        else []
    | None => []
    end.
Proof.
  intros Hne Ht Hl1 Hl2. unfold execute_body, execute_try. cbn [fst snd drive handle_items].
  rewrite (handle_plain_update name text text Hne).
  rewrite (capture_message_object None text members Ht Hl1). cbn [mbind result_bind].
  rewrite (capture_final_object _ text members Ht Hl2). cbn [mbind result_bind mret result_ret].
  cbn [final_content last_agent].
  destruct (Json.eq_str _ _ && Json.truthy _).
  - destruct (Json.truthy _); [|reflexivity].
    destruct (default JNull _); reflexivity.
  - destruct (_ || _); [reflexivity|].
    destruct (Json.truthy (JString text)); reflexivity.
Qed.

(** An answer that is a JSON object with an [agent] or a [delegate] key is
    taken for a routing message and is never forwarded, also when nothing
    routes on it: unless it is a done payload with a response, a single-agent
    run that ends on it yields no token and no error, only the two status
    chunks and the done chunk. *)
Theorem routing_json_is_not_forwarded `{py : Platform} (env : Env) (fuel : nat) (_cache : Cache)
    (system : SystemConfig.t) (agent : ResolvedAgent.t) (others : list ResolvedAgent.t)
    (graph : StateGraph) (prompt text : string) (c : ascii) (key : string)
    (members : list (string * JValue)) :
  SystemConfig.topology system = "single" ->
  merge_agents (SystemConfig.agents system) 0 = Ok (agent :: others) ->
  _build_single env agent = Ok graph ->
  _cache !! SystemConfig.id system = None ->
  ANTHROPIC_API_KEY env = Some (String c key) ->
  (forall model bound msgs,
     ainvoke env model bound msgs = Ok (mkResponse (ContentStr text) [])) ->
  Json.loads (Py.strip text) = Ok (JObject members) ->
  Json.loads text = Ok (JObject members) ->
  is_Some (Json.lookup_member "agent" members) \/
  is_Some (Json.lookup_member "delegate" members) ->
  Json.lookup_member "agent" members <> Some (JString "__done__") \/
  Json.truthy (default JNull (Json.lookup_member "response" members)) = false ->
  fst <$> execute_run env (S fuel) _cache system prompt
  = Some [processing_chunk; agent_status (ResolvedAgent.name agent); done_chunk].
Proof.
  intros Htop Hmerge Hbuild Hcache Hkey Hllm Hl1 Hl2 Hkeys Hnot.
  assert (Htext : Py.nonempty text = true).
  { destruct text; [|done]. vm_compute in Hl2. discriminate. }
  rewrite (single_run_of_update env (S fuel) _cache system agent others graph prompt
             (mkUpdate [AIMessage (ContentStr text) []] (ResolvedAgent.name agent) text
                None None) Htop Hmerge Hbuild Hcache).
  2:{ intros tools. by apply (agent_node_constant env fuel agent tools _ text c key). }
  rewrite (execute_body_object _ text members
             (build_single_name env agent graph Hbuild) Htext Hl1 Hl2).
  replace (Json.eq_str (default JNull (Json.lookup_member "agent" members)) "__done__"
           && Json.truthy (default JNull (Json.lookup_member "response" members)))
    with false.
  2:{ symmetry. apply andb_false_iff. destruct Hnot as [Hn|Hn]; [left|by right].
      destruct (Json.lookup_member "agent" members) as [[]|]; try reflexivity.
      simpl. apply bool_decide_eq_false_2. intros ->. done. }
  replace (Json.has_key (JObject members) "agent" || Json.has_key (JObject members) "delegate")
    with true; [reflexivity|].
  symmetry. apply orb_true_iff. unfold Json.has_key.
  destruct Hkeys as [[x ->]|[x ->]]; [by left|by right].
Qed.

Lemma routing_json_is_not_forwarded_witness :
  fst <$> execute_run (constant_env (json1 "delegate" "nobody")) 1 ∅ single_system "Help"
  = Some [processing_chunk; agent_status "writer_0"; done_chunk].
Proof.
  apply (routing_json_is_not_forwarded (constant_env (json1 "delegate" "nobody")) 0 ∅
           single_system
           (ResolvedAgent.mk "writer_0" "writer"
              "Creative writer for marketing and content." sonnet ["parse_document"]
              "Answer briefly.") []
           (mkGraph
              [("writer_0", AgentNode (ResolvedAgent.mk "writer_0" "writer"
                  "Creative writer for marketing and content." sonnet ["parse_document"]
                  "Answer briefly.") [("parse_document", parse_document_stub)])]
              (Some "writer_0") [("writer_0", END)] [])
           "Help" (json1 "delegate" "nobody") "s"%char "k-test"
           [("delegate", JString "nobody")]).
  - reflexivity.
  - reflexivity.
  - vm_compute. reflexivity.
  - reflexivity.
  - reflexivity.
  - intros. reflexivity.
  - vm_compute. reflexivity.
  - vm_compute. reflexivity.
  - right. simpl. eauto.
  - left. discriminate.
Defined.


(** A done payload delivers its response, not its text.  In a single-agent
    run whose model answers with a JSON object that has [agent] set to the
    done label and a string that is not empty as [response], the token chunk
    holds that string. *)
Theorem done_payload_response_is_the_token `{py : Platform} (env : Env) (fuel : nat) (_cache : Cache)
    (system : SystemConfig.t) (agent : ResolvedAgent.t) (others : list ResolvedAgent.t)
    (graph : StateGraph) (prompt text : string) (c : ascii) (key : string)
    (members : list (string * JValue)) (response : string) :
  SystemConfig.topology system = "single" ->
  merge_agents (SystemConfig.agents system) 0 = Ok (agent :: others) ->
  _build_single env agent = Ok graph ->
  _cache !! SystemConfig.id system = None ->
  ANTHROPIC_API_KEY env = Some (String c key) ->
  (forall model bound msgs,
     ainvoke env model bound msgs = Ok (mkResponse (ContentStr text) [])) ->
  Json.loads (Py.strip text) = Ok (JObject members) ->
  Json.loads text = Ok (JObject members) ->
  Json.lookup_member "agent" members = Some (JString "__done__") ->
  Json.lookup_member "response" members = Some (JString response) ->
  response <> "" ->
  fst <$> execute_run env (S fuel) _cache system prompt
  = Some [processing_chunk; agent_status (ResolvedAgent.name agent);
          RunResponseChunk.mk "token" response (Some (ResolvedAgent.name agent));
          done_chunk].
Proof.
  intros Htop Hmerge Hbuild Hcache Hkey Hllm Hl1 Hl2 Hagent Hresp Hne.
  assert (Htext : Py.nonempty text = true).
  { destruct text; [|done]. vm_compute in Hl2. discriminate. }
  rewrite (single_run_of_update env (S fuel) _cache system agent others graph prompt
             (mkUpdate [AIMessage (ContentStr text) []] (ResolvedAgent.name agent) text
                None None) Htop Hmerge Hbuild Hcache).
  2:{ intros tools. by apply (agent_node_constant env fuel agent tools _ text c key). }
  rewrite (execute_body_object _ text members
             (build_single_name env agent graph Hbuild) Htext Hl1 Hl2).
  rewrite Hagent, Hresp. cbn [default from_option id Json.eq_str Json.truthy].
  rewrite bool_decide_eq_true_2 by done.
  destruct response; [done|]. reflexivity.
Qed.

Lemma done_payload_response_is_the_token_witness :
  fst <$> execute_run (constant_env (json2 "agent" "__done__" "response" "All set."))
            1 ∅ single_system "Finish"
  = Some [processing_chunk; agent_status "writer_0";
          RunResponseChunk.mk "token" "All set." (Some "writer_0"); done_chunk].
Proof.
  apply (done_payload_response_is_the_token
           (constant_env (json2 "agent" "__done__" "response" "All set.")) 0 ∅ single_system
           (ResolvedAgent.mk "writer_0" "writer"
              "Creative writer for marketing and content." sonnet ["parse_document"]
              "Answer briefly.") []
           (mkGraph
              [("writer_0", AgentNode (ResolvedAgent.mk "writer_0" "writer"
                  "Creative writer for marketing and content." sonnet ["parse_document"]
                  "Answer briefly.") [("parse_document", parse_document_stub)])]
              (Some "writer_0") [("writer_0", END)] [])
           "Finish" (json2 "agent" "__done__" "response" "All set.") "s"%char "k-test"
           [("agent", JString "__done__"); ("response", JString "All set.")]).
  - reflexivity.
  - reflexivity.
  - vm_compute. reflexivity.
  - reflexivity.
  - reflexivity.
  - intros. reflexivity.
  - vm_compute. reflexivity.
  - vm_compute. reflexivity.
  - reflexivity.
  - reflexivity.
  - discriminate.
Defined.

(** ** A missing API key *)

Lemma all_space_ascii a r :
  Py.code a < 128 -> Py.isspace a = false -> Py.all_space (String a r) = false.
Proof.
  intros Ha Hs. cbn [Py.all_space]. rewrite Hs.
  destruct r as [|b [|c r]]; try reflexivity.
  - by rewrite isspace2_ascii_l.
  - by rewrite isspace2_ascii_l, isspace3_ascii_l.
Qed.

Lemma strip_keeps_first c r :
  Py.code c < 128 -> Py.isspace c = false ->
  exists r', Py.strip (String c r) = String c r'.
Proof.
  intros Hc Hs. unfold Py.strip. rewrite lstrip_ascii by done.
  cbn [Py.rstrip]. rewrite all_space_ascii by done. eauto.
Qed.

Lemma loads_E `{py : Platform} r : Json.loads (String "E" r) = Raise Json.decode_error.
Proof.
  unfold Json.loads.
  remember (2 * String.length _ + 2)%nat as fuel eqn:Hfuel.
  assert (Hf : (1 <= fuel)%nat) by (rewrite Hfuel; lia).
  clear Hfuel. destruct fuel as [|fuel]; [lia|]. clear Hf.
  reflexivity.
Qed.

Lemma agent_node_without_key `{py : Platform} env fuel agent prompt tools state :
  ANTHROPIC_API_KEY env = None \/ ANTHROPIC_API_KEY env = Some "" ->
  agent_node_try env fuel agent prompt tools state = Some (Raise missing_key).
Proof.
  intros Hk. unfold agent_node_try, _get_llm. by destruct Hk as [-> | ->].
Qed.

(** Without an API key a node raises before it consults the model, and the
    node fails soft: a single-agent run then ends like a successful one.  The
    client receives the text of the [RuntimeError] as the token chunk, and no
    error chunk; the graph is built and cached all the same. *)
Theorem missing_api_key_is_reported_as_token `{py : Platform} (env : Env) (fuel : nat) (_cache : Cache)
    (system : SystemConfig.t) (agent : ResolvedAgent.t) (others : list ResolvedAgent.t)
    (graph : StateGraph) (prompt : string) :
  SystemConfig.topology system = "single" ->
  merge_agents (SystemConfig.agents system) 0 = Ok (agent :: others) ->
  _build_single env agent = Ok graph ->
  _cache !! SystemConfig.id system = None ->
  ANTHROPIC_API_KEY env = None \/ ANTHROPIC_API_KEY env = Some "" ->
  execute_run env fuel _cache system prompt
  = Some ([processing_chunk; agent_status (ResolvedAgent.name agent);
           RunResponseChunk.mk "token" "ANTHROPIC_API_KEY environment variable is not set"
             (Some (ResolvedAgent.name agent));
           done_chunk],
          <[SystemConfig.id system := (_hash_system system (agent :: others), graph)]> _cache).
Proof.
  intros Htop Hmerge Hbuild Hcache Hkey.
  rewrite (single_run_of_update env fuel _cache system agent others graph prompt
             (agent_error_update agent missing_key) Htop Hmerge Hbuild Hcache).
  2:{ intros tools. unfold agent_node. by rewrite agent_node_without_key. }
  unfold agent_error_update.
  destruct (strip_keeps_first "E"
              ("rror in agent '" +:+ ResolvedAgent.name agent +:+ "': " +:+ exn_str missing_key)
              eq_refl eq_refl) as [r' Hr'].
  rewrite (execute_body_token (ResolvedAgent.name agent) _ (exn_str missing_key)
             Json.decode_error Json.decode_error
             (build_single_name env agent graph Hbuild)).
  - reflexivity.
  - reflexivity.
  - change ("Error in agent '" +:+ ?s) with (String "E" ("rror in agent '" +:+ s)).
    rewrite Hr'. apply loads_E.
  - reflexivity.
  - reflexivity.
  - apply (loads_E "NTHROPIC_API_KEY environment variable is not set").
  - reflexivity.
Qed.

Lemma missing_api_key_is_reported_as_token_witness :
  fst <$> execute_run (mkEnv None (fun _ _ _ => Ok (mkResponse (ContentStr "unused") []))
                         sample_registry) 0 ∅ single_system "Hello"
  = Some [processing_chunk; agent_status "writer_0";
          RunResponseChunk.mk "token" "ANTHROPIC_API_KEY environment variable is not set"
            (Some "writer_0");
          done_chunk].
Proof.
  erewrite (missing_api_key_is_reported_as_token
              (mkEnv None (fun _ _ _ => Ok (mkResponse (ContentStr "unused") []))
                 sample_registry) 0 ∅ single_system
              (ResolvedAgent.mk "writer_0" "writer"
                 "Creative writer for marketing and content." sonnet ["parse_document"]
                 "Answer briefly.") [] _ "Hello").
  - reflexivity.
  - reflexivity.
  - vm_compute. reflexivity.
  - vm_compute. reflexivity.
  - reflexivity.
  - by left.
Defined.


(* ===================================================================== *)
(** * Input contracts                                                     *)
(* ===================================================================== *)

Lemma field_check ty value :
  (bool_decide (ty = ContractField.TNumber) && is_bool value = false /\
   isinstance_of ty value = true) <-> field_accepts ty value.
Proof.
  destruct ty, value; simpl; split;
    try (intros [H1 H2]; discriminate);
    try (intros [? H]; discriminate);
    try (intros [[? H]|[? H]]; discriminate);
    eauto.
Qed.

Lemma validate_contract_cons field rest data :
  validate_contract (field :: rest) data = Ok () <->
  (exists value, data !! ContractField.name field = Some value /\
                 field_accepts (ContractField.type field) value) /\
  validate_contract rest data = Ok ().
Proof.
  cbn [validate_contract].
  destruct (data !! ContractField.name field) as [value|].
  2:{ split; [discriminate|]. intros [(v & Hv & _) _]. discriminate. }
  destruct (bool_decide _ && is_bool value) eqn:Hb.
  { split; [discriminate|]. intros [(v & Hv & Ha) _]. inversion Hv; subst v.
    apply field_check in Ha as [Ha _]. congruence. }
  destruct (isinstance_of _ value) eqn:Hi; cbn [negb].
  - split.
    + intros H. split; [|exact H]. exists value. split; [done|]. by apply field_check.
    + intros [_ H]. exact H.
  - split; [discriminate|]. intros [(v & Hv & Ha) _]. inversion Hv; subst v.
    apply field_check in Ha as [_ Ha]. congruence.
Qed.

(** [validate_contract] accepts the request data exactly when every field
    of the contract is present with a value of the JSON type the field asks
    for: a string for [string], an integer or a float but not a boolean for
    [number], a boolean for [boolean].  Keys of the data that the contract does
    not name are ignored, and a refusal is always a [ValueError]. *)
Theorem validate_contract_accepts (contract : list ContractField.t)
    (data : gmap string JValue) :
  (validate_contract contract data = Ok () <->
   Forall (fun field =>
             exists value,
               data !! ContractField.name field = Some value /\
               field_accepts (ContractField.type field) value) contract) /\
  (forall e, validate_contract contract data = Raise e -> exn_type e = ValueError).
Proof.
  split.
  - induction contract as [|field rest IH].
    + split; [constructor|reflexivity].
    + rewrite validate_contract_cons, IH. split.
      * intros [H1 H2]. by constructor.
      * intros H. inversion H; subst. done.
  - induction contract as [|field rest IH]; [discriminate|]. cbn [validate_contract].
    repeat (match goal with |- context [match ?x with _ => _ end] => destruct x end);
      try exact IH; intros e H; inversion H; reflexivity.
Qed.

(** The fields are checked in the order of the contract and the first one
    that fails decides the error.  A field that is absent is reported as
    missing; a boolean given for a [number] field is refused with a message
    of its own, although a Python [bool] is an [int]. *)
Theorem validate_contract_first_failure (good rest : list ContractField.t)
    (field : ContractField.t) (data : gmap string JValue) :
  validate_contract good data = Ok () ->
  (data !! ContractField.name field = None ->
   validate_contract (good ++ field :: rest) data
   = Raise (mkExn ValueError
              ("Missing required field '" +:+ ContractField.name field
               +:+ "' (expected type: "
               +:+ ContractField.type_str (ContractField.type field) +:+ ")"))) /\
  (forall b,
     data !! ContractField.name field = Some (JBool b) ->
     ContractField.type field = ContractField.TNumber ->
     validate_contract (good ++ field :: rest) data
     = Raise (mkExn ValueError
                ("Field '" +:+ ContractField.name field
                 +:+ "' must be a number, got boolean"))) /\
  (forall value,
     data !! ContractField.name field = Some value ->
     bool_decide (ContractField.type field = ContractField.TNumber) && is_bool value = false ->
     isinstance_of (ContractField.type field) value = false ->
     validate_contract (good ++ field :: rest) data
     = Raise (mkExn ValueError
                ("Field '" +:+ ContractField.name field +:+ "' must be of type "
                 +:+ ContractField.type_str (ContractField.type field)
                 +:+ ", got " +:+ Json.type_name value))).
Proof.
  intros Hgood.
  assert (Hskip : validate_contract (good ++ field :: rest) data
                  = validate_contract (field :: rest) data).
  { induction good as [|g good IH]; [done|].
    apply validate_contract_cons in Hgood as [(v & Hv & Ha) Hrest].
    apply field_check in Ha as [Hb Hi].
    change ((g :: good) ++ field :: rest) with (g :: (good ++ field :: rest)).
    cbn [validate_contract]. rewrite Hv, Hb, Hi. cbn [negb]. by apply IH. }
  rewrite Hskip. cbn [validate_contract]. repeat split.
  - intros ->. reflexivity.
  - intros b -> ->. reflexivity.
  - intros value -> Hb Hi. rewrite Hb, Hi. reflexivity.
Qed.

Lemma validate_contract_first_failure_witness :
  validate_contract
    [ContractField.mk "topic" ContractField.TString;
     ContractField.mk "limit" ContractField.TNumber;
     ContractField.mk "draft" ContractField.TBoolean]
    {[ "topic" := JString "rust"; "limit" := JBool true ]}
  = Raise (mkExn ValueError "Field 'limit' must be a number, got boolean").
Proof.
  destruct (validate_contract_first_failure
              [ContractField.mk "topic" ContractField.TString]
              [ContractField.mk "draft" ContractField.TBoolean]
              (ContractField.mk "limit" ContractField.TNumber)
              {[ "topic" := JString "rust"; "limit" := JBool true ]})
    as (_ & Hbool & _); [vm_compute; reflexivity|].
  apply (Hbool true); [vm_compute; reflexivity|reflexivity].
Defined.

(* ===================================================================== *)
(** * The tool registry                                                   *)
(* ===================================================================== *)

Lemma registry_set_lookup name tool registry :
  assoc name (registry_set name tool registry) = Some tool.
Proof.
  induction registry as [|[k t] rest IH]; simpl.
  - by rewrite decide_True.
  - destruct (decide (k = name)) as [->|Hne]; simpl.
    + by rewrite decide_True.
    + by rewrite decide_False.
Qed.

Lemma registry_set_other name tool registry n :
  n <> name -> assoc n (registry_set name tool registry) = assoc n registry.
Proof.
  intros Hn. induction registry as [|[k t] rest IH]; simpl.
  - by rewrite decide_False.
  - destruct (decide (k = name)) as [->|Hne]; simpl.
    + by rewrite !decide_False.
    + destruct (decide (k = n)); [done|exact IH].
Qed.

Lemma registry_set_keys name tool registry :
  List.map fst (registry_set name tool registry)
  = if bool_decide (name ∈ List.map fst registry) then List.map fst registry
    else List.map fst registry ++ [name].
Proof.
  induction registry as [|[k t] rest IH]; cbn [registry_set List.map fst].
  - rewrite bool_decide_eq_false_2 by apply not_elem_of_nil. done.
  - destruct (decide (k = name)) as [->|Hne]; cbn [List.map fst].
    + rewrite bool_decide_eq_true_2 by apply list_elem_of_here. done.
    + rewrite IH. destruct (decide (name ∈ List.map fst rest)) as [Hin|Hnin].
      * rewrite !bool_decide_eq_true_2; [done|by apply list_elem_of_further|done].
      * rewrite !bool_decide_eq_false_2; [done| |done].
        intros [->|?]%elem_of_cons; done.
Qed.

(** Registering a tool and resolving its name gives that tool back, also
    when the name was registered before: the later registration wins and the
    name keeps its place in [list_tools].  Every other name resolves as it did.
    A name that is new is listed last. *)
Theorem register_then_resolve `{py : Platform} (env : Env) (name : string) (tool : Tool) :
  resolve_tools (register env (name, tool)) [name] = Ok [(name, tool)] /\
  (forall n, n <> name ->
     assoc n (_registry (register env (name, tool))) = assoc n (_registry env)) /\
  list_tools (register env (name, tool))
  = (if bool_decide (name ∈ list_tools env) then list_tools env
     else list_tools env ++ [name]) /\
  (NoDup (list_tools env) -> NoDup (list_tools (register env (name, tool)))).
Proof.
  split; [|split; [|split]].
  - assert (Hl : assoc name (_registry (register env (name, tool))) = Some tool)
      by apply registry_set_lookup.
    unfold resolve_tools.
    rewrite no_missing_tools by (constructor; [by exists tool|constructor]).
    cbn [omap list_omap]. rewrite Hl. reflexivity.
  - intros n Hn. by apply registry_set_other.
  - apply registry_set_keys.
  - unfold list_tools, register. cbn [_registry fst snd]. rewrite registry_set_keys.
    intros Hnd. case_bool_decide as Hin; [done|].
    apply NoDup_app. split; [done|]. split; [|apply NoDup_singleton].
    intros x Hx [->|Hx']%elem_of_cons; [done|by apply elem_of_nil in Hx'].
Qed.

Lemma resolve_tools_omap env names :
  Forall (fun n => is_Some (assoc n (_registry env))) names ->
  List.map fst (omap (fun n => (fun t => (n, t)) <$> assoc n (_registry env)) names) = names /\
  Forall (fun nt => assoc nt.1 (_registry env) = Some nt.2)
    (omap (fun n => (fun t => (n, t)) <$> assoc n (_registry env)) names).
Proof.
  induction 1 as [|n names [t Ht] _ [IH1 IH2]]; [split; constructor|].
  cbn [omap list_omap]. rewrite Ht. cbn [fmap option_fmap option_map List.map fst].
  split; [by rewrite IH1|]. constructor; [exact Ht|exact IH2].
Qed.

(** [resolve_tools] is all or nothing.  When every name is registered it
    returns one tool per name, in the order of the names and with repetitions
    kept, each the registered tool of its name; otherwise it raises
    [ValueError] with the names that are missing, in the order given, and the
    names that are registered. *)
Theorem resolve_tools_all_or_nothing `{py : Platform} (env : Env) (names : list string) :
  (Forall (fun n => is_Some (assoc n (_registry env))) names ->
   exists tools,
     resolve_tools env names = Ok tools /\
     List.map fst tools = names /\
     Forall (fun nt => assoc nt.1 (_registry env) = Some nt.2) tools) /\
  (~ Forall (fun n => is_Some (assoc n (_registry env))) names ->
   resolve_tools env names
   = Raise (mkExn ValueError
              ("Unknown tool(s): "
               +:+ Py.repr_list
                     (List.filter (fun n => bool_decide (assoc n (_registry env) = None)) names)
               +:+ ". Available: " +:+ Py.repr_list (list_tools env)))).
Proof.
  split.
  - intros Hall. unfold resolve_tools. rewrite (no_missing_tools _ _ Hall).
    eexists. split; [reflexivity|]. by apply resolve_tools_omap.
  - intros Hnot. unfold resolve_tools.
    assert (Hf : List.filter (fun n => negb (bool_decide (is_Some (assoc n (_registry env)))))
                   names
                 = List.filter (fun n => bool_decide (assoc n (_registry env) = None)) names).
    { clear. induction names as [|n names IH]; [done|]. simpl. rewrite IH.
      destruct (assoc n (_registry env)) eqn:Ha.
      - rewrite bool_decide_eq_true_2 by eauto. by rewrite bool_decide_eq_false_2.
      - rewrite bool_decide_eq_false_2 by (intros [? ?]; done).
        by rewrite bool_decide_eq_true_2. }
    rewrite Hf. clear Hf.
    destruct (List.filter (fun n => bool_decide (assoc n (_registry env) = None)) names)
      as [|m missing] eqn:Hm; [|reflexivity].
    exfalso. apply Hnot. apply Forall_forall. intros n Hn.
    destruct (assoc n (_registry env)) eqn:Ha; [eauto|].
    assert (Hin : In n (List.filter (fun n => bool_decide (assoc n (_registry env) = None))
                          names)).
    { apply filter_In. split; [by apply list_elem_of_In|]. by apply bool_decide_eq_true_2. }
    rewrite Hm in Hin. destruct Hin.
Qed.

Lemma resolve_tools_all_or_nothing_witness :
  resolve_tools (constant_env "ok") ["calculate"; "tavily_search"; "send_email"]
  = Raise (mkExn ValueError
             "Unknown tool(s): ['tavily_search', 'send_email']. Available: ['calculate', 'accept_output', 'reject_output', 'parse_document']").
Proof.
  rewrite (proj2 (resolve_tools_all_or_nothing (constant_env "ok")
                    ["calculate"; "tavily_search"; "send_email"])).
  - vm_compute. reflexivity.
  - intros H. inversion H as [|? ? _ H']; subst. inversion H' as [|? ? [t Ht] _]; subst.
    vm_compute in Ht. discriminate.
Defined.


(* ===================================================================== *)
(** * The engine configuration                                            *)
(* ===================================================================== *)

Lemma for_each_ok {A} (body : A -> result unit) (l : list A) :
  for_each body l = Ok () <-> Forall (fun x => body x = Ok ()) l.
Proof.
  induction l as [|x l IH]; simpl; [split; [intros _; constructor|done]|].
  destruct (body x) as [[]|e] eqn:Hx; simpl.
  - rewrite IH. split; [by constructor|]. intros H. by inversion H.
  - split; [discriminate|]. intros H. inversion H; subst. congruence.
Qed.

Lemma find_system systems system_id :
  system_id ∈ List.map SystemConfig.id systems ->
  exists system,
    List.find (fun system => bool_decide (SystemConfig.id system = system_id)) systems
    = Some system /\
    SystemConfig.id system = system_id /\ system ∈ systems.
Proof.
  induction systems as [|s systems IH]; simpl; intros Hin; [by apply elem_of_nil in Hin|].
  case_bool_decide as Hs.
  - exists s. split; [done|]. split; [done|apply list_elem_of_here].
  - apply elem_of_cons in Hin as [Heq|Hin]; [done|].
    destruct (IH Hin) as (x & Hf & Hid & Hx). exists x.
    split; [done|]. split; [done|by apply list_elem_of_further].
Qed.

Lemma merge_agents_ok `{py : Platform} refs : forall i,
  Forall (fun ref => is_Some (assoc (SystemAgentRef.type ref) AGENT_TYPE_REGISTRY)) refs ->
  exists agents, merge_agents refs i = Ok agents.
Proof.
  induction refs as [|ref refs IH]; intros i Hall; simpl; [eauto|].
  inversion Hall as [|? ? [typedef Ht] Hall']; subst.
  unfold merge_agent, resolve_agent_type. rewrite Ht. simpl.
  destruct (IH (S i) Hall') as [l ->]. simpl. eauto.
Qed.

Lemma validate_references_checks `{py : Platform} (self : EngineConfig.t) :
  EngineConfig.validate_references self = Ok self <->
  Forall (fun ep => EndpointConfig.system_id ep
                    ∈ List.map SystemConfig.id (EngineConfig.systems self))
    (EngineConfig.endpoints self) /\
  Forall (fun fn => AsyncFunctionConfig.system_id fn
                    ∈ List.map SystemConfig.id (EngineConfig.systems self))
    (EngineConfig.async_functions self) /\
  Forall (fun system =>
            Forall (fun ref => is_Some (assoc (SystemAgentRef.type ref) AGENT_TYPE_REGISTRY))
              (SystemConfig.agents system))
    (EngineConfig.systems self).
Proof.
  unfold EngineConfig.validate_references.
  set (eps := for_each _ (EngineConfig.endpoints self)).
  set (fns := for_each _ (EngineConfig.async_functions self)).
  set (sys := for_each _ (EngineConfig.systems self)).
  assert (H1 : eps = Ok () <->
               Forall (fun ep => EndpointConfig.system_id ep
                                 ∈ List.map SystemConfig.id (EngineConfig.systems self))
                 (EngineConfig.endpoints self)).
  { unfold eps. rewrite for_each_ok. apply Forall_iff. intros ep. unfold Py.mem.
    case_bool_decide; split; (done || discriminate). }
  assert (H2 : fns = Ok () <->
               Forall (fun fn => AsyncFunctionConfig.system_id fn
                                 ∈ List.map SystemConfig.id (EngineConfig.systems self))
                 (EngineConfig.async_functions self)).
  { unfold fns. rewrite for_each_ok. apply Forall_iff. intros fn. unfold Py.mem.
    case_bool_decide; split; (done || discriminate). }
  assert (H3 : sys = Ok () <->
               Forall (fun system =>
                         Forall (fun ref => is_Some (assoc (SystemAgentRef.type ref)
                                                       AGENT_TYPE_REGISTRY))
                           (SystemConfig.agents system))
                 (EngineConfig.systems self)).
  { unfold sys. rewrite for_each_ok. apply Forall_iff. intros system.
    rewrite for_each_ok. apply Forall_iff. intros ref.
    destruct (assoc _ AGENT_TYPE_REGISTRY); split; try done; try discriminate; eauto. }
  rewrite <- H1, <- H2, <- H3.
  destruct eps as [[]|e1]; simpl; [|split; [discriminate|intros (? & _); discriminate]].
  destruct fns as [[]|e2]; simpl; [|split; [discriminate|intros (_ & ? & _); discriminate]].
  destruct sys as [[]|e3]; simpl; [|split; [discriminate|intros (_ & _ & ?); discriminate]].
  done.
Qed.

(** A configuration passes [validate_references] exactly when every
    endpoint and every scheduled function names the id of one of its systems
    and every agent reference names a type of the registry; the validator
    returns the configuration unchanged and fails with [ValueError] only. *)
Theorem validate_references_accepts `{py : Platform} (self : EngineConfig.t) :
  (EngineConfig.validate_references self = Ok self <->
   Forall (fun ep => EndpointConfig.system_id ep
                     ∈ List.map SystemConfig.id (EngineConfig.systems self))
     (EngineConfig.endpoints self) /\
   Forall (fun fn => AsyncFunctionConfig.system_id fn
                     ∈ List.map SystemConfig.id (EngineConfig.systems self))
     (EngineConfig.async_functions self) /\
   Forall (fun system =>
             Forall (fun ref => is_Some (assoc (SystemAgentRef.type ref) AGENT_TYPE_REGISTRY))
               (SystemConfig.agents system))
     (EngineConfig.systems self)) /\
  (forall c, EngineConfig.validate_references self = Ok c -> c = self) /\
  (forall e, EngineConfig.validate_references self = Raise e -> exn_type e = ValueError).
Proof.
  split; [apply validate_references_checks|].
  assert (Hraise : forall {A} (body : A -> result unit) (l : list A) e,
            (forall x e', body x = Raise e' -> exn_type e' = ValueError) ->
            for_each body l = Raise e -> exn_type e = ValueError).
  { intros A body l e Hbody. induction l as [|x l IH]; simpl; [discriminate|].
    destruct (body x) as [[]|e'] eqn:Hx; simpl; [exact IH|].
    intros H; inversion H; subst. by eapply Hbody. }
  unfold EngineConfig.validate_references.
  set (eps := for_each _ (EngineConfig.endpoints self)).
  set (fns := for_each _ (EngineConfig.async_functions self)).
  set (sys := for_each _ (EngineConfig.systems self)).
  split.
  - intros c. destruct eps as [[]|?]; simpl; [|discriminate].
    destruct fns as [[]|?]; simpl; [|discriminate].
    destruct sys as [[]|?]; simpl; [|discriminate].
    intros H; inversion H; reflexivity.
  - intros e.
    destruct eps as [[]|e1] eqn:H1; simpl.
    2:{ intros H; inversion H; subst. eapply Hraise; [|exact H1].
        intros ep e'. cbv beta. destruct (Py.mem _ _); intros He; inversion He; subst; reflexivity. }
    destruct fns as [[]|e2] eqn:H2; simpl.
    2:{ intros H; inversion H; subst. eapply Hraise; [|exact H2].
        intros fn e'. cbv beta. destruct (Py.mem _ _); intros He; inversion He; subst; reflexivity. }
    destruct sys as [[]|e3] eqn:H3; simpl; [discriminate|].
    intros H; inversion H; subst. eapply Hraise; [|exact H3].
    intros system e' He. cbv beta in He. eapply Hraise; [|exact He].
    intros ref e''. cbv beta.
    destruct (assoc (SystemAgentRef.type ref) AGENT_TYPE_REGISTRY);
      intros Hr; inversion Hr; subst; reflexivity.
Qed.

(** In a configuration that passed [validate_references], looking up the
    system of any endpoint or scheduled function succeeds and returns a system
    of the configuration with the id asked for, and the agents of every system
    can be resolved against the registry. *)
Theorem validated_config_resolves `{py : Platform} (self : EngineConfig.t) :
  EngineConfig.validate_references self = Ok self ->
  (forall ep, ep ∈ EngineConfig.endpoints self ->
     exists system,
       EngineConfig.get_system self (EndpointConfig.system_id ep) = Ok system /\
       SystemConfig.id system = EndpointConfig.system_id ep /\
       system ∈ EngineConfig.systems self) /\
  (forall fn, fn ∈ EngineConfig.async_functions self ->
     exists system,
       EngineConfig.get_system self (AsyncFunctionConfig.system_id fn) = Ok system /\
       SystemConfig.id system = AsyncFunctionConfig.system_id fn /\
       system ∈ EngineConfig.systems self) /\
  (forall system, system ∈ EngineConfig.systems self ->
     exists agents,
       merge_agents (SystemConfig.agents system) 0 = Ok agents /\
       length agents = length (SystemConfig.agents system)).
Proof.
  intros H. apply validate_references_checks in H as (Heps & Hfns & Hsys).
  rewrite Forall_forall in Heps. rewrite Forall_forall in Hfns.
  rewrite Forall_forall in Hsys.
  assert (Hget : forall system_id,
            system_id ∈ List.map SystemConfig.id (EngineConfig.systems self) ->
            exists system,
              EngineConfig.get_system self system_id = Ok system /\
              SystemConfig.id system = system_id /\ system ∈ EngineConfig.systems self).
  { intros system_id Hin. destruct (find_system _ _ Hin) as (s & Hf & Hid & Hs).
    exists s. unfold EngineConfig.get_system. rewrite Hf. done. }
  split; [|split].
  - intros ep Hep. apply Hget, Heps, Hep.
  - intros fn Hfn. apply Hget, Hfns, Hfn.
  - intros system Hs. destruct (merge_agents_ok _ 0 (Hsys system Hs)) as [agents Ha].
    exists agents. split; [exact Ha|]. by apply merge_agents_names in Ha as [Hlen _].
Qed.

Lemma validated_config_resolves_witness :
  EngineConfig.get_system
    (EngineConfig.mk
       [EndpointConfig.mk "summarise" None "review" [] "Summarise: {text}"]
       [single_system; sequential_system] [] None ["*"])
    "review"
  = Ok sequential_system.
Proof.
  destruct (validated_config_resolves
              (EngineConfig.mk
                 [EndpointConfig.mk "summarise" None "review" [] "Summarise: {text}"]
                 [single_system; sequential_system] [] None ["*"]))
    as (Heps & _); [vm_compute; reflexivity|].
  destruct (Heps (EndpointConfig.mk "summarise" None "review" [] "Summarise: {text}"))
    as (system & Hget & _); [apply list_elem_of_here|].
  simpl in Hget. rewrite Hget. vm_compute in Hget. inversion Hget. reflexivity.
Defined.


(* ===================================================================== *)
(** * Schedules                                                           *)
(* ===================================================================== *)

(** The validator of a schedule refuses exactly the weekly schedules
    without a day of the week and the monthly schedules without a day of the
    month, with a [ValueError]; it returns every other schedule as it is.  It
    reads neither the hour nor the values of the days: a daily schedule passes
    whatever its hour and its days are. *)
Theorem schedule_validator_refusals (schedule : ScheduleConfig.t) :
  ((exists e, ScheduleConfig.validate_schedule_fields schedule = Raise e) <->
   (ScheduleConfig.frequency schedule = ScheduleConfig.weekly /\
    ScheduleConfig.day_of_week schedule = None) \/
   (ScheduleConfig.frequency schedule = ScheduleConfig.monthly /\
    ScheduleConfig.day_of_month schedule = None)) /\
  (forall e, ScheduleConfig.validate_schedule_fields schedule = Raise e ->
     exn_type e = ValueError) /\
  (forall schedule', ScheduleConfig.validate_schedule_fields schedule = Ok schedule' ->
     schedule' = schedule) /\
  (forall hour day_of_week day_of_month,
     ScheduleConfig.validate_schedule_fields
       (ScheduleConfig.mk ScheduleConfig.daily hour day_of_week day_of_month)
     = Ok (ScheduleConfig.mk ScheduleConfig.daily hour day_of_week day_of_month)).
Proof.
  split; [|split; [|split]].
  - destruct schedule as [[] hour [dow|] [dom|]];
      unfold ScheduleConfig.validate_schedule_fields; simpl;
      (split; [intros [e He]; try discriminate; eauto|]);
      intros [[H1 H2]|[H1 H2]]; try discriminate; eauto.
  - intros e. destruct schedule as [[] hour [dow|] [dom|]];
      unfold ScheduleConfig.validate_schedule_fields; simpl; intros H;
      inversion H; reflexivity.
  - intros schedule'. destruct schedule as [[] hour [dow|] [dom|]];
      unfold ScheduleConfig.validate_schedule_fields; simpl; intros H;
      inversion H; reflexivity.
  - intros hour [dow|] [dom|]; reflexivity.
Qed.


(* ===================================================================== *)
(** * Server-sent events                                                  *)
(* ===================================================================== *)

Lemma all_chars_app p s t :
  all_chars p (s +:+ t) = all_chars p s && all_chars p t.
Proof.
  induction s as [|c s IH]; [done|]. rewrite append_cons. simpl. by rewrite IH, andb_assoc.
Qed.

Lemma code_chr n : 0 <= n < 256 -> Py.code (Py.chr n) = n.
Proof.
  intros Hn. unfold Py.code, Py.chr. rewrite N_ascii_embedding; [lia|].
  change 256%N with (Z.to_N 256). lia.
Qed.

Lemma printable_chr n : 32 <= n <= 126 -> printable (Py.chr n) = true.
Proof.
  intros Hn. unfold printable. rewrite code_chr by lia.
  apply andb_true_iff. split; lia.
Qed.

Lemma printable_hex_digit n : 0 <= n < 16 -> printable (Py.hex_digit n) = true.
Proof.
  intros Hn. unfold Py.hex_digit. destruct (n <? 10) eqn:Hlt.
  - apply printable_chr. lia.
  - apply Z.ltb_ge in Hlt. apply printable_chr. lia.
Qed.

Lemma printable_u_escape n : all_chars printable (Json.u_escape n) = true.
Proof.
  unfold Json.u_escape. cbn [all_chars].
  rewrite !printable_hex_digit by (apply Z.mod_pos_bound; lia). reflexivity.
Qed.

Lemma printable_escape n : all_chars printable (Json.escape_code_point n) = true.
Proof.
  unfold Json.escape_code_point.
  repeat (match goal with |- context [if ?b then _ else _] => destruct b eqn:? end;
          try reflexivity).
  - cbn [all_chars]. rewrite printable_chr; [done|].
    match goal with
    | H : (32 <=? n) && (n <=? 126) = true |- _ => apply andb_true_iff in H as [H1 H2]
    end. lia.
  - apply printable_u_escape.
  - rewrite all_chars_app, !printable_u_escape. reflexivity.
Qed.

Lemma printable_encode_string s : all_chars printable (Json.encode_string s) = true.
Proof.
  unfold Json.encode_string. rewrite !all_chars_app.
  change (all_chars printable Py.quote) with true. rewrite andb_true_r. cbn [andb].
  induction (Py.code_points s) as [|n l IH]; [done|].
  cbn [foldr]. by rewrite all_chars_app, printable_escape, IH.
Qed.

(** Every chunk of a run is written as exactly one server-sent event: the
    text [data: ], one line of JSON and an empty line.  Whatever the type,
    the content and the agent name hold, line breaks included, the JSON line
    consists of printable ASCII characters only, so no chunk can break the
    framing of the stream. *)
Theorem stream_events_are_single_lines (chunks : list Chunk) :
  length (stream chunks) = length chunks /\
  Forall2 (fun chunk event =>
             exists line,
               event = "data: " +:+ line +:+ Py.LF +:+ Py.LF /\
               line = dumps_in_order (chunk_model_dump chunk) /\
               all_chars printable line = true) chunks (stream chunks).
Proof.
  unfold stream. split; [by rewrite length_map|].
  induction chunks as [|chunk chunks IH]; [constructor|].
  cbn [List.map]. constructor; [|exact IH].
  eexists. split; [reflexivity|]. split; [reflexivity|].
  unfold chunk_model_dump. cbn [dumps_in_order List.map Py.join].
  rewrite !all_chars_app, !printable_encode_string.
  destruct (RunResponseChunk.agent chunk); cbn [dumps_in_order];
    rewrite ?printable_encode_string; reflexivity.
Qed.


(* ===================================================================== *)
(** * The format of the content hash                                      *)
(* ===================================================================== *)

Lemma nibble_is_hex w k : is_lower_hex (Sha256.nibble w k) = true.
Proof.
  unfold Sha256.nibble. change 15 with (Z.ones 4). rewrite Z.land_ones by lia.
  pose proof (Z.mod_pos_bound (Z.shiftr w (4 * k)) (2 ^ 4) eq_refl) as Hm.
  revert Hm. generalize (Z.shiftr w (4 * k) mod 2 ^ 4). intros m Hm.
  change (2 ^ 4) with 16 in Hm. unfold Py.hex_digit, is_lower_hex.
  destruct (m <? 10) eqn:Hlt.
  - apply Z.ltb_lt in Hlt. rewrite code_chr by lia.
    apply orb_true_iff. left. apply andb_true_iff. split; lia.
  - apply Z.ltb_ge in Hlt. rewrite code_chr by lia.
    apply orb_true_iff. right. apply andb_true_iff. split; lia.
Qed.

(** The content hash of a system is always sixteen lower-case hexadecimal
    digits, whatever the configuration and the agents. *)
Theorem hash_is_sixteen_hex_digits (system : SystemConfig.t)
    (agents : list ResolvedAgent.t) :
  String.length (_hash_system system agents) = 16%nat /\
  all_chars is_lower_hex (_hash_system system agents) = true.
Proof.
  unfold _hash_system, Sha256.hexdigest. rewrite hash_prefix.
  split; [reflexivity|].
  unfold Sha256.hex8. cbn [all_chars]. rewrite !nibble_is_hex. reflexivity.
Qed.


(* ===================================================================== *)
(** * From a valid configuration to a running graph                       *)
(* ===================================================================== *)

Lemma pretty_N_go_chars (p : ascii -> bool) :
  (forall x, p (pretty_N_char x) = true) ->
  forall x s, all_chars p s = true -> all_chars p (pretty_N_go x s) = true.
Proof.
  intros Hp x. induction (N.lt_wf_0 x) as [x _ IH]; intros s Hs.
  destruct (decide (x = 0)%N) as [->|Hx]; [by rewrite pretty_N_go_0|].
  rewrite pretty_N_go_step by lia. apply IH.
  - apply N.div_lt; lia.
  - cbn [all_chars]. by rewrite Hp, Hs.
Qed.

Lemma str_of_nat_chars (p : ascii -> bool) n :
  (forall x, p (pretty_N_char x) = true) -> all_chars p (Py.str_of_nat n) = true.
Proof.
  intros Hp. unfold Py.str_of_nat, pretty, pretty_nat, pretty, pretty_N.
  case_decide; [cbn [all_chars]; by rewrite (Hp 0%N : p "0"%char = true)|].
  by apply pretty_N_go_chars.
Qed.

Lemma contains_char_none c s :
  all_chars (fun a => negb (bool_decide (c = a))) s = true ->
  Py.contains (String c "") s = false.
Proof.
  induction s as [|a s IH]; [done|]. cbn [all_chars Py.contains Py.startswith].
  intros [Ha Hs]%andb_true_iff. rewrite (IH Hs).
  apply negb_true_iff, bool_decide_eq_false in Ha. rewrite decide_False by done. done.
Qed.

Lemma contains_char_app c s t :
  Py.contains (String c "") (s +:+ t)
  = Py.contains (String c "") s || Py.contains (String c "") t.
Proof.
  induction s as [|a s IH].
  - rewrite append_nil_l. cbn [Py.contains Py.startswith orb]. done.
  - rewrite append_cons. cbn [Py.contains Py.startswith]. rewrite IH.
    destruct (decide (c = a)); [|done]. by destruct (s +:+ t), s.
Qed.

(** The name of a resolved agent is a name [add_node] accepts: its type is a
    key of the registry, none of which holds a separator character, and it
    ends with the digits of its position. *)
Lemma merged_name_is_node_name `{py : Platform} ref i a :
  merge_agent ref i = Ok a -> node_name (ResolvedAgent.name a).
Proof.
  intros Hm. pose proof (merged_name_not_reserved _ _ _ Hm) as (_ & _ & _ & He & Hs).
  revert Hm. unfold merge_agent, resolve_agent_type.
  destruct (assoc (SystemAgentRef.type ref) AGENT_TYPE_REGISTRY) as [typedef|] eqn:Hk;
    simpl; [|discriminate].
  intros H. inversion H; subst; clear H. cbn [ResolvedAgent.name] in *.
  apply assoc_key in Hk. simpl in Hk.
  assert (Hbar : forall c, c = "|"%char \/ c = ":"%char ->
            Py.contains (String c "") (SystemAgentRef.type ref) = false ->
            Py.contains (String c "")
              (SystemAgentRef.type ref +:+ "_" +:+ Py.str_of_nat i) = false).
  { intros c Hc Ht. rewrite !contains_char_app, Ht.
    rewrite (contains_char_none c (Py.str_of_nat i)).
    - by destruct Hc as [-> | ->].
    - apply str_of_nat_chars. intros x. unfold pretty_N_char.
      destruct Hc as [-> | ->]; by repeat case_match. }
  split; [|split; [done|split; [done|]]].
  - unfold state_keys.
    repeat (apply elem_of_cons in Hk as [-> | Hk];
            [intros Hin;
             repeat (apply elem_of_cons in Hin as [Hin|Hin]; [discriminate|]);
             by apply elem_of_nil in Hin|]).
    by apply elem_of_nil in Hk.
  - split; apply Hbar; eauto;
      repeat (apply elem_of_cons in Hk as [-> | Hk]; [reflexivity|]);
      by apply elem_of_nil in Hk.
Qed.

Lemma merged_agents_buildable `{py : Platform} env refs agents :
  refs <> [] ->
  Forall (fun entry : string * AgentTypeDefinition.t =>
            Forall (fun n => is_Some (assoc n (_registry env)))
              (AgentTypeDefinition.tools entry.2)) AGENT_TYPE_REGISTRY ->
  merge_agents refs 0 = Ok agents ->
  buildable env agents.
Proof.
  intros Hne Hreg Hm.
  pose proof (merge_agents_names _ _ _ Hm) as [Hlen Hall].
  split; [|split; [|split]].
  - intros ->. destruct refs; [done|discriminate].
  - by eapply merge_agents_NoDup.
  - apply Forall_forall. intros a Ha. destruct (Hall a Ha) as (r & k & _ & _ & Hr).
    by apply merged_name_is_node_name in Hr.
  - apply Forall_forall. intros a Ha. destruct (Hall a Ha) as (r & k & _ & _ & Hr).
    apply merge_agent_name in Hr as (_ & _ & _ & typedef & Ht & _ & _ & ->).
    apply assoc_elem in Ht. rewrite Forall_forall in Hreg. exact (Hreg _ Ht).
Qed.

(** A system that the configuration validators accept never fails to
    build.  When the system has an agent, its topology is one of the four,
    every agent reference names a type of the registry and every tool of the
    registry's types is registered, the agents resolve, [get_or_build] returns
    a graph, and the run opens with the status chunk of the request and not
    with a build error. *)
Theorem valid_system_always_builds `{py : Platform} (driver : StateGraph -> AgentState -> option Trace)
    (env : Env) (_cache : Cache) (system : SystemConfig.t) (prompt : string) :
  must_have_agents (SystemConfig.agents system) = Ok (SystemConfig.agents system) ->
  SystemConfig.topology system ∈ ["single"; "sequential"; "orchestrator"; "decentralised"] ->
  Forall (fun ref => is_Some (assoc (SystemAgentRef.type ref) AGENT_TYPE_REGISTRY))
    (SystemConfig.agents system) ->
  Forall (fun entry : string * AgentTypeDefinition.t =>
            Forall (fun n => is_Some (assoc n (_registry env)))
              (AgentTypeDefinition.tools entry.2)) AGENT_TYPE_REGISTRY ->
  exists agents graph cache1,
    merge_agents (SystemConfig.agents system) 0 = Ok agents /\
    get_or_build env _cache system agents = (Ok graph, cache1) /\
    forall chunks cache',
      execute_run_with driver env _cache system prompt = Some (chunks, cache') ->
      head chunks = Some processing_chunk /\ cache' = cache1.
Proof.
  intros Hmust Htop Hrefs Hreg.
  assert (Hne : SystemConfig.agents system <> []).
  { intros Heq. rewrite Heq in Hmust. discriminate. }
  destruct (merge_agents_ok _ 0 Hrefs) as [agents Hm].
  pose proof (merged_agents_buildable env _ _ Hne Hreg Hm) as Hb.
  destruct (build_graph_ok env system agents Htop Hb) as [g Hg].
  assert (Hgob : exists graph cache1,
            get_or_build env _cache system agents = (Ok graph, cache1)).
  { unfold get_or_build. rewrite Hg.
    destruct (_cache !! SystemConfig.id system) as [[h g0]|]; [|eauto].
    case_bool_decide; eauto. }
  destruct Hgob as (graph & cache1 & Hgob).
  exists agents, graph, cache1. split; [exact Hm|]. split; [exact Hgob|].
  intros chunks cache'. unfold execute_run_with. rewrite Hm, Hgob.
  destruct (driver graph (initial_state prompt)); [|discriminate].
  intros H; inversion H; subst. done.
Qed.

Lemma valid_system_always_builds_witness :
  exists agents graph cache1,
    merge_agents (SystemConfig.agents sequential_system) 0 = Ok agents /\
    get_or_build
      (mkEnv (Some "sk-test") (fun _ _ _ => Ok (mkResponse (ContentStr "ok") []))
         (List.map (fun n => (n, parse_document_stub))
            (concat (List.map (fun entry => AgentTypeDefinition.tools entry.2)
                       AGENT_TYPE_REGISTRY))))
      ∅ sequential_system agents = (Ok graph, cache1).
Proof.
  destruct (valid_system_always_builds
              (fun _ _ => None)
              (mkEnv (Some "sk-test") (fun _ _ _ => Ok (mkResponse (ContentStr "ok") []))
                 (List.map (fun n => (n, parse_document_stub))
                    (concat (List.map (fun entry => AgentTypeDefinition.tools entry.2)
                               AGENT_TYPE_REGISTRY))))
              ∅ sequential_system "Write a haiku")
    as (agents & graph & cache1 & Hm & Hg & _).
  - reflexivity.
  - simpl. apply list_elem_of_further, list_elem_of_here.
  - repeat constructor; simpl; eauto.
  - apply (bool_decide_unpack _). vm_compute. exact I.
  - exists agents, graph, cache1. split; [exact Hm|exact Hg].
Defined.

